(** * Resume tailor: scraping, tolerant JSON recovery and rendering

    A shallow embedding of the core functions of [app.py]
    ([_extract_linkedin_job_id], [_scrape_linkedin_guest_api],
    [scrape_job_url], [parse_json_response], [render_resume_html]) and the
    properties stated about them.

    Text is modelled as [string]: a sequence of characters with code points
    below 256, each held in an [ascii].  The Python library functions the
    source calls ([str.strip], [str.replace], [re.search], [json.loads],
    [urlparse]) are modelled by their documented behaviour on such text. *)

From Stdlib Require Import String Ascii List Bool Arith Lia.
Import ListNotations.
Open Scope list_scope.
Open Scope string_scope.
Open Scope nat_scope.

Set Implicit Arguments.

(* ===================================================================== *)
(** ** Python string primitives *)
(* ===================================================================== *)

Module Py.

(** [str.isspace] on one character: the white space of the first 256 code
    points. *)
Definition isspace (c : ascii) : bool :=
  let n := nat_of_ascii c in
  ((9 <=? n) && (n <=? 13)) || ((28 <=? n) && (n <=? 32))
  || (n =? 133) || (n =? 160).

Definition isdigit (c : ascii) : bool :=
  let n := nat_of_ascii c in (48 <=? n) && (n <=? 57).

Fixpoint take (n : nat) (s : string) : string :=
  match n, s with
  | S k, String c s' => String c (take k s')
  | _, _ => ""
  end.

Fixpoint drop (n : nat) (s : string) : string :=
  match n, s with
  | S k, String _ s' => drop k s'
  | _, _ => s
  end.

(** [s.startswith(p)] *)
Definition startswith (p s : string) : bool := prefix p s.

Fixpoint lstrip (s : string) : string :=
  match s with
  | String c s' => if isspace c then lstrip s' else s
  | "" => ""
  end.

Fixpoint rstrip (s : string) : string :=
  match s with
  | String c s' =>
      match rstrip s' with
      | "" => if isspace c then "" else String c ""
      | r => String c r
      end
  | "" => ""
  end.

(** [s.strip()] *)
Definition strip (s : string) : string := rstrip (lstrip s).

(** [sub in s] *)
Fixpoint contains (sub s : string) : bool :=
  prefix sub s ||
  match s with
  | String _ s' => contains sub s'
  | "" => false
  end.

(** [s.replace(old, new)]: the occurrences of [old] are found from the left,
    never overlapping.  [skip] counts the characters of a found occurrence
    that are still to be passed over. *)
Fixpoint replace_from (old new : string) (skip : nat) (s : string) : string :=
  match s with
  | "" => match old with "" => new | _ => "" end
  | String c s' =>
      match skip with
      | S k => replace_from old new k s'
      | O =>
          match old with
          | "" => new ++ String c (replace_from old new 0 s')
          | _ =>
              if prefix old s
              then new ++ replace_from old new (String.length old - 1) s'
              else String c (replace_from old new 0 s')
          end
      end
  end.

Definition replace (old new s : string) : string := replace_from old new 0 s.

(** [sep.join(parts)] *)
Definition join (sep : string) (parts : list string) : string :=
  String.concat sep parts.

End Py.

(* ===================================================================== *)
(** ** The fragment of Python's [re] used by the source *)
(* ===================================================================== *)

Module Re.

(** Patterns.  Every repetition in the source ranges over one character
    class; there is at most one capturing group per pattern. *)
Inductive regex : Type :=
| Eps
| Lit (l : string)                                (* literal text *)
| Cls (p : ascii -> bool)                         (* one character of a class *)
| Rep (greedy : bool) (lo : nat) (p : ascii -> bool) (* class{lo,} or class{lo,}? *)
| Seq (r1 r2 : regex)
| Alt (r1 r2 : regex)                             (* r1|r2 *)
| Opt (r : regex)                                 (* (?:r)? *)
| Grp (r : regex)                                 (* (r), group 1 *)
| Eos.                                            (* $ *)

(** Character classes. *)
Definition digit : ascii -> bool := Py.isdigit.                    (* \d *)
Definition space : ascii -> bool := Py.isspace.                    (* \s *)
Definition any : ascii -> bool := fun _ => true.                   (* . with DOTALL *)
Definition dot : ascii -> bool :=
  fun c => negb (Ascii.eqb c "010").  (* . *)
Definition one_of (cs : string) : ascii -> bool :=
  fun c => Py.contains (String c "") cs.                           (* [cs] *)

(** Number of leading characters of [s] in the class [p]. *)
Fixpoint span (p : ascii -> bool) (s : string) : nat :=
  match s with
  | String c s' => if p c then S (span p s') else 0
  | "" => 0
  end.

(** The counts a repetition tries, in the order of the backtracking
    matcher: longest first when greedy, shortest first when lazy. *)
Definition rep_counts (greedy : bool) (lo hi : nat) : list nat :=
  let up := seq lo (S hi - lo) in
  if greedy then rev up else up.

Arguments rep_counts : simpl never.

(** A partial match: the value of group 1 so far and the text left. *)
Definition pm : Type := (option string * string)%type.

(** The text consumed between [s] and one of its suffixes [rest]. *)
Definition consumed (s rest : string) : string :=
  Py.take (String.length s - String.length rest) s.

Arguments consumed : simpl never.

(** All the ways [r] matches at the start of [s], in the order in which the
    backtracking matcher tries them. *)
Fixpoint matches (r : regex) (cap : option string) (s : string) : list pm :=
  match r with
  | Eps => [(cap, s)]
  | Lit l => if prefix l s then [(cap, Py.drop (String.length l) s)] else []
  | Cls p =>
      match s with
      | String c s' => if p c then [(cap, s')] else []
      | "" => []
      end
  | Rep greedy lo p =>
      map (fun k => (cap, Py.drop k s)) (rep_counts greedy lo (span p s))
  | Seq r1 r2 =>
      flat_map (fun m : pm => matches r2 (fst m) (snd m)) (matches r1 cap s)
  | Alt r1 r2 => (matches r1 cap s ++ matches r2 cap s)%list
  | Opt r1 => (matches r1 cap s ++ [(cap, s)])%list
  | Grp r1 =>
      map (fun m : pm => (Some (consumed s (snd m)), snd m)) (matches r1 cap s)
  | Eos =>
      if (s =? "")%string || (s =? String "010" "")%string then [(cap, s)] else []
  end.

(** A match object: where it starts, [group(0)] and [group(1)]. *)
Record match_obj : Type := MatchObj {
  start : nat;
  group0 : string;
  group1 : option string
}.

(** [re.search(r, s)] scanning from offset [pos]. *)
Fixpoint search_from (r : regex) (pos : nat) (s : string) : option match_obj :=
  match matches r None s with
  | (cap, rest) :: _ => Some (MatchObj pos (consumed s rest) cap)
  | [] =>
      match s with
      | String _ s' => search_from r (S pos) s'
      | "" => None
      end
  end.

Definition search (r : regex) (s : string) : option match_obj :=
  search_from r 0 s.

End Re.

(* ===================================================================== *)
(** ** Job identifier of a LinkedIn URL *)
(* ===================================================================== *)

Import Re.

(** [jobs/view/(?:.*?[-/])?(\d{8,})] *)
Definition re_path : regex :=
  Seq (Lit "jobs/view/")
      (Seq (Opt (Seq (Rep false 0 dot) (Cls (one_of "-/"))))
           (Grp (Rep true 8 digit))).

(** [currentJobId=(\d+)] *)
Definition re_query : regex :=
  Seq (Lit "currentJobId=") (Grp (Rep true 1 digit)).

(** [/(\d{8,})/?(?:\?|$)] *)
Definition re_trailing : regex :=
  Seq (Lit "/")
      (Seq (Grp (Rep true 8 digit))
           (Seq (Opt (Lit "/")) (Alt (Lit "?") Eos))).

Definition _extract_linkedin_job_id (url : string) : option string :=
  match search re_path url with
  | Some m => group1 m
  | None =>
      match search re_query url with
      | Some m => group1 m
      | None =>
          match search re_trailing url with
          | Some m => group1 m
          | None => None
          end
      end
  end.

(* ===================================================================== *)
(** ** Digit runs and pattern precedence *)
(* ===================================================================== *)

(** The three patterns, in the order the source tries them. *)
Inductive id_pattern : Type := PathSegment | QueryParam | TrailingSegment.

Definition pattern_regex (k : id_pattern) : regex :=
  match k with
  | PathSegment => re_path
  | QueryParam => re_query
  | TrailingSegment => re_trailing
  end.

(** Least number of digits the pattern's group accepts. *)
Definition min_digits (k : id_pattern) : nat :=
  match k with
  | PathSegment => 8
  | QueryParam => 1
  | TrailingSegment => 8
  end.

(** The first pattern that matches [url], in precedence order. *)
Definition first_matching (url : string) : option id_pattern :=
  match search re_path url, search re_query url, search re_trailing url with
  | Some _, _, _ => Some PathSegment
  | None, Some _, _ => Some QueryParam
  | None, None, Some _ => Some TrailingSegment
  | None, None, None => None
  end.

(** Every character of [s] is in the class [p]. *)
Fixpoint all_in (p : ascii -> bool) (s : string) : bool :=
  match s with
  | String c s' => p c && all_in p s'
  | "" => true
  end.

(** [id] is a run of digits of [url] that cannot be extended on either side:
    a non-digit stands before it, and no digit follows it. *)
Definition maximal_digit_run (url id : string) : Prop :=
  exists pre c post,
    url = pre ++ String c id ++ post /\
    digit c = false /\ all_in digit id = true /\ span digit post = 0.


(* ===================================================================== *)
(** ** Outcomes of Python code *)
(* ===================================================================== *)

(** The exceptions the modelled code can meet. *)
Inductive exn : Type :=
| AttributeError
| IndexError
| ValueError
| RequestException        (* any failure of [requests.get] *)
| HTTPError               (* [raise_for_status] on a response that is not ok *)
| ParserError.            (* any failure inside the HTML parser *)

(** A call either returns a value or raises. *)
Inductive outcome (A : Type) : Type :=
| Returns (a : A)
| Raises (e : exn).

Arguments Returns {A} a.
Arguments Raises {A} e.

Definition bind {A B : Type} (o : outcome A) (k : A -> outcome B) : outcome B :=
  match o with
  | Returns a => k a
  | Raises e => Raises e
  end.

Notation "x <- o ;; k" := (bind o (fun x => k))
  (at level 61, o at next level, right associativity).

(** [try: body except Exception: pass], followed by [rest] when the body
    did not return from the function: [body] yields [Some v] when it executed
    [return v] and [None] when it ran to its end. *)
Definition try_except_pass {A : Type} (body : outcome (option A))
    (rest : outcome (option A)) : outcome (option A) :=
  match body with
  | Returns (Some v) => Returns (Some v)
  | Returns None => rest
  | Raises _ => rest
  end.

(** Text written with apostrophes in place of its double quotes. *)
Definition quoted (s : string) : string :=
  Py.replace "'" (String "034" "") s.

(** The strings of a list, one after the other. *)
Definition cat_all (l : list string) : string := fold_right append "" l.

(* ===================================================================== *)
(** ** JSON values and [json.loads] *)
(* ===================================================================== *)

Module Json.

(** The values [json.loads] builds.  A number keeps its lexeme; a [dict]
    keeps its keys in insertion order. *)
#[warnings="-register-all"]
Inductive json : Type :=
| JNull
| JBool (b : bool)
| JNum (lexeme : string)
| JStr (s : string)
| JArr (items : list json)
| JObj (pairs : list (string * json)).

Definition dict : Type := list (string * json).

(** [isinstance(v, dict)] *)
Definition is_dict (v : json) : bool :=
  match v with
  | JObj _ => true
  | _ => false
  end.

(** [d.get(k)] *)
Fixpoint lookup (k : string) (d : dict) : option json :=
  match d with
  | (k', v) :: d' => if (k =? k')%string then Some v else lookup k d'
  | [] => None
  end.

(** [d.get(k, default)] *)
Definition get (d : dict) (k : string) (default : json) : json :=
  match lookup k d with
  | Some v => v
  | None => default
  end.

(** [v == s] for the result [v] of [d.get(k)] and a string [s]. *)
Definition equals_str (v : option json) (s : string) : bool :=
  match v with
  | Some (JStr t) => (t =? s)%string
  | _ => false
  end.

(** [d[k] = v] *)
Fixpoint set (k : string) (v : json) (d : dict) : dict :=
  match d with
  | (k', v') :: d' =>
      if (k =? k')%string then (k', v) :: d' else (k', v') :: set k v d'
  | [] => [(k, v)]
  end.

(** White space between JSON tokens. *)
Definition ws : ascii -> bool := one_of (String " " (String "009" (String "010" (String "013" "")))).

Definition skip_ws (s : string) : string := Py.drop (span ws s) s.

(** The number pattern of the decoder: an optional minus sign, [0] or a
    non-zero digit followed by digits, an optional fraction [\.\d+] and an
    optional exponent [[eE][-+]?\d+]. *)
Definition re_number : regex :=
  Seq (Seq (Opt (Lit "-"))
           (Alt (Lit "0") (Seq (Cls (one_of "123456789")) (Rep true 0 digit))))
      (Seq (Opt (Seq (Lit ".") (Rep true 1 digit)))
           (Opt (Seq (Cls (one_of "eE"))
                     (Seq (Opt (Cls (one_of "-+"))) (Rep true 1 digit))))).

Definition match_number (s : string) : option (string * string) :=
  match matches re_number None s with
  | (_, rest) :: _ => Some (consumed s rest, rest)
  | [] => None
  end.

Definition hex_value (c : ascii) : option nat :=
  let n := nat_of_ascii c in
  if (48 <=? n) && (n <=? 57) then Some (n - 48)
  else if (65 <=? n) && (n <=? 70) then Some (n - 55)
  else if (97 <=? n) && (n <=? 102) then Some (n - 87)
  else None.

(** The character a one-letter escape stands for. *)
Definition unescape (e : ascii) : option ascii :=
  if Ascii.eqb e "034" then Some "034"%char
  else if Ascii.eqb e "\" then Some "\"%char
  else if Ascii.eqb e "/" then Some "/"%char
  else if Ascii.eqb e "b" then Some "008"%char
  else if Ascii.eqb e "f" then Some "012"%char
  else if Ascii.eqb e "n" then Some "010"%char
  else if Ascii.eqb e "r" then Some "013"%char
  else if Ascii.eqb e "t" then Some "009"%char
  else None.

(** The text of a string literal after its opening quote, and what follows
    its closing quote.  Control characters are refused (strict mode).  An
    escape [\uXXXX] of a character above U+00FF denotes a character outside
    the modelled range of text and is refused by the model. *)
Fixpoint scanstring (s : string) : option (string * string) :=
  match s with
  | "" => None
  | String c s' =>
      if Ascii.eqb c "034" then Some ("", s')
      else if Ascii.eqb c "\" then
        match s' with
        | String e s'' =>
            if Ascii.eqb e "u" then
              match s'' with
              | String h1 (String h2 (String h3 (String h4 r))) =>
                  match hex_value h1, hex_value h2, hex_value h3, hex_value h4 with
                  | Some 0, Some 0, Some a, Some b =>
                      match scanstring r with
                      | Some (t, rest) => Some (String (ascii_of_nat (16 * a + b)) t, rest)
                      | None => None
                      end
                  | _, _, _, _ => None
                  end
              | _ => None
              end
            else
              match unescape e, scanstring s'' with
              | Some ch, Some (t, rest) => Some (String ch t, rest)
              | _, _ => None
              end
        | "" => None
        end
      else if nat_of_ascii c <? 32 then None
      else
        match scanstring s' with
        | Some (t, rest) => Some (String c t, rest)
        | None => None
        end
  end.

(** One JSON value at the start of [s], and the text after it.  [fuel]
    bounds the nesting depth; the length of the text is always enough. *)
Fixpoint scan_once (fuel : nat) (s : string) : option (json * string) :=
  match fuel with
  | 0 => None
  | S f =>
      match s with
      | "" => None
      | String c r =>
          if Ascii.eqb c "034" then
            match scanstring r with
            | Some (t, rest) => Some (JStr t, rest)
            | None => None
            end
          else if Ascii.eqb c "{" then
            match skip_ws r with
            | String c1 r1 =>
                if Ascii.eqb c1 "}" then Some (JObj [], r1)
                else if Ascii.eqb c1 "034" then object_pairs f r1 []
                else None
            | "" => None
            end
          else if Ascii.eqb c "[" then
            match skip_ws r with
            | String c1 r1 =>
                if Ascii.eqb c1 "]" then Some (JArr [], r1)
                else array_items f (String c1 r1) []
            | "" => None
            end
          else if prefix "null" s then Some (JNull, Py.drop 4 s)
          else if prefix "true" s then Some (JBool true, Py.drop 4 s)
          else if prefix "false" s then Some (JBool false, Py.drop 5 s)
          else
            match match_number s with
            | Some (lexeme, rest) => Some (JNum lexeme, rest)
            | None =>
                if prefix "NaN" s then Some (JNum "NaN", Py.drop 3 s)
                else if prefix "Infinity" s then Some (JNum "Infinity", Py.drop 8 s)
                else if prefix "-Infinity" s then Some (JNum "-Infinity", Py.drop 9 s)
                else None
            end
      end
  end

(** The pairs of an object, from just after the opening quote of a key. *)
with object_pairs (fuel : nat) (s : string) (acc : dict) : option (json * string) :=
  match fuel with
  | 0 => None
  | S f =>
      match scanstring s with
      | Some (key, r) =>
          match skip_ws r with
          | String c1 r1 =>
              if Ascii.eqb c1 ":" then
                match scan_once f (skip_ws r1) with
                | Some (v, r2) =>
                    let acc' := set key v acc in
                    match skip_ws r2 with
                    | String c3 r3 =>
                        if Ascii.eqb c3 "}" then Some (JObj acc', r3)
                        else if Ascii.eqb c3 "," then
                          match skip_ws r3 with
                          | String c4 r4 =>
                              if Ascii.eqb c4 "034" then object_pairs f r4 acc'
                              else None
                          | "" => None
                          end
                        else None
                    | "" => None
                    end
                | None => None
                end
              else None
          | "" => None
          end
      | None => None
      end
  end

(** The items of an array, from the start of an item. *)
with array_items (fuel : nat) (s : string) (acc : list json) : option (json * string) :=
  match fuel with
  | 0 => None
  | S f =>
      match scan_once f s with
      | Some (v, r) =>
          match skip_ws r with
          | String c1 r1 =>
              if Ascii.eqb c1 "]" then Some (JArr (rev (v :: acc)), r1)
              else if Ascii.eqb c1 "," then array_items f (skip_ws r1) (v :: acc)
              else None
          | "" => None
          end
      | None => None
      end
  end.

(** [json.loads(s)]: [None] stands for [json.JSONDecodeError].  The limit
    of the interpreter on the nesting depth is not modelled. *)
Definition loads (s : string) : option json :=
  match scan_once (S (String.length s)) (skip_ws s) with
  | Some (v, rest) =>
      match skip_ws rest with
      | "" => Some v
      | _ => None
      end
  | None => None
  end.

End Json.

Import Json.

(* ===================================================================== *)
(** ** Recovering a mapping from a model response *)
(* ===================================================================== *)

Definition fence : string := "```".

(** A line feed. *)
Definition nl : string := String "010" "".

(** [```(?:json)?\s*\n?(.*?)```] with [re.DOTALL] *)
Definition re_fence : regex :=
  Seq (Lit fence)
      (Seq (Opt (Lit "json"))
           (Seq (Rep true 0 space)
                (Seq (Opt (Lit (String "010" "")))
                     (Seq (Grp (Rep false 0 any)) (Lit fence))))).

(** [\{.*\}] with [re.DOTALL] *)
Definition re_object : regex :=
  Seq (Lit "{") (Seq (Rep true 0 any) (Lit "}")).

Section Parser.

(** [json.loads] on a [str]; [None] stands for [json.JSONDecodeError], the
    only exception the model gives it. *)
Variable json_loads : string -> option json.

(** The text handed to the first [json.loads]: the content of the first
    fenced block of the stripped text when there is one, the stripped text
    otherwise. *)
Definition candidate (text : string) : outcome string :=
  let text := Py.strip text in
  match search re_fence text with
  | Some m =>
      match group1 m with
      | Some g => Returns (Py.strip g)
      | None => Raises AttributeError
      end
  | None => Returns text
  end.

Definition parse_json_response (text : string) : outcome json :=
  text <- candidate text ;;
  match json_loads text with
  | Some v => Returns v
  | None =>
      match search re_object text with
      | Some m =>
          match json_loads (group0 m) with
          | Some v => Returns v
          | None => Returns (JObj [])
          end
      | None => Returns (JObj [])
      end
  end.

End Parser.

(* ===================================================================== *)
(** ** Rendering *)
(* ===================================================================== *)

Definition span_open : string := quoted "<span class='changed'>".
Definition span_close : string := "</span>".

(** The two branches on [highlight_changes] at the end of
    [render_resume_html]. *)
Definition change_markers (highlight_changes : bool) (html : string) : string :=
  if highlight_changes
  then Py.replace "]]" span_close (Py.replace "[[" span_open html)
  else Py.replace "]]" "" (Py.replace "[[" "" html).

Section Render.

(** [Template(template_str).render(name=..., contact_line=..., sections=...)]:
    the text the template file gives for the three values. *)
Variable template : json -> json -> json -> string.

Definition render_resume_html (data : dict) (highlight_changes : bool) : string :=
  let html :=
    template (get data "name" (JStr ""))
             (get data "contact_line" (JStr ""))
             (get data "sections" (JArr [])) in
  change_markers highlight_changes html.

End Render.

(** *** The template *)

(** Modelled from the spec: the template file [resume_template.html] is not
    among the sources; these are the places of its own markup, between the
    fields of the document schema that section 3 of the specification and
    the prompt of [tailor_resume] list. *)
Inductive slot : Type :=
| DocOpen | DocSep | DocBody | DocClose
| TextOpen | TextMid | TextClose
| ExpOpen | ExpMid | ExpClose
| EntryOpen | EntrySep1 | EntrySep2 | EntrySep3 | EntrySep4 | EntryMid | EntryClose
| SubOpen | SubMid | SubClose
| BulletOpen | BulletClose
| ListOpen | ListMid | ListClose
| LineOpen | LineClose.

(** Modelled from the spec: a subsection of an entry of the Document of
    section 3, which the sources hold only as the schema in the prompt of
    [tailor_resume]: its title and its bullets. *)
Record subsection : Type := Subsection {
  sub_title : string;
  sub_bullets : list string
}.

(** Modelled from the spec: an entry of an experience section of the Document
    of section 3, with its four header fields, its subsections and its own
    bullets. *)
Record entry : Type := Entry {
  left_primary : string;
  right_primary : string;
  left_secondary : string;
  right_secondary : string;
  subsections : list subsection;
  bullets : list string
}.

(** Modelled from the spec: a section of the Document of section 3, of one
    of the three kinds; [UnknownSection] stands for a section of any other
    kind, which section 4.4 renders as an empty block. *)
Inductive section : Type :=
| TextSection (title content : string)
| ExperienceSection (title : string) (entries : list entry)
| ListSection (title : string) (lines : list string)
| UnknownSection.

(** Modelled from the spec: the Document of section 3. *)
Record document : Type := Document {
  doc_name : string;
  doc_contact_line : string;
  doc_sections : list section
}.

(** The values of a list of optional values, when all are there. *)
Fixpoint all_some {A : Type} (l : list (option A)) : option (list A) :=
  match l with
  | [] => Some []
  | Some a :: rest =>
      match all_some rest with
      | Some r => Some (a :: r)
      | None => None
      end
  | None :: _ => None
  end.

(** Modelled from the spec: a string of the Document; any other value is
    outside the schema of section 3. *)
Definition text_value (v : json) : option string :=
  match v with
  | JStr s => Some s
  | _ => None
  end.

(** Modelled from the spec: the string under the key [k] of a section or an
    entry; a missing key reads as the empty string (section 4.4), and a value
    that is not a string is outside the schema. *)
Definition text_field (k : string) (o : dict) : option string :=
  match lookup k o with
  | Some v => text_value v
  | None => Some ""
  end.

(** Modelled from the spec: the sequence under the key [k] of a section or an
    entry, each item read by [item_of]; a missing key reads as the empty
    sequence, and a value that is not a sequence is outside the schema. *)
Definition sequence_field {A : Type} (item_of : json -> option A) (k : string)
    (o : dict) : option (list A) :=
  match lookup k o with
  | Some (JArr l) => all_some (map item_of l)
  | Some _ => None
  | None => Some []
  end.

(** Modelled from the spec: the subsection a value stands for. *)
Definition subsection_of (v : json) : option subsection :=
  match v with
  | JObj o =>
      match text_field "title" o, sequence_field text_value "bullets" o with
      | Some t, Some bs => Some (Subsection t bs)
      | _, _ => None
      end
  | _ => None
  end.

(** Modelled from the spec: the entry a value stands for. *)
Definition entry_of (v : json) : option entry :=
  match v with
  | JObj o =>
      match text_field "left_primary" o, text_field "right_primary" o,
            text_field "left_secondary" o, text_field "right_secondary" o,
            sequence_field subsection_of "subsections" o,
            sequence_field text_value "bullets" o with
      | Some lp, Some rp, Some ls, Some rs, Some subs, Some bs =>
          Some (Entry lp rp ls rs subs bs)
      | _, _, _, _, _, _ => None
      end
  | _ => None
  end.

(** Modelled from the spec: the section a value stands for, by the kind
    under its key [type]; a kind other than the three, or none, gives
    [UnknownSection]. *)
Definition section_of (v : json) : option section :=
  match v with
  | JObj o =>
      match text_field "type" o with
      | Some kind =>
          if (kind =? "text")%string then
            match text_field "title" o, text_field "content" o with
            | Some t, Some c => Some (TextSection t c)
            | _, _ => None
            end
          else if (kind =? "experience")%string then
            match text_field "title" o, sequence_field entry_of "entries" o with
            | Some t, Some es => Some (ExperienceSection t es)
            | _, _ => None
            end
          else if (kind =? "list")%string then
            match text_field "title" o, sequence_field text_value "lines" o with
            | Some t, Some ls => Some (ListSection t ls)
            | _, _ => None
            end
          else Some UnknownSection
      | None => None
      end
  | _ => None
  end.

(** Modelled from the spec: the Document the three values handed to the
    template stand for; [None] when they do not follow the schema of
    section 3, of which the specification says nothing. *)
Definition document_of (name contact_line sections : json) : option document :=
  match name, contact_line, sections with
  | JStr n, JStr c, JArr l =>
      match all_some (map section_of l) with
      | Some ss => Some (Document n c ss)
      | None => None
      end
  | _, _, _ => None
  end.

(** Modelled from the spec: the Document a mapping holds under its keys
    [name], [contact_line] and [sections]; a missing name or contact line is
    the empty string and missing sections are the empty sequence, as
    [render_resume_html] reads them. *)
Definition as_document (data : dict) : option document :=
  document_of
    match lookup "name" data with Some v => v | None => JStr "" end
    match lookup "contact_line" data with Some v => v | None => JStr "" end
    match lookup "sections" data with Some v => v | None => JArr [] end.

Section Template.

(** The markup of the template at each of its places. *)
Variable markup : slot -> string.

(** Modelled from the spec: the bullets of an entry or of a subsection in
    the absent template, one item each. *)
Definition render_bullets (bs : list string) : string :=
  cat_all (map (fun b => markup BulletOpen ++ b ++ markup BulletClose) bs).

(** Modelled from the spec: a subsection of an entry in the absent
    template, its title and its bullets. *)
Definition render_subsection (sub : subsection) : string :=
  markup SubOpen ++ sub_title sub ++ markup SubMid
  ++ render_bullets (sub_bullets sub) ++ markup SubClose.

(** Modelled from the spec: an entry of an experience section in the absent
    template, with its two columns of primary and secondary fields, its
    subsections and its bullets; both are printed when both are there. *)
Definition render_entry (e : entry) : string :=
  markup EntryOpen ++ left_primary e
  ++ markup EntrySep1 ++ right_primary e
  ++ markup EntrySep2 ++ left_secondary e
  ++ markup EntrySep3 ++ right_secondary e
  ++ markup EntrySep4 ++ cat_all (map render_subsection (subsections e))
  ++ markup EntryMid ++ render_bullets (bullets e)
  ++ markup EntryClose.

(** Modelled from the spec: a line of a list section in the absent
    template. *)
Definition render_line (line : string) : string :=
  markup LineOpen ++ line ++ markup LineClose.

(** Modelled from the spec: the block of one section in the absent
    template, by its kind; an unknown kind gives the empty block. *)
Definition render_section (s : section) : string :=
  match s with
  | TextSection title content =>
      markup TextOpen ++ title ++ markup TextMid ++ content ++ markup TextClose
  | ExperienceSection title entries =>
      markup ExpOpen ++ title ++ markup ExpMid
      ++ cat_all (map render_entry entries) ++ markup ExpClose
  | ListSection title lines =>
      markup ListOpen ++ title ++ markup ListMid
      ++ cat_all (map render_line lines) ++ markup ListClose
  | UnknownSection => ""
  end.

(** Modelled from the spec: the part of the absent template before the
    sections, with the name and the contact line. *)
Definition render_header (name contact_line : string) : string :=
  markup DocOpen ++ name ++ markup DocSep ++ contact_line ++ markup DocBody.

(** Modelled from the spec: the template file [resume_template.html] that
    [render_resume_html] reads is not among the sources.  Following section
    4.4 of the specification the text for a Document is a header with the
    name and the contact line, then one block per section in the order of
    [sections], each laid out by its kind ([text]: title and prose;
    [experience]: title and entries with their four header fields,
    subsections and bullets; [list]: title and lines), then the end of the
    document.  The field names are those of the document schema in the
    prompt of [tailor_resume].  The markup between the fields is the
    parameter [markup]. *)
Definition resume_template (d : document) : string :=
  render_header (doc_name d) (doc_contact_line d)
  ++ cat_all (map render_section (doc_sections d))
  ++ markup DocClose.

(** Modelled from the spec: what is taken of the absent template file: on
    the three values of a Document it gives the layout of section 4.4 with
    the markup [markup].  Of its text on other values nothing is taken. *)
Definition lays_out (template : json -> json -> json -> string) : Prop :=
  forall name contact_line sections d,
    document_of name contact_line sections = Some d ->
    template name contact_line sections = resume_template d.

End Template.

(** Modelled from the spec: a plain HTML markup for the places of the absent
    template, to run it on examples. *)
Definition plain_markup (k : slot) : string :=
  match k with
  | DocOpen => "<html><body><h1>"
  | DocSep => "</h1><p class='contact'>"
  | DocBody => "</p>"
  | DocClose => "</body></html>"
  | TextOpen => "<section><h2>"
  | TextMid => "</h2><p>"
  | TextClose => "</p></section>"
  | ExpOpen => "<section><h2>"
  | ExpMid => "</h2>"
  | ExpClose => "</section>"
  | EntryOpen => "<div class='entry'><span>"
  | EntrySep1 => "</span><span>"
  | EntrySep2 => "</span><span>"
  | EntrySep3 => "</span><span>"
  | EntrySep4 => "</span>"
  | EntryMid => "<ul>"
  | EntryClose => "</ul></div>"
  | SubOpen => "<h3>"
  | SubMid => "</h3><ul>"
  | SubClose => "</ul>"
  | BulletOpen => "<li>"
  | BulletClose => "</li>"
  | ListOpen => "<section><h2>"
  | ListMid => "</h2>"
  | ListClose => "</section>"
  | LineOpen => "<p>"
  | LineClose => "</p>"
  end.

(** A template for the examples: on the three values of a Document it is the
    modelled layout with [plain_markup]; on other values, of which the model
    says nothing, it gives the empty text, which no statement relies on. *)
Definition plain_template (name contact_line sections : json) : string :=
  match document_of name contact_line sections with
  | Some d => resume_template plain_markup d
  | None => ""
  end.

(** The plain markup without its piece between the name and the contact
    line, and a template that lays Documents out with it. *)
Definition joined_markup (k : slot) : string :=
  match k with
  | DocSep => ""
  | _ => plain_markup k
  end.

Definition joined_template (name contact_line sections : json) : string :=
  match document_of name contact_line sections with
  | Some d => resume_template joined_markup d
  | None => ""
  end.

(** *** Change markers *)

(** A rendered body cut into plain text and marker delimiters. *)
Inductive token : Type :=
| Plain (s : string)
| MarkOpen
| MarkClose.

Definition token_source (t : token) : string :=
  match t with
  | Plain s => s
  | MarkOpen => "[["
  | MarkClose => "]]"
  end.

(** The token in the clean view: the delimiters are gone. *)
Definition token_clean (t : token) : string :=
  match t with
  | Plain s => s
  | MarkOpen => ""
  | MarkClose => ""
  end.

(** The token in the highlighted view: the delimiters are the span tags. *)
Definition token_highlight (t : token) : string :=
  match t with
  | Plain s => s
  | MarkOpen => span_open
  | MarkClose => span_close
  end.

(** In [s] every [x] is followed by a character other than [x]: [s] has no
    [xx] and does not end with [x]. *)
Fixpoint isolated (x : ascii) (s : string) : bool :=
  match s with
  | "" => true
  | String c s' =>
      if Ascii.eqb c x then
        match s' with
        | "" => false
        | String c' _ => negb (Ascii.eqb c' x) && isolated x s'
        end
      else isolated x s'
  end.

(** Plain text: no delimiter inside, and no bracket at its end. *)
Definition plain_text (s : string) : bool := isolated "[" s && isolated "]" s.

Definition plain_tokens (ts : list token) : Prop :=
  forall s, In (Plain s) ts -> plain_text s = true.

(** No delimiter in [s]. *)
Definition marker_free (s : string) : bool :=
  negb (Py.contains "[[" s) && negb (Py.contains "]]" s).

(** The strings of a subsection, of an entry, of a section and of a
    Document: every text the layout prints. *)
Definition subsection_texts (sub : subsection) : list string :=
  sub_title sub :: sub_bullets sub.

Definition entry_texts (e : entry) : list string :=
  left_primary e :: right_primary e :: left_secondary e :: right_secondary e
  :: (flat_map subsection_texts (subsections e) ++ bullets e)%list.

Definition section_texts (s : section) : list string :=
  match s with
  | TextSection title content => [title; content]
  | ExperienceSection title entries => title :: flat_map entry_texts entries
  | ListSection title lines => title :: lines
  | UnknownSection => []
  end.

Definition document_texts (d : document) : list string :=
  doc_name d :: doc_contact_line d :: flat_map section_texts (doc_sections d).

(** The name, the contact line, the contents, the bullets and the lines of a
    Document: its texts without the titles and the header fields of the
    entries. *)
Definition entry_bullets (e : entry) : list string :=
  (flat_map sub_bullets (subsections e) ++ bullets e)%list.

Definition section_listed (s : section) : list string :=
  match s with
  | TextSection _ content => [content]
  | ExperienceSection _ entries => flat_map entry_bullets entries
  | ListSection _ lines => lines
  | UnknownSection => []
  end.

Definition listed_texts (d : document) : list string :=
  doc_name d :: doc_contact_line d :: flat_map section_listed (doc_sections d).





(** The doubled character [xx]. *)
Definition twice (x : ascii) : string := String x (String x "").

Definition starts_with (x : ascii) (s : string) : bool :=
  match s with
  | String c _ => Ascii.eqb c x
  | "" => false
  end.

Fixpoint ends_with (x : ascii) (s : string) : bool :=
  match s with
  | "" => false
  | String c "" => Ascii.eqb c x
  | String _ s' => ends_with x s'
  end.


(** Markup that cannot take part in a delimiter: it is not empty, has no
    [xx] and neither starts nor ends with [x]. *)
Definition safe_for (x : ascii) (m : string) : bool :=
  negb (Py.contains (twice x) m) && negb (starts_with x m) && negb (ends_with x m)
  && negb (m =? "")%string.

Definition safe_markup (m : string) : bool := safe_for "[" m && safe_for "]" m.

(** [s] has no [xx]. *)
Definition absent_for (x : ascii) (s : string) : bool :=
  negb (Py.contains (twice x) s).

(** Text with no [xx] that does not start with [x]. *)
Definition good (x : ascii) (s : string) : Prop :=
  Py.contains (twice x) s = false /\ starts_with x s = false.

(** A piece that keeps the text after it [good]. *)
Definition closed (x : ascii) (s : string) : Prop :=
  forall rest, good x rest -> good x (s ++ rest).

(** *** Example documents *)

(** A profile section whose content marks a changed part. *)
Definition marked_doc : dict :=
  [("name", JStr "Ann Lee");
   ("contact_line", JStr "Pune | ann@example.com");
   ("sections",
    JArr [JObj [("title", JStr "Profile"); ("type", JStr "text");
                ("content", JStr "Drove [[end-to-end strategy]] for growth")]])].

(** The body the template gives for [marked_doc], cut at its delimiters. *)
Definition marked_tokens : list token :=
  [Plain ("<html><body><h1>Ann Lee</h1><p class='contact'>Pune | ann@example.com</p>"
          ++ "<section><h2>Profile</h2><p>Drove ");
   MarkOpen;
   Plain "end-to-end strategy";
   MarkClose;
   Plain " for growth</p></section></body></html>"].

(** A content with single brackets next to a closing delimiter. *)
Definition stray_doc : dict :=
  [("name", JStr "Ann Lee");
   ("sections",
    JArr [JObj [("title", JStr "Notes"); ("type", JStr "text");
                ("content", JStr "[]][")]])].

(** A section whose title, not its content, carries delimiters. *)
Definition marked_title_doc : dict :=
  [("name", JStr "Ann Lee");
   ("contact_line", JStr "Pune");
   ("sections",
    JArr [JObj [("title", JStr "[[Skills]]"); ("type", JStr "list");
                ("lines", JArr [JStr "Rocq | Python"])]])].

(** Three sections of the three kinds, and one of an unknown kind. *)
Definition mixed_doc : dict :=
  [("name", JStr "Ann Lee");
   ("contact_line", JStr "Pune");
   ("sections",
    JArr [JObj [("title", JStr "Skills"); ("type", JStr "list");
                ("lines", JArr [JStr "Rocq | [[Python]]"])];
          JObj [("title", JStr "Work"); ("type", JStr "experience");
                ("entries",
                 JArr [JObj [("left_primary", JStr "Acme");
                             ("right_primary", JStr "Pune");
                             ("subsections", JArr []);
                             ("bullets", JArr [JStr "Built [[parsers]]"])]])];
          JObj [("title", JStr "Hobbies"); ("type", JStr "table")];
          JObj [("title", JStr "Profile"); ("type", JStr "text");
                ("content", JStr "Engineer")]]);
   ("match_notes", JObj [("match_score", JNum "85")])].



(** A Document without delimiters, with single brackets. *)
Definition unmarked_doc : dict :=
  [("name", JStr "Ann Lee");
   ("contact_line", JStr "Pune | [link]");
   ("sections",
    JArr [JObj [("title", JStr "Skills [core]"); ("type", JStr "list");
                ("lines", JArr [JStr "Rocq | Python"; JStr "a[0]"])];
          JObj [("title", JStr "Work"); ("type", JStr "experience");
                ("entries",
                 JArr [JObj [("left_primary", JStr "Acme");
                             ("subsections",
                              JArr [JObj [("title", JStr "GTM");
                                          ("bullets", JArr [JStr "Led launch"])]]);
                             ("bullets", JArr [])]])]])].

(** A name that ends and a contact line that starts with a bracket. *)
Definition joined_doc : dict :=
  [("name", JStr "a["); ("contact_line", JStr "[b")].

(** The Document that [marked_title_doc] holds. *)
Definition marked_title_document : document :=
  Document "Ann Lee" "Pune" [ListSection "[[Skills]]" ["Rocq | Python"]].

(** The Document that [unmarked_doc] holds. *)
Definition unmarked_document : document :=
  Document "Ann Lee" "Pune | [link]"
    [ListSection "Skills [core]" ["Rocq | Python"; "a[0]"];
     ExperienceSection "Work"
       [Entry "Acme" "" "" "" [Subsection "GTM" ["Led launch"]] []]].

(** A mapping with one section of each kind, two of them with marked parts,
    and with match notes. *)
Definition three_kinds_doc : dict :=
  [("match_notes", JObj [("match_score", JNum "85")]);
   ("name", JStr "Ann Lee");
   ("contact_line", JStr "Pune");
   ("sections",
    JArr [JObj [("title", JStr "Skills"); ("type", JStr "list");
                ("lines", JArr [JStr "Rocq | [[Python]]"])];
          JObj [("title", JStr "Work"); ("type", JStr "experience");
                ("entries",
                 JArr [JObj [("left_primary", JStr "Acme");
                             ("right_primary", JStr "Pune");
                             ("subsections", JArr []);
                             ("bullets", JArr [JStr "Built [[parsers]]"])]])];
          JObj [("title", JStr "Profile"); ("type", JStr "text");
                ("content", JStr "Engineer")]])].


(* ===================================================================== *)
(** ** Scraping a job description *)
(* ===================================================================== *)

(** *** The network and the HTML parser *)

(** A [requests] response: [resp.ok] and [resp.text]. *)
Record response : Type := Response {
  ok : bool;
  text : string
}.

(** An element of a parsed page, as the list of its text nodes in document
    order. *)
Definition element : Type := list string.

(** [el.get_text(separator=sep, strip=strip)]: the text nodes joined by
    [sep]; with [strip] each node is stripped and the empty ones are left
    out. *)
Definition get_text (sep : string) (strip : bool) (el : element) : string :=
  if strip
  then Py.join sep (filter (fun s => negb (s =? "")%string) (map Py.strip el))
  else Py.join sep el.

(** A parsed page, by the answers to the queries the source makes. *)
Record soup : Type := Soup {
  select_one : string -> option element;   (* soup.select_one(selector) *)
  ld_json_scripts : list (option string);  (* script.string of each JSON-LD block *)
  find_body : option element;              (* soup.find("body") *)
  root : element                           (* the whole document *)
}.

(** What lies outside the program: the network, the HTML parser and the
    standard library calls whose result depends on the interpreter. *)
Record World : Type := {
  requests_get : string -> outcome response;   (* requests.get(url, ...) *)
  BeautifulSoup : string -> outcome soup;      (* BeautifulSoup(text, "html.parser") *)
  urlparse_netloc : string -> outcome string;  (* urlparse(url).netloc *)
  json_loads : string -> option json;          (* json.loads, None: JSONDecodeError *)
  repr : json -> string                        (* str(v) of a value that is not a string *)
}.

(** *** [urlparse(url).netloc] *)

Module Url.

Definition scheme_char (c : ascii) : bool :=
  let n := nat_of_ascii c in
  ((97 <=? n) && (n <=? 122)) || ((65 <=? n) && (n <=? 90)) || Py.isdigit c
  || one_of "+-." c.

Definition is_alpha (c : ascii) : bool :=
  let n := nat_of_ascii c in
  ((97 <=? n) && (n <=? 122)) || ((65 <=? n) && (n <=? 90)).

(** The text before the first [:] when it is a scheme, and the rest. *)
Definition split_scheme (url : string) : string :=
  let i := span (fun c => negb (Ascii.eqb c ":")) url in
  match url with
  | String c _ =>
      if (0 <? i) && (i <? String.length url) && is_alpha c
         && all_in scheme_char (Py.take i url)
      then Py.drop (S i) url
      else url
  | "" => url
  end.

(** The network location of [urlsplit]: after the scheme and [//], up to the
    first of [/], [?] and [#]; a location with one square bracket and not
    the other is refused.  The checks of a bracketed host and of characters
    outside ASCII that some versions of the interpreter add are not
    modelled. *)
Definition netloc (url : string) : outcome string :=
  let url := Py.replace (String "009" "") ""
               (Py.replace (String "013" "") ""
                  (Py.replace (String "010" "") "" url)) in
  let rest := split_scheme url in
  if prefix "//" rest then
    let after := Py.drop 2 rest in
    let loc := Py.take (span (fun c => negb (one_of "/?#" c)) after) after in
    if xorb (Py.contains "[" loc) (Py.contains "]" loc)
    then Raises ValueError
    else Returns loc
  else Returns "".

End Url.

Section Scraper.

Variable W : World.

(** [f"{v}"] *)
Definition py_str (v : json) : string :=
  match v with
  | JStr s => s
  | _ => repr W v
  end.

(** [parts.append(label + el.get_text(...))] when the selector finds an
    element. *)
Definition labelled (page : soup) (selector label sep : string) : list string :=
  match select_one page selector with
  | Some el => [label ++ get_text sep true el]
  | None => []
  end.

Definition _scrape_linkedin_guest_api (job_id : string) : option string :=
  let url := "https://www.linkedin.com/jobs-guest/jobs/api/jobPosting/" ++ job_id in
  let body : outcome (option string) :=
    resp <- requests_get W url ;;
    if ok resp && (200 <? String.length (text resp)) then
      page <- BeautifulSoup W (text resp) ;;
      let parts :=
        (labelled page "h2.top-card-layout__title" "Job Title: " ""
         ++ labelled page "a.topcard__org-name-link, span.topcard__flavor" "Company: " ""
         ++ labelled page "span.topcard__flavor--bullet" "Location: " ""
         ++ labelled page
              "div.show-more-less-html__markup, div.description__text, section.show-more-less-html"
              nl nl)%list in
      let text := Py.join nl parts in
      if 100 <? String.length text then Returns (Some text) else Returns None
    else Returns None in
  match body with
  | Returns r => r
  | Raises _ => None
  end.

(** The loop over the JSON-LD blocks: [Some t] when it executes [return t],
    [None] when it ends.  A block that is not JSON, or a step that raises
    [AttributeError], moves on to the next block; any other exception leaves
    the loop. *)
Fixpoint scan_ld_json (scripts : list (option string)) : outcome (option string) :=
  match scripts with
  | [] => Returns None
  | script :: rest =>
      match json_loads W (match script with Some s => s | None => "" end) with
      | None => scan_ld_json rest
      | Some data =>
          data <- match data with
                  | JArr [] => Raises IndexError
                  | JArr (first :: _) => Returns first
                  | _ => Returns data
                  end ;;
          match data with
          | JObj d =>
              if equals_str (lookup "@type" d) "JobPosting" then
                  let desc := get d "description" (JStr "") in
                  let title := get d "title" (JStr "") in
                  let org := get d "hiringOrganization" (JObj []) in
                  let company :=
                    match org with
                    | JObj o => get o "name" (JStr "")
                    | _ => JStr ""
                    end in
                  let text := "Job Title: " ++ py_str title ++ nl ++ "Company: "
                              ++ py_str company ++ nl ++ nl ++ py_str desc in
                  match BeautifulSoup W text with
                  | Returns page =>
                      let clean := get_text nl false (root page) in
                      if 100 <? String.length clean
                      then Returns (Some (Py.strip clean))
                      else scan_ld_json rest
                  | Raises AttributeError => scan_ld_json rest
                  | Raises e => Raises e
                  end
              else scan_ld_json rest
          | _ => scan_ld_json rest
          end
      end
  end.

Definition selectors : list string :=
  ["div.show-more-less-html__markup"; "div.description__text";
   "div.job-description"; "div.jobsearch-jobDescriptionText";
   "div[data-testid='jobDescription']"; "article"; "main"].

(** The loop over the selectors. *)
Fixpoint scan_selectors (page : soup) (sels : list string) : option string :=
  match sels with
  | [] => None
  | selector :: rest =>
      match select_one page selector with
      | Some el =>
          if 200 <? String.length (get_text "" true el)
          then Some (get_text nl true el)
          else scan_selectors page rest
      | None => scan_selectors page rest
      end
  end.

(** The text of the body when it is longer than 200 characters. *)
Definition body_text (page : soup) : option string :=
  match find_body page with
  | Some body =>
      let text := get_text nl true body in
      if 200 <? String.length text then Some text else None
  | None => None
  end.

(** The first [try] block: the page itself. *)
Definition scrape_page (url : string) : outcome (option string) :=
  resp <- requests_get W url ;;
  _ <- (if ok resp then Returns tt else Raises HTTPError) ;;
  page <- BeautifulSoup W (text resp) ;;
  found <- scan_ld_json (ld_json_scripts page) ;;
  match found with
  | Some t => Returns (Some t)
  | None =>
      match scan_selectors page selectors with
      | Some t => Returns (Some t)
      | None => Returns (body_text page)
      end
  end.

(** The second [try] block: the cached copy of the page. *)
Definition scrape_cache (url : string) : outcome (option string) :=
  let cache_url := "https://webcache.googleusercontent.com/search?q=cache:" ++ url in
  resp <- requests_get W cache_url ;;
  if ok resp then
    page <- BeautifulSoup W (text resp) ;;
    Returns (body_text page)
  else Returns None.

Definition scrape_job_url (url : string) : outcome (option string) :=
  if (url =? "")%string || negb (Py.startswith "http" url) then Returns None
  else
    netloc <- urlparse_netloc W url ;;
    let linkedin :=
      if Py.contains "linkedin.com" netloc then
        match _extract_linkedin_job_id url with
        | Some job_id =>
            if (job_id =? "")%string then None
            else
              match _scrape_linkedin_guest_api job_id with
              | Some result => if (result =? "")%string then None else Some result
              | None => None
              end
        | None => None
        end
      else None in
    match linkedin with
    | Some result => Returns (Some result)
    | None =>
        try_except_pass (scrape_page url)
          (try_except_pass (scrape_cache url) (Returns None))
    end.

End Scraper.

(** *** Example worlds *)

(** [n] spaces. *)
Fixpoint spaces (n : nat) : string :=
  match n with
  | 0 => ""
  | S k => String " " (spaces k)
  end.

(** The page of a text without markup: one text node. *)
Definition text_soup (t : string) : soup :=
  Soup (fun _ => None) [] None [t].

(** A job page whose only content is a JSON-LD posting with a title and a
    description of 100 spaces. *)
Definition padded_posting : string :=
  quoted "{'@type': 'JobPosting', 'title': 'QA', 'description': '" ++ spaces 100
  ++ quoted "'}".

Definition padded_page : string :=
  quoted "<html><head><script type='application/ld+json'>" ++ padded_posting
  ++ "</script></head><body></body></html>".

Definition padded_url : string := "https://jobs.example.com/posting/1".

(** A world that serves [padded_page] at [padded_url] and nothing else. *)
Definition padded_world : World := {|
  requests_get := fun url =>
    if (url =? padded_url)%string then Returns (Response true padded_page)
    else Raises RequestException;
  BeautifulSoup := fun html =>
    if (html =? padded_page)%string
    then Returns (Soup (fun _ => None) [Some padded_posting] (Some []) [])
    else Returns (text_soup html);
  urlparse_netloc := Url.netloc;
  json_loads := Json.loads;
  repr := fun _ => ""
|}.

(** A world without a network. *)
Definition offline_world : World := {|
  requests_get := fun _ => Raises RequestException;
  BeautifulSoup := fun html => Returns (text_soup html);
  urlparse_netloc := Url.netloc;
  json_loads := Json.loads;
  repr := fun _ => ""
|}.

(* ===================================================================== *)
(** ** Further definitions *)
(* ===================================================================== *)

(** The class of the characters other than [c]. *)
Definition other_than (c : ascii) : ascii -> bool :=
  fun a => negb (Ascii.eqb a c).

(** *** A world with a LinkedIn posting *)

Definition posting_url : string :=
  "https://www.linkedin.com/jobs/view/senior-engineer-12345678".

Definition posting_api_url : string :=
  "https://www.linkedin.com/jobs-guest/jobs/api/jobPosting/12345678".

Definition posting_description : list string :=
  ["We are looking for a senior engineer to lead the platform team.";
   "  You will design services, review code and mentor engineers.  "].

(** The page the guest API serves for the posting. *)
Definition posting_page : string :=
  "<section><h2 class='top-card-layout__title'>Senior Engineer</h2>"
  ++ "<a class='topcard__org-name-link'> Acme </a>"
  ++ "<div class='show-more-less-html__markup'>"
  ++ "<p>We are looking for a senior engineer to lead the platform team.</p>"
  ++ "<p>  You will design services, review code and mentor engineers.  </p>"
  ++ "</div></section>".

(** What the parser finds in [posting_page]. *)
Definition posting_soup : soup :=
  Soup (fun selector =>
          if (selector =? "h2.top-card-layout__title")%string
          then Some ["Senior Engineer"]
          else if (selector =? "a.topcard__org-name-link, span.topcard__flavor")%string
          then Some [" Acme "]
          else if (selector =?
                   "div.show-more-less-html__markup, div.description__text, section.show-more-less-html")%string
          then Some posting_description
          else None)
       [] None ("Senior Engineer" :: " Acme " :: posting_description).

(** A world in which only the guest API answers. *)
Definition posting_world : World := {|
  requests_get := fun url =>
    if (url =? posting_api_url)%string then Returns (Response true posting_page)
    else Raises RequestException;
  BeautifulSoup := fun html =>
    if (html =? posting_page)%string then Returns posting_soup
    else Returns (text_soup html);
  urlparse_netloc := Url.netloc;
  json_loads := Json.loads;
  repr := fun _ => ""
|}.

(** *** More Python string primitives *)

(** [s.endswith(suffix)] *)
Fixpoint endswith (suffix s : string) : bool :=
  (s =? suffix)%string ||
  match s with
  | String _ s' => endswith suffix s'
  | "" => false
  end.

(** [s.rstrip(chars)] *)
Fixpoint rstrip_chars (chars s : string) : string :=
  match s with
  | String c s' =>
      match rstrip_chars chars s' with
      | "" => if one_of chars c then "" else String c ""
      | r => String c r
      end
  | "" => ""
  end.

(** [str.lower] on one character, for the first 256 code points: the letters
    A to Z and the capital letters of Latin-1. *)
Definition lower_char (c : ascii) : ascii :=
  let n := nat_of_ascii c in
  if ((65 <=? n) && (n <=? 90))
     || ((192 <=? n) && (n <=? 222) && negb (n =? 215))
  then ascii_of_nat (n + 32)
  else c.

(** [s.lower()] *)
Fixpoint lower (s : string) : string :=
  match s with
  | String c s' => String (lower_char c) (lower s')
  | "" => ""
  end.

(** [s.split(sep)] for a separator of one character. *)
Fixpoint split_on (sep : ascii) (s : string) : list string :=
  match s with
  | "" => [""]
  | String c s' =>
      if Ascii.eqb c sep then "" :: split_on sep s'
      else
        match split_on sep s' with
        | h :: t => String c h :: t
        | [] => [String c ""]
        end
  end.

(** [a or b] on two results of [os.environ.get]: [a] when it is a string
    that is not empty, [b] otherwise. *)
Definition py_or (a b : option string) : option string :=
  match a with
  | Some s => if (s =? "")%string then b else a
  | None => b
  end.

(** The truth value of a result of [os.environ.get]. *)
Definition truthy (a : option string) : bool :=
  match a with
  | Some s => negb (s =? "")%string
  | None => false
  end.

(* ===================================================================== *)
(** ** Text of a PDF: [extract_text_from_pdf] *)
(* ===================================================================== *)

Section Pdf.

(** [pdfplumber.open(io.BytesIO(file_bytes))]: the pages of the document,
    each by the outcome of its [extract_text()]. *)
Variable pdf_open : string -> outcome (list (outcome (option string))).

(** The loop over the pages: the texts of the pages that have one. *)
Fixpoint page_texts (pages : list (outcome (option string))) : outcome (list string) :=
  match pages with
  | [] => Returns []
  | page :: rest =>
      page_text <- page ;;
      text_parts <- page_texts rest ;;
      Returns match page_text with
              | Some t => if (t =? "")%string then text_parts else t :: text_parts
              | None => text_parts
              end
  end.

Definition extract_text_from_pdf (file_bytes : string) : outcome string :=
  pages <- pdf_open file_bytes ;;
  text_parts <- page_texts pages ;;
  Returns (Py.join (nl ++ nl) text_parts).

End Pdf.

(** A page without text. *)
Definition blank_page (page : outcome (option string)) : Prop :=
  page = Returns None \/ page = Returns (Some "").

(* ===================================================================== *)
(** ** Providers and clients: [ai_utils.py] *)
(* ===================================================================== *)

(** [os.environ.get] *)
Definition environ : Type := string -> option string.

(** An entry of [PROVIDER_CONFIG]. *)
Record provider_entry : Type := ProviderEntry {
  cfg_models : list string;
  cfg_default : string;
  cfg_label : string
}.

Definition PROVIDER_CONFIG : list (string * provider_entry) :=
  [("anthropic",
    ProviderEntry ["claude-sonnet-4-20250514"; "claude-haiku-4-5-20251001"]
                  "claude-sonnet-4-20250514" "Claude (Anthropic)");
   ("openai",
    ProviderEntry ["gpt-4o"; "gpt-4o-mini"; "gpt-4.1"] "gpt-4o" "GPT (OpenAI)");
   ("google",
    ProviderEntry ["gemini-2.0-flash"; "gemini-2.5-pro"] "gemini-2.0-flash"
                  "Gemini (Google)");
   ("proxy", ProviderEntry [] "claude-sonnet-4" "LiteLLM / Proxy")].

Fixpoint config_lookup (provider : string) (config : list (string * provider_entry))
    : option provider_entry :=
  match config with
  | (k, e) :: rest => if (provider =? k)%string then Some e else config_lookup provider rest
  | [] => None
  end.

(** [PROVIDER_CONFIG.get(provider, PROVIDER_CONFIG["anthropic"])], as the
    three applications read it. *)
Definition pconfig (provider : string) : provider_entry :=
  match config_lookup provider PROVIDER_CONFIG with
  | Some e => e
  | None =>
      ProviderEntry ["claude-sonnet-4-20250514"; "claude-haiku-4-5-20251001"]
                    "claude-sonnet-4-20250514" "Claude (Anthropic)"
  end.

(** The client a constructor is asked for, by the arguments it gets. *)
Inductive client : Type :=
| Anthropic (api_key : string)
| OpenAI (api_key : option string) (base_url : option string).

(** A step of a Streamlit script: it goes on with a value, or shows an error
    and stops the script ([st.error(message); st.stop()]). *)
Inductive script (A : Type) : Type :=
| Continues (a : A)
| Stops (message : string).

Arguments Continues {A} a.
Arguments Stops {A} message.

Section Provider.

Variable env : environ.

Definition _get_provider : string :=
  lower match env "AI_PROVIDER" with
        | Some p => p
        | None => "anthropic"
        end.

Definition get_ai_client : script (string * client) :=
  let provider := _get_provider in
  if (provider =? "proxy")%string then
    let api_key :=
      py_or (py_or (py_or (env "PROXY_API_KEY") (env "OPENAI_API_KEY"))
                   (env "ANTHROPIC_API_KEY"))
            (env "ANTHROPIC_AUTH_TOKEN") in
    let base_url :=
      py_or (py_or (env "PROXY_BASE_URL") (env "OPENAI_BASE_URL"))
            (env "ANTHROPIC_BASE_URL") in
    match base_url with
    | Some base_url =>
        if (base_url =? "")%string then
          Stops "Set PROXY_BASE_URL in your .env file (e.g. https://your-litellm-proxy.com)."
        else
          let base_url :=
            if endswith "/v1" base_url then base_url
            else rstrip_chars "/" base_url ++ "/v1" in
          Continues ("openai", OpenAI api_key (Some base_url))
    | None =>
        Stops "Set PROXY_BASE_URL in your .env file (e.g. https://your-litellm-proxy.com)."
    end
  else if (provider =? "anthropic")%string then
    match py_or (env "ANTHROPIC_API_KEY") (env "ANTHROPIC_AUTH_TOKEN") with
    | Some api_key =>
        if (api_key =? "")%string then
          Stops "Set ANTHROPIC_API_KEY in your .env file. Run `./setup.sh` to configure."
        else Continues ("anthropic", Anthropic api_key)
    | None =>
        Stops "Set ANTHROPIC_API_KEY in your .env file. Run `./setup.sh` to configure."
    end
  else if (provider =? "google")%string then
    if truthy (env "GOOGLE_API_KEY") then
      Continues ("openai",
                 OpenAI (env "GOOGLE_API_KEY")
                        (Some "https://generativelanguage.googleapis.com/v1beta/openai/"))
    else Stops "Set GOOGLE_API_KEY in your .env file. Run `./setup.sh` to configure."
  else
    if truthy (env "OPENAI_API_KEY") then
      Continues ("openai",
                 OpenAI (env "OPENAI_API_KEY")
                        (if truthy (env "OPENAI_BASE_URL") then env "OPENAI_BASE_URL"
                         else None))
    else Stops "Set OPENAI_API_KEY in your .env file. Run `./setup.sh` to configure.".

End Provider.

(** The key a client was built with. *)
Definition client_key (c : client) : option string :=
  match c with
  | Anthropic k => Some k
  | OpenAI k _ => k
  end.

(** An environment for the proxy. *)
Definition proxy_env : environ :=
  fun k =>
    if (k =? "AI_PROVIDER")%string then Some "Proxy"
    else if (k =? "PROXY_BASE_URL")%string then Some "https://llm.example.com//"
    else if (k =? "OPENAI_API_KEY")%string then Some "sk-test"
    else None.

(** An environment for Google. *)
Definition google_env : environ :=
  fun k =>
    if (k =? "AI_PROVIDER")%string then Some "GOOGLE"
    else if (k =? "GOOGLE_API_KEY")%string then Some "g-test"
    else None.

(** An environment with a provider the configuration does not know. *)
Definition azure_env : environ :=
  fun k =>
    if (k =? "AI_PROVIDER")%string then Some "azure"
    else if (k =? "OPENAI_API_KEY")%string then Some "sk-test"
    else None.

(* ===================================================================== *)
(** ** Web search: [_web_search] *)
(* ===================================================================== *)

(** A result of [ddgs.text]: a dict from strings to strings. *)
Definition search_result : Type := list (string * string).

(** [r.get(k, "")] *)
Fixpoint result_get (k : string) (r : search_result) : string :=
  match r with
  | (k', v) :: rest => if (k =? k')%string then v else result_get k rest
  | [] => ""
  end.

(** The loop body: [f"[{title}]({href})\n{body}"]. *)
Definition format_result (r : search_result) : string :=
  let title := result_get "title" r in
  let body := result_get "body" r in
  let href := result_get "href" r in
  "[" ++ title ++ "](" ++ href ++ ")" ++ nl ++ body.

Section WebSearch.

(** The state of a search session. *)
Variable session : Type.

(** [DDGS()] *)
Variable DDGS : outcome session.

(** [ddgs.text(query, max_results=n)]: the session after the call, and the
    results or the exception. *)
Variable ddgs_text : session -> string -> nat -> session * outcome (list search_result).

(** The loop over the queries: a query that raises adds nothing. *)
Fixpoint search_queries (ddgs : session) (queries : list string)
    (max_results_per_query : nat) : list string :=
  match queries with
  | [] => []
  | query :: rest =>
      let (ddgs', answer) := ddgs_text ddgs query max_results_per_query in
      (match answer with
       | Returns results => map format_result results
       | Raises _ => []
       end ++ search_queries ddgs' rest max_results_per_query)%list
  end.

(** What the session answers to the queries, one after the other. *)
Fixpoint answers (ddgs : session) (queries : list string)
    (max_results_per_query : nat) : list (outcome (list search_result)) :=
  match queries with
  | [] => []
  | query :: rest =>
      let (ddgs', answer) := ddgs_text ddgs query max_results_per_query in
      answer :: answers ddgs' rest max_results_per_query
  end.

Definition _web_search (queries : list string) (max_results_per_query : nat) : string :=
  let all_results :=
    match DDGS with
    | Returns ddgs => search_queries ddgs queries max_results_per_query
    | Raises _ => []
    end in
  match all_results with
  | [] => "No web results found."
  | _ => Py.join (nl ++ nl ++ "---" ++ nl ++ nl) all_results
  end.

End WebSearch.

(** The results an answer brings: none when the query raised. *)
Definition results_of (answer : outcome (list search_result)) : list search_result :=
  match answer with
  | Returns results => results
  | Raises _ => []
  end.

(** An answer without results: the query raised, or came back empty. *)
Definition no_result (answer : outcome (list search_result)) : Prop :=
  (exists e, answer = Raises e) \/ answer = Returns [].

(* ===================================================================== *)
(** ** The PDF of a resume: [_find_chrome], [generate_pdf] *)
(* ===================================================================== *)

(** The files the function works on: the content at each path that holds a
    file. *)
Definition files : Type := string -> option string.

(** Writing a file. *)
Definition write_file (path content : string) (fs : files) : files :=
  fun q => if (q =? path)%string then Some content else fs q.

(** Removing a file. *)
Definition remove_file (path : string) (fs : files) : files :=
  fun q => if (q =? path)%string then None else fs q.

(** How [subprocess.run] ends: it returns, or raises an exception with the
    given text. *)
Inductive completion : Type :=
| Completed
| Failed (e : string).

Definition chrome_candidates : list string :=
  ["/Applications/Google Chrome.app/Contents/MacOS/Google Chrome";
   "/usr/bin/google-chrome";
   "/usr/bin/google-chrome-stable";
   "/usr/bin/chromium-browser";
   "/usr/bin/chromium";
   "/snap/bin/chromium"].

Definition chrome_names : list string :=
  ["google-chrome"; "google-chrome-stable"; "chromium-browser"; "chromium"].

Section GeneratePdf.

Variable template : json -> json -> json -> string.

(** [os.path.isfile] *)
Variable isfile : string -> bool.

(** [shutil.which] *)
Variable which : string -> option string.

(** [tempfile.NamedTemporaryFile(suffix=".html", delete=False, ...)]: the name
    of the new file, [None] when no file can be made. *)
Variable NamedTemporaryFile : files -> option string.

(** [f.write(clean_html)] into the new file and the end of the [with]
    block: the files after it, [None] when the write raises. *)
Variable f_write : string -> string -> files -> option files.

(** [subprocess.run(args, capture_output=True, timeout=30)]: the files after
    the run, and how it ended. *)
Variable subprocess_run : list string -> files -> files * completion.

(** [os.unlink(p)]: the files after it, [None] when it raises [OSError]. *)
Variable os_unlink : string -> files -> option files.

(** [try: os.unlink(p) except OSError: pass]: when the removal fails the
    files stay as they are. *)
Definition unlink (p : string) (fs : files) : files :=
  match os_unlink p fs with
  | Some fs' => fs'
  | None => fs
  end.

(** The first loop of [_find_chrome]. *)
Fixpoint first_file (candidates : list string) : option string :=
  match candidates with
  | p :: rest => if isfile p then Some p else first_file rest
  | [] => None
  end.

(** The second loop of [_find_chrome]. *)
Fixpoint first_on_path (names : list string) : option string :=
  match names with
  | name :: rest =>
      if truthy (which name) then which name else first_on_path rest
  | [] => None
  end.

Definition _find_chrome : option string :=
  match first_file chrome_candidates with
  | Some p => Some p
  | None => first_on_path chrome_names
  end.

(** The result of [generate_pdf]: the bytes returned, the files left and the
    warnings shown; [None] when the temporary file cannot be made or
    written, which happens outside the [try] block, and the exception leaves
    the function. *)
Definition generate_pdf (resume_data : dict) (fs : files)
    : option (string * files * list string) :=
  let chrome := _find_chrome in
  if truthy chrome then
    let clean_html := render_resume_html template resume_data false in
    match NamedTemporaryFile fs with
    | None => None
    | Some html_path =>
      match f_write html_path clean_html fs with
      | None => None
      | Some fs =>
        let pdf_path := Py.replace ".html" ".pdf" html_path in
        let (fs, done) :=
          subprocess_run
            [match chrome with Some c => c | None => "" end;
             "--headless"; "--disable-gpu"; "--no-sandbox";
             "--print-to-pdf=" ++ pdf_path;
             "--no-pdf-header-footer";
             html_path] fs in
        let (pdf, warnings) :=
          match done with
          | Completed =>
              match fs pdf_path with
              | Some content =>
                  if 0 <? String.length content then (content, []) else ("", [])
              | None => ("", [])
              end
          | Failed e => ("", ["PDF generation error: " ++ e])
          end in
        Some (pdf, unlink pdf_path (unlink html_path fs), warnings)
      end
    end
  else
    Some ("", fs,
          ["Chrome/Chromium not found. Install Chrome for PDF downloads: https://www.google.com/chrome/"]).

End GeneratePdf.

(** A machine with Chromium on the path only, and a run of it that prints the
    page. *)
Definition chromium_isfile : string -> bool := fun _ => false.

Definition chromium_which : string -> option string :=
  fun name => if (name =? "chromium")%string then Some "/opt/bin/chromium" else None.

Definition tmp_file : files -> option string := fun _ => Some "/tmp/tmpab12.html".

Definition no_files : files := fun _ => None.

(** A template without places for the values. *)
Definition page_shell : string := "<html><body></body></html>".

Definition chromium_run : list string -> files -> files * completion :=
  fun _ fs => (write_file "/tmp/tmpab12.pdf" "%PDF-1.4" fs, Completed).

(** Writes and removals that succeed. *)
Definition disk_write : string -> string -> files -> option files :=
  fun p content fs => Some (write_file p content fs).

Definition disk_unlink : string -> files -> option files :=
  fun p fs => match fs p with Some _ => Some (remove_file p fs) | None => None end.

(* ===================================================================== *)
(** ** The name of the download *)
(* ===================================================================== *)

(** [v.replace(old, new)] on a value of the analysis: a method of strings
    only. *)
Definition value_replace (old new : string) (v : json) : outcome string :=
  match v with
  | JStr s => Returns (Py.replace old new s)
  | _ => Raises AttributeError
  end.

(** The file name of the download button in [main]. *)
Definition download_filename (jd_a : dict) : outcome string :=
  company <- value_replace " " "_" (get jd_a "company" (JStr "company")) ;;
  role <- value_replace " " "_" (get jd_a "role" (JStr "role")) ;;
  Returns ("Resume_" ++ company ++ "_" ++ role ++ ".pdf").

(* ===================================================================== *)
(** ** The generated page: markdown fences ([website_generator.py]) *)
(* ===================================================================== *)

(** [lines[-1]] of a list that is not empty. *)
Definition last_line (lines : list string) : string := last lines "".

(** The cleaning of the model's answer in [main]: the fence lines around the
    page are removed. *)
Definition clean_markdown_fences (html_content : string) : string :=
  let html_content := Py.strip html_content in
  if Py.startswith fence html_content then
    let lines := split_on "010" html_content in
    let lines :=
      if (Py.strip (last_line lines) =? fence)%string
      then removelast (tl lines)
      else tl lines in
    Py.join nl lines
  else html_content.

(** The file name of the download button of the generated page. *)
Definition landing_page_filename (name : string) : string :=
  Py.replace " " "_" (lower name) ++ "_landing_page.html".

(** A capital letter of ASCII. *)
Definition capital (c : ascii) : bool :=
  let n := nat_of_ascii c in (65 <=? n) && (n <=? 90).

(* ===================================================================== *)
(** ** The keyword tags of a result *)
(* ===================================================================== *)

(** [html.escape(s)]: the ampersand first, then the angle brackets and the
    two quotes. *)
Definition html_escape (s : string) : string :=
  Py.replace "'" "&#x27;"
    (Py.replace (String "034" "") "&quot;"
       (Py.replace ">" "&gt;"
          (Py.replace "<" "&lt;" (Py.replace "&" "&amp;" s)))).

(** The keys of a dict, each once, in the order of their first place. *)
Fixpoint keys (pairs : list (string * json)) : list string :=
  match pairs with
  | (k, _) :: rest => k :: filter (fun k' => negb (k' =? k)%string) (keys rest)
  | [] => []
  end.

(** [for kw in v]: the values the loop runs over, [None] when [v] cannot be
    iterated and [TypeError] is raised. *)
Definition iterate (v : json) : option (list json) :=
  match v with
  | JArr items => Some items
  | JStr s => Some (map (fun c => JStr (String c "")) (list_ascii_of_string s))
  | JObj pairs => Some (map JStr (keys pairs))
  | _ => None
  end.

(** Number of occurrences of a character. *)
Fixpoint count_char (c : ascii) (s : string) : nat :=
  match s with
  | String a s' => (if Ascii.eqb a c then 1 else 0) + count_char c s'
  | "" => 0
  end.

Section Keywords.

Variable W : World.

(** The truth value of a number, by its lexeme. *)
Variable number_truth : string -> bool.

(** The truth value of a value of the notes. *)
Definition truth (v : json) : bool :=
  match v with
  | JNull => false
  | JBool b => b
  | JNum n => number_truth n
  | JStr s => negb (s =? "")%string
  | JArr items => negb (Nat.eqb (List.length items) 0)
  | JObj pairs => negb (Nat.eqb (List.length pairs) 0)
  end.

(** One tag of the keyword bar. *)
Definition keyword_tag (kind : string) (kw : json) : string :=
  quoted "<span class='keyword-tag " ++ kind ++ quoted "'>"
  ++ html_escape (py_str W kw) ++ "</span>".

(** The keyword bar of a result in [main]: [Some (Some kw_html)] when the bar
    is shown, [Some None] when there is no keyword, [None] when a loop
    raises [TypeError]. *)
Definition keyword_bar (match_notes : dict) : option (option string) :=
  let kw_used := get match_notes "keywords_used" (JArr []) in
  let kw_missing := get match_notes "keywords_missing" (JArr []) in
  if truth kw_used || truth kw_missing then
    match iterate kw_used with
    | Some used =>
        match iterate kw_missing with
        | Some missing =>
            Some (Some (Py.join "" (map (keyword_tag "keyword-hit") used)
                        ++ Py.join "" (map (keyword_tag "keyword-miss") missing)))
        | None => None
        end
    | None => None
    end
  else Some None.

End Keywords.

(** Notes with keywords that hold markup. *)
Definition markup_notes : dict :=
  [("keywords_used", JArr [JStr "<b>SQL</b>"; JStr "R&D"]);
   ("keywords_missing", JArr [JStr "<script>alert('x')</script>"])].

(* ===================================================================== *)
(** ** The text of a company website: [_scrape_website] *)
(* ===================================================================== *)

Section Website.

Variable W : World.

(** [for tag in soup(names): tag.decompose()]: the text nodes of the document
    that are left. *)
Variable decomposed : soup -> list string -> element.

(** [f"{e}"] for an exception. *)
Variable exception_text : exn -> string.

Definition _scrape_website (url : string) : string :=
  let url := if Py.startswith "http" url then url else "https://" ++ url in
  let body : outcome string :=
    resp <- requests_get W url ;;
    _ <- (if ok resp then Returns tt else Raises HTTPError) ;;
    page <- BeautifulSoup W (text resp) ;;
    let text :=
      get_text nl true
        (decomposed page ["script"; "style"; "nav"; "footer"; "noscript"]) in
    Returns (Py.take 6000 text) in
  match body with
  | Returns t => t
  | Raises e => "Could not scrape website: " ++ exception_text e
  end.

End Website.

(* ===================================================================== *)
(** ** One call of [render_resume_html], with its reads *)
(* ===================================================================== *)



Section RenderCall.

(** [Template(template_str).render(name=..., contact_line=..., sections=...)]:
    the text Jinja gives for a template source and the three values. *)
Variable jinja : string -> json -> json -> json -> string.


End RenderCall.



(* ===================================================================== *)
(** * Lemmas and theorems *)
(* ===================================================================== *)

(* ===================================================================== *)
(** ** Facts about strings *)
(* ===================================================================== *)

Section StringFacts.

Lemma append_empty_r (s : string) : s ++ "" = s.
Proof. induction s; simpl; congruence. Qed.

Lemma append_assoc (a b c : string) : (a ++ b) ++ c = a ++ b ++ c.
Proof. induction a; simpl; congruence. Qed.

Lemma length_append (a b : string) :
  String.length (a ++ b) = String.length a + String.length b.
Proof. induction a; simpl; congruence. Qed.

Lemma take_app_exact (a b : string) : Py.take (String.length a) (a ++ b) = a.
Proof. induction a; simpl; [now destruct b | congruence]. Qed.

Lemma drop_app_exact (a b : string) : Py.drop (String.length a) (a ++ b) = b.
Proof. induction a; simpl; auto. Qed.

Lemma take_drop (n : nat) (s : string) : Py.take n s ++ Py.drop n s = s.
Proof.
  revert s; induction n; intros [|c s]; simpl; auto.
  now rewrite IHn.
Qed.

Lemma prefix_cons (a b : ascii) (p s : string) :
  prefix (String a p) (String b s) = if ascii_dec a b then prefix p s else false.
Proof. reflexivity. Qed.

Lemma prefix_split (p s : string) :
  prefix p s = true -> s = p ++ Py.drop (String.length p) s.
Proof.
  revert s; induction p as [|a p IH]; intros s H; simpl in *.
  - now destruct s.
  - destruct s as [|b s]; [discriminate|].
    rewrite prefix_cons in H.
    destruct (ascii_dec a b); [subst|discriminate].
    simpl. f_equal. now apply IH.
Qed.

Lemma prefix_app (p s : string) : prefix p (p ++ s) = true.
Proof.
  induction p as [|a p IH]; simpl; [now destruct s|].
  destruct (ascii_dec a a); congruence.
Qed.

Lemma consumed_app (u rest : string) : consumed (u ++ rest) rest = u.
Proof.
  unfold consumed. rewrite length_append.
  replace (String.length u + String.length rest - String.length rest)
    with (String.length u) by lia.
  apply take_app_exact.
Qed.

End StringFacts.

(* ===================================================================== *)
(** ** Facts about the matcher *)
(* ===================================================================== *)

Section MatcherFacts.

Lemma span_take (p : ascii -> bool) (s : string) :
  all_in p (Py.take (span p s) s) = true.
Proof.
  induction s as [|c s IH]; simpl; auto.
  destruct (p c) eqn:E; simpl; auto. now rewrite E.
Qed.

Lemma span_drop (p : ascii -> bool) (s : string) :
  span p (Py.drop (span p s) s) = 0.
Proof.
  induction s as [|c s IH]; simpl; auto.
  destruct (p c) eqn:E; simpl; auto. now rewrite E.
Qed.

Lemma span_length (p : ascii -> bool) (s : string) :
  String.length (Py.take (span p s) s) = span p s.
Proof.
  induction s as [|c s IH]; simpl; auto.
  destruct (p c); simpl; auto.
Qed.

Lemma rep_counts_range (g : bool) (lo hi k : nat) :
  In k (rep_counts g lo hi) -> lo <= k <= hi.
Proof.
  unfold rep_counts. intros H.
  assert (In k (seq lo (S hi - lo))) as H'
    by (destruct g; [now apply in_rev|assumption]).
  apply in_seq in H'. lia.
Qed.

Lemma rep_counts_greedy_head (lo hi k : nat) (t : list nat) :
  rep_counts true lo hi = k :: t -> k = hi /\ lo <= hi.
Proof.
  unfold rep_counts. intros H.
  destruct (le_lt_dec lo hi) as [Hle|Hlt].
  - replace (S hi - lo) with (S (hi - lo)) in H by lia.
    rewrite seq_S, rev_app_distr in H. simpl in H.
    injection H as H _. lia.
  - replace (S hi - lo) with 0 in H by lia. discriminate.
Qed.

Lemma matches_seq (r1 r2 : regex) cap s :
  matches (Seq r1 r2) cap s
  = flat_map (fun m : pm => matches r2 (fst m) (snd m)) (matches r1 cap s).
Proof. reflexivity. Qed.

(** What a match leaves is a suffix of what it was given. *)
Lemma matches_suffix (r : regex) :
  forall cap s c rest, In (c, rest) (matches r cap s) ->
  exists u, s = u ++ rest.
Proof.
  induction r as [|l|p|g lo p|r1 IH1 r2 IH2|r1 IH1 r2 IH2|r1 IH1|r1 IH1|];
    intros cap s c rest H; simpl in H.
  - destruct H as [H|[]]. injection H as _ <-. now exists "".
  - destruct (prefix l s) eqn:E; [|contradiction].
    destruct H as [H|[]]. injection H as _ <-.
    exists l. now apply prefix_split.
  - destruct s as [|a s]; [contradiction|].
    destruct (p a); [|contradiction].
    destruct H as [H|[]]. injection H as _ <-. now exists (String a "").
  - apply in_map_iff in H as (k & H & _). injection H as _ <-.
    exists (Py.take k s). symmetry. apply take_drop.
  - apply in_flat_map in H as ([c1 s1] & H1 & H2). simpl in H2.
    apply IH1 in H1 as (u1 & ->). apply IH2 in H2 as (u2 & ->).
    exists (u1 ++ u2). now rewrite append_assoc.
  - apply in_app_or in H as [H|H]; eauto.
  - apply in_app_or in H as [H|[H|[]]]; eauto.
    injection H as _ <-. now exists "".
  - apply in_map_iff in H as ([c1 s1] & H & H1). simpl in H.
    injection H as _ <-. eauto.
  - destruct ((s =? "")%string || (s =? String "010" "")%string); [|contradiction].
    destruct H as [H|[]]. injection H as _ <-. now exists "".
Qed.

(** The first way of a sequence comes from some way of its first part. *)
Lemma flat_map_head (A B : Type) (f : A -> list B) (l : list A) (y : B) (t : list B) :
  flat_map f l = y :: t -> exists x t', In x l /\ f x = y :: t'.
Proof.
  induction l as [|x l IH]; simpl; [discriminate|].
  destruct (f x) as [|y' t'] eqn:E; simpl; intros H.
  - destruct (IH H) as (x0 & t0 & Hin & Hx). eauto.
  - injection H as -> _. exists x, t'. auto.
Qed.

(** A successful search matched at some offset of the text. *)
Lemma search_from_inv (r : regex) (s : string) :
  forall pos m, search_from r pos s = Some m ->
  exists pre tail rest t,
    s = pre ++ tail /\
    matches r None tail = (group1 m, rest) :: t /\
    group0 m = consumed tail rest.
Proof.
  induction s as [|a s IH]; intros pos m H; simpl in H.
  - destruct (matches r None "") as [|[c rest] t] eqn:E; [discriminate|].
    injection H as <-. exists "", "", rest, t. simpl. auto.
  - destruct (matches r None (String a s)) as [|[c rest] t] eqn:E.
    + apply IH in H as (pre & tail & rest & t & -> & H1 & H2).
      exists (String a pre), tail, rest, t. auto.
    + injection H as <-. exists "", (String a s), rest, t. simpl. auto.
Qed.

(** The first way a greedy captured repetition matches takes the whole run. *)
Lemma grp_rep_greedy_head (lo : nat) (p : ascii -> bool) cap s c rest t :
  matches (Grp (Rep true lo p)) cap s = (c, rest) :: t ->
  c = Some (Py.take (span p s) s) /\ rest = Py.drop (span p s) s /\ lo <= span p s.
Proof.
  simpl. rewrite map_map. simpl.
  destruct (rep_counts true lo (span p s)) as [|k ks] eqn:E;
    simpl; intros H; [discriminate|].
  apply rep_counts_greedy_head in E as [-> Hlo].
  injection H as <- <-.
  rewrite <- (take_drop (span p s) s) at 1.
  now rewrite consumed_app.
Qed.

End MatcherFacts.

Section IdentifierFacts.

Lemma matches_lit_in (l : string) cap s c rest :
  In (c, rest) (matches (Lit l) cap s) -> c = cap /\ s = l ++ rest.
Proof.
  simpl. destruct (prefix l s) eqn:E; [|contradiction].
  intros [H|[]]. injection H as <- <-. split; auto using prefix_split.
Qed.

Lemma one_of_dash_slash_nondigit (a : ascii) :
  one_of "-/" a = true -> digit a = false.
Proof.
  unfold one_of. cbn [Py.contains]. rewrite !prefix_cons.
  destruct (ascii_dec a "-") as [->|_]; [reflexivity|].
  destruct (ascii_dec a "/") as [->|_]; [reflexivity|].
  discriminate.
Qed.

(** The optional [(?:.*?[-/])] either matches nothing or ends on [-] or [/]. *)
Lemma opt_separator_in cap s c rest :
  In (c, rest) (matches (Opt (Seq (Rep false 0 dot) (Cls (one_of "-/")))) cap s) ->
  s = rest \/ exists u a, s = u ++ String a rest /\ digit a = false.
Proof.
  intros H. cbn [matches] in H. apply in_app_or in H as [H|[H|[]]].
  - right. apply in_flat_map in H as ([c1 s1] & H1 & H2).
    apply in_map_iff in H1 as (k & H1 & _). injection H1 as _ <-.
    cbn [fst snd matches] in H2.
    destruct (Py.drop k s) as [|a s2] eqn:E; [contradiction|].
    destruct (one_of "-/" a) eqn:Ea; [|contradiction].
    destruct H2 as [H2|[]]. injection H2 as _ <-.
    exists (Py.take k s), a. split.
    + rewrite <- E. symmetry. apply take_drop.
    + now apply one_of_dash_slash_nondigit.
  - left. now injection H.
Qed.

Lemma re_path_head tail c rest t :
  matches re_path None tail = (c, rest) :: t ->
  exists u a id,
    tail = u ++ String a id ++ rest /\ digit a = false /\ c = Some id /\
    all_in digit id = true /\ span digit rest = 0 /\ 8 <= String.length id.
Proof.
  unfold re_path. cbn [matches]. intros H.
  apply flat_map_head in H as ([c1 s1] & t1 & H1 & H).
  apply matches_lit_in in H1 as [-> ->]. cbn [fst snd] in H.
  apply flat_map_head in H as ([c2 s2] & t2 & H2 & H).
  cbn [fst snd] in H.
  apply grp_rep_greedy_head in H as (-> & -> & Hlen).
  assert (exists u a, "jobs/view/" ++ s1 = u ++ String a s2 /\ digit a = false)
    as (u & a & Hu & Ha).
  { apply opt_separator_in in H2 as [<-|(u & a & -> & Ha)].
    - exists "jobs/view", "/"%char. auto.
    - exists ("jobs/view/" ++ u), a. rewrite append_assoc. auto. }
  exists u, a, (Py.take (span digit s2) s2).
  change (String a (Py.take (span digit s2) s2) ++ Py.drop (span digit s2) s2)
    with (String a (Py.take (span digit s2) s2 ++ Py.drop (span digit s2) s2)).
  rewrite take_drop, span_take, span_drop, span_length. repeat split; auto.
Qed.

Lemma re_query_head tail c rest t :
  matches re_query None tail = (c, rest) :: t ->
  exists u a id,
    tail = u ++ String a id ++ rest /\ digit a = false /\ c = Some id /\
    all_in digit id = true /\ span digit rest = 0 /\ 1 <= String.length id.
Proof.
  unfold re_query. cbn [matches]. intros H.
  apply flat_map_head in H as ([c1 s1] & t1 & H1 & H).
  apply matches_lit_in in H1 as [-> ->]. cbn [fst snd] in H.
  apply grp_rep_greedy_head in H as (-> & -> & Hlen).
  exists "currentJobId", "="%char, (Py.take (span digit s1) s1).
  change (String "=" (Py.take (span digit s1) s1) ++ Py.drop (span digit s1) s1)
    with (String "=" (Py.take (span digit s1) s1 ++ Py.drop (span digit s1) s1)).
  rewrite take_drop, span_take, span_drop, span_length. repeat split; auto.
Qed.

(** What follows the digits of the trailing pattern cannot start with a
    digit, so the group never gives digits back. *)
Lemma trailing_end_no_digit cap (a : ascii) (s : string) :
  digit a = true ->
  matches (Seq (Opt (Lit "/")) (Alt (Lit "?") Eos)) cap (String a s) = [].
Proof.
  intros Ha. cbn [matches]. rewrite prefix_cons.
  destruct (ascii_dec "/" a) as [<-|_]; [discriminate|].
  cbn [app flat_map fst snd matches]. rewrite prefix_cons.
  destruct (ascii_dec "?" a) as [<-|_]; [discriminate|].
  simpl. destruct (Ascii.eqb_spec a "010") as [->|_]; [discriminate|reflexivity].
Qed.

Lemma span_drop_digit (p : ascii -> bool) (k : nat) (s : string) :
  k < span p s -> exists a s', Py.drop k s = String a s' /\ p a = true.
Proof.
  revert s; induction k as [|k IH]; intros [|a s] H; simpl in *; try lia.
  - destruct (p a) eqn:E; [eauto|lia].
  - destruct (p a) eqn:E; [|lia]. apply IH. lia.
Qed.

Lemma re_trailing_head tail c rest t :
  matches re_trailing None tail = (c, rest) :: t ->
  exists u a id post,
    tail = u ++ String a id ++ post /\ digit a = false /\ c = Some id /\
    all_in digit id = true /\ span digit post = 0 /\ 8 <= String.length id.
Proof.
  unfold re_trailing. rewrite matches_seq. intros H.
  apply flat_map_head in H as ([c1 s1] & t1 & H1 & H).
  apply matches_lit_in in H1 as [-> ->]. cbn [fst snd] in H.
  rewrite matches_seq in H.
  apply flat_map_head in H as ([c2 s2] & t2 & H2 & H).
  cbn [fst snd] in H. cbn [matches] in H2.
  apply in_map_iff in H2 as ([c3 s3] & H2 & H3). cbn [snd] in H2.
  injection H2 as <- <-.
  apply in_map_iff in H3 as (k & H3 & Hk). injection H3 as _ <-.
  apply rep_counts_range in Hk.
  assert (k = span digit s1) as ->.
  { destruct (Nat.eq_dec k (span digit s1)) as [|Hne]; [assumption|].
    destruct (@span_drop_digit digit k s1) as (a & s' & E & Ha); [lia|].
    rewrite E in H. rewrite trailing_end_no_digit in H by assumption.
    discriminate. }
  assert (In (c, rest) (matches (Seq (Opt (Lit "/")) (Alt (Lit "?") Eos))
             (Some (consumed s1 (Py.drop (span digit s1) s1)))
             (Py.drop (span digit s1) s1))) as Hin
    by (rewrite H; now left).
  assert (c = Some (Py.take (span digit s1) s1)) as ->.
  { clear H. cbn [matches] in Hin.
    apply in_flat_map in Hin as ([c4 s4] & H4 & H5). cbn [fst snd] in H5.
    assert (c4 = Some (consumed s1 (Py.drop (span digit s1) s1))) as ->.
    { apply in_app_or in H4 as [H4|[H4|[]]].
      - now apply matches_lit_in in H4 as [-> _].
      - now injection H4. }
    assert (c = Some (consumed s1 (Py.drop (span digit s1) s1))) as ->.
    { apply in_app_or in H5 as [H5|H5].
      - now apply matches_lit_in in H5 as [-> _].
      - destruct (_ || _); [|contradiction].
        destruct H5 as [H5|[]]. now injection H5. }
    rewrite <- (take_drop (span digit s1) s1) at 1.
    now rewrite consumed_app. }
  exists "", "/"%char, (Py.take (span digit s1) s1), (Py.drop (span digit s1) s1).
  change (String "/" (Py.take (span digit s1) s1) ++ Py.drop (span digit s1) s1)
    with (String "/" (Py.take (span digit s1) s1 ++ Py.drop (span digit s1) s1)).
  rewrite take_drop, span_take, span_drop, span_length. repeat split; auto; lia.
Qed.

Lemma digit_run_of_search (k : id_pattern) (url : string) (m : match_obj) (id : string) :
  search (pattern_regex k) url = Some m -> group1 m = Some id ->
  min_digits k <= String.length id /\ maximal_digit_run url id.
Proof.
  unfold search. intros H Hid.
  apply search_from_inv in H as (pre & tail & rest & t & -> & H & _).
  rewrite Hid in H.
  destruct k; cbn [pattern_regex min_digits] in *.
  - apply re_path_head in H as (u & a & id' & -> & Ha & E & Hd & Hs & Hl).
    injection E as <-. split; [assumption|].
    exists (pre ++ u), a, rest. rewrite append_assoc. auto.
  - apply re_query_head in H as (u & a & id' & -> & Ha & E & Hd & Hs & Hl).
    injection E as <-. split; [assumption|].
    exists (pre ++ u), a, rest. rewrite append_assoc. auto.
  - apply re_trailing_head in H as (u & a & id' & post & -> & Ha & E & Hd & Hs & Hl).
    injection E as <-. split; [assumption|].
    exists (pre ++ u), a, post. rewrite append_assoc. auto.
Qed.

End IdentifierFacts.

Example job_id_path :
  _extract_linkedin_job_id "https://example.com/jobs/view/senior-engineer-12345678"
  = Some "12345678".
Proof. reflexivity. Qed.

(** C8 (as stated) fails: the query-parameter pattern accepts any number of
    digits, so the identifier of this URL has three digits, not eight. *)
Lemma extract_id_short_query :
  _extract_linkedin_job_id "https://www.linkedin.com/jobs/search/?currentJobId=123"
  = Some "123" /\
  String.length "123" < 8.
Proof. split; [reflexivity|simpl; lia]. Qed.

(** C8 (amended): whenever the extraction succeeds, the identifier is group 1
    of the first pattern that matches, in the order path segment, query
    parameter, trailing segment; it is a run of digits of the URL that
    cannot be extended on either side, of at least 8 digits for the path and
    trailing patterns and of at least 1 digit for the query-parameter
    pattern. *)
Theorem extract_id_first_pattern (url id : string) :
  _extract_linkedin_job_id url = Some id ->
  exists k m,
    first_matching url = Some k /\
    search (pattern_regex k) url = Some m /\
    group1 m = Some id /\
    min_digits k <= String.length id /\
    maximal_digit_run url id.
Proof.
  unfold _extract_linkedin_job_id, first_matching. intros H.
  destruct (search re_path url) as [m1|] eqn:E1.
  { exists PathSegment, m1.
    destruct (@digit_run_of_search PathSegment url m1 id E1 H). auto. }
  destruct (search re_query url) as [m2|] eqn:E2.
  { exists QueryParam, m2.
    destruct (@digit_run_of_search QueryParam url m2 id E2 H). auto. }
  destruct (search re_trailing url) as [m3|] eqn:E3; [|discriminate].
  exists TrailingSegment, m3.
  destruct (@digit_run_of_search TrailingSegment url m3 id E3 H). auto.
Qed.

(** The theorem on a URL with a query parameter. *)
Lemma extract_id_first_pattern_witness :
  exists k m,
    first_matching "https://www.linkedin.com/jobs/search/?currentJobId=123" = Some k /\
    search (pattern_regex k) "https://www.linkedin.com/jobs/search/?currentJobId=123"
    = Some m /\
    group1 m = Some "123" /\
    min_digits k <= String.length "123" /\
    maximal_digit_run "https://www.linkedin.com/jobs/search/?currentJobId=123" "123".
Proof.
  apply (@extract_id_first_pattern
           "https://www.linkedin.com/jobs/search/?currentJobId=123" "123").
  reflexivity.
Defined.

(* ===================================================================== *)
(** ** Facts about [strip] and [contains] *)
(* ===================================================================== *)

Section StripFacts.

Lemma lstrip_spaces (w s : string) :
  all_in space w = true -> Py.lstrip (w ++ s) = Py.lstrip s.
Proof.
  induction w as [|c w IH]; simpl; auto.
  unfold space at 1. destruct (Py.isspace c); simpl; [auto|easy].
Qed.

Lemma lstrip_nonspace (c : ascii) (s : string) :
  space c = false -> Py.lstrip (String c s) = String c s.
Proof. unfold space. simpl. now intros ->. Qed.

Lemma rstrip_spaces (s w : string) :
  all_in space w = true -> Py.rstrip (s ++ w) = Py.rstrip s.
Proof.
  intros Hw.
  assert (Py.rstrip w = "") as Hnil.
  { induction w as [|c w IH]; simpl in *; auto.
    apply andb_prop in Hw as [Hc Hw]. rewrite (IH Hw).
    unfold space in Hc. now rewrite Hc. }
  induction s as [|a s IH]; simpl; [assumption|]. now rewrite IH.
Qed.

Lemma rstrip_nonspace (s : string) (c : ascii) :
  space c = false -> Py.rstrip (s ++ String c "") = s ++ String c "".
Proof.
  unfold space. intros Hc.
  induction s as [|a s IH]; simpl; [now rewrite Hc|].
  rewrite IH. now destruct s.
Qed.

(** Stripping text that is wrapped in white space gives the text back when
    it starts and ends with a character that is not white space. *)
Lemma strip_wrapped (w1 w2 m : string) (a b : ascii) :
  all_in space w1 = true -> all_in space w2 = true ->
  space a = false -> space b = false ->
  Py.strip (w1 ++ String a (m ++ String b "") ++ w2) = String a (m ++ String b "").
Proof.
  intros H1 H2 Ha Hb. unfold Py.strip.
  rewrite lstrip_spaces by assumption.
  change (String a (m ++ String b "") ++ w2)
    with (String a ((m ++ String b "") ++ w2)).
  rewrite lstrip_nonspace by assumption.
  change (String a ((m ++ String b "") ++ w2))
    with ((String a m ++ String b "") ++ w2).
  rewrite rstrip_spaces by assumption.
  now rewrite rstrip_nonspace.
Qed.

Lemma contains_cons (sub : string) (c : ascii) (s : string) :
  Py.contains sub (String c s) = prefix sub (String c s) || Py.contains sub s.
Proof. reflexivity. Qed.

Lemma prefix_nil_r (c : ascii) (l : string) : prefix (String c l) "" = false.
Proof. reflexivity. Qed.

(** A text without [sub] has no suffix that starts with it. *)
Lemma contains_false_drop (sub : string) (c : ascii) (s : string) (j : nat) :
  Py.contains (String c sub) s = false -> prefix (String c sub) (Py.drop j s) = false.
Proof.
  revert j; induction s as [|a s IH]; intros j H.
  - now destruct j.
  - rewrite contains_cons in H. apply orb_false_elim in H as [H1 H2].
    destruct j; simpl; auto.
Qed.

Lemma drop_app_le (j : nat) (a b : string) :
  j <= String.length a -> Py.drop j (a ++ b) = Py.drop j a ++ b.
Proof.
  revert a; induction j as [|j IH]; intros [|c a] H; simpl in *; auto; try lia.
  apply IH. lia.
Qed.

Lemma drop_app_ge (j : nat) (a b : string) :
  String.length a <= j -> Py.drop j (a ++ b) = Py.drop (j - String.length a) b.
Proof.
  revert a; induction j as [|j IH]; intros [|c a] H; simpl in *; auto; try lia.
  apply IH. lia.
Qed.

Lemma drop_nonempty (j : nat) (s : string) :
  j < String.length s -> exists c s', Py.drop j s = String c s'.
Proof.
  revert s; induction j as [|j IH]; intros [|c s] H; simpl in *; try lia; eauto.
  apply IH. lia.
Qed.

Lemma all_in_drop (p : ascii -> bool) (j : nat) (s : string) :
  all_in p s = true -> all_in p (Py.drop j s) = true.
Proof.
  revert s; induction j as [|j IH]; intros [|c s] H; simpl in *; auto.
  apply andb_prop in H as [_ H]. auto.
Qed.

(** Whether [l] starts a text does not depend on what follows a character
    that [l] does not have. *)
Lemma prefix_cut (l x : string) (c : ascii) (r1 r2 : string) :
  Py.contains (String c "") l = false ->
  prefix l (x ++ String c r1) = prefix l (x ++ String c r2).
Proof.
  revert x; induction l as [|b l IH]; intros x H; [now destruct x|].
  rewrite contains_cons, prefix_cons in H.
  apply orb_false_elim in H as [Hb Hl].
  destruct x as [|a x]; simpl append; rewrite !prefix_cons.
  - destruct (ascii_dec b c); [|reflexivity].
    subst. revert Hb. destruct (ascii_dec c c); [now destruct l|contradiction].
  - destruct (ascii_dec b a); auto.
Qed.

Lemma span_all (p : ascii -> bool) (w s : string) (c : ascii) :
  all_in p w = true -> p c = false -> span p (w ++ String c s) = String.length w.
Proof.
  intros Hw Hc. induction w as [|a w IH]; simpl in *.
  - now rewrite Hc.
  - apply andb_prop in Hw as [Ha Hw]. rewrite Ha. f_equal. auto.
Qed.

Lemma span_any (s : string) : span any s = String.length s.
Proof. induction s; simpl; auto. Qed.

End StripFacts.

(* ===================================================================== *)
(** ** Facts about searching *)
(* ===================================================================== *)

Section SearchFacts.

Lemma search_at_start (r : regex) (s : string) cap rest t :
  matches r None s = (cap, rest) :: t ->
  search r s = Some (MatchObj 0 (consumed s rest) cap).
Proof. unfold search. intros H. destruct s; simpl; now rewrite H. Qed.

(** A pattern that starts with a literal is not found in a text without it. *)
Lemma search_lit_none (c : ascii) (l : string) (r : regex) (s : string) :
  Py.contains (String c l) s = false ->
  forall pos, search_from (Seq (Lit (String c l)) r) pos s = None.
Proof.
  induction s as [|a s IH]; intros H pos; [reflexivity|].
  rewrite contains_cons in H. apply orb_false_elim in H as [H1 H2].
  cbn [search_from]. rewrite matches_seq. cbn [matches]. rewrite H1.
  cbn [flat_map]. auto.
Qed.

(** A search skips an offset at which the pattern's first literal is absent. *)
Lemma search_lit_skip (l : string) (r : regex) (a : ascii) (s : string) (pos : nat) :
  prefix l (String a s) = false ->
  search_from (Seq (Lit l) r) pos (String a s) = search_from (Seq (Lit l) r) (S pos) s.
Proof.
  intros H. cbn [search_from]. rewrite matches_seq. cbn [matches]. now rewrite H.
Qed.

Lemma matches_seq_head (r1 r2 : regex) cap s c1 s1 t1 y t2 :
  matches r1 cap s = (c1, s1) :: t1 ->
  matches r2 c1 s1 = y :: t2 ->
  exists t, matches (Seq r1 r2) cap s = y :: t.
Proof.
  intros H1 H2. rewrite matches_seq, H1. cbn [flat_map fst snd]. rewrite H2.
  simpl. eauto.
Qed.

Lemma flat_map_seq_first (B : Type) (f : nat -> list B) (m a k : nat) (y : B) (t : list B) :
  a <= k < a + m ->
  (forall j, a <= j < k -> f j = []) ->
  f k = y :: t ->
  exists t', flat_map f (seq a m) = y :: t'.
Proof.
  revert a; induction m as [|m IH]; intros a Hk Hf Hy; [lia|].
  cbn [seq flat_map].
  destruct (Nat.eq_dec a k) as [->|Hne].
  - rewrite Hy. simpl. eauto.
  - rewrite Hf by lia. simpl. apply IH; auto; try lia.
    intros j Hj. apply Hf. lia.
Qed.

Lemma flat_map_rev_seq_first (B : Type) (f : nat -> list B) (n k : nat) (y : B) (t : list B) :
  k <= n ->
  (forall j, k < j <= n -> f j = []) ->
  f k = y :: t ->
  exists t', flat_map f (rev (seq 0 (S n))) = y :: t'.
Proof.
  induction n as [|n IH]; intros Hk Hf Hy.
  - assert (k = 0) as -> by lia. simpl. rewrite Hy. simpl. eauto.
  - rewrite seq_S, rev_app_distr. cbn [rev app flat_map plus].
    destruct (Nat.eq_dec k (S n)) as [->|Hne].
    + rewrite Hy. simpl. eauto.
    + rewrite Hf by lia. simpl. apply IH; auto; try lia.
      intros j Hj. apply Hf. lia.
Qed.

Lemma flat_map_map (A B C : Type) (g : A -> B) (f : B -> list C) (l : list A) :
  flat_map f (map g l) = flat_map (fun x => f (g x)) l.
Proof. induction l; simpl; congruence. Qed.

(** A lazy [(.*?)] before a literal stops at the first place where the
    literal starts. *)
Lemma lazy_group_until (c : ascii) (l u t : string) cap :
  (forall j, j < String.length u ->
     prefix (String c l) (Py.drop j (u ++ String c l ++ t)) = false) ->
  exists t', matches (Seq (Grp (Rep false 0 any)) (Lit (String c l))) cap
               (u ++ String c l ++ t) = (Some u, t) :: t'.
Proof.
  intros Hno. set (s := u ++ String c l ++ t).
  rewrite matches_seq. cbn [matches]. rewrite !flat_map_map. cbn [fst snd].
  unfold rep_counts. rewrite span_any, Nat.sub_0_r.
  apply flat_map_seq_first with (k := String.length u) (t := []).
  - unfold s. rewrite length_append. simpl. lia.
  - intros j Hj. rewrite Hno by lia. reflexivity.
  - unfold s. rewrite drop_app_exact, consumed_app.
    rewrite (prefix_app (String c l) t).
    now rewrite (drop_app_exact (String c l) t).
Qed.

(** A greedy [.*] before a one-character literal stops at the last place
    where the literal stands. *)
Lemma greedy_until_last (c : ascii) (u t : string) cap :
  Py.contains (String c "") t = false ->
  exists t', matches (Seq (Rep true 0 any) (Lit (String c ""))) cap
               (u ++ String c t) = (cap, t) :: t'.
Proof.
  intros Hno. set (s := u ++ String c t).
  rewrite matches_seq. cbn [matches]. rewrite flat_map_map. cbn [fst snd].
  unfold rep_counts. rewrite span_any, Nat.sub_0_r.
  apply flat_map_rev_seq_first with (k := String.length u) (t := []).
  - unfold s. rewrite length_append. simpl. lia.
  - intros j Hj. unfold s. rewrite drop_app_ge by lia.
    destruct (j - String.length u) as [|i] eqn:E; [lia|]. cbn [Py.drop].
    now rewrite contains_false_drop.
  - unfold s. rewrite drop_app_exact, prefix_cons.
    destruct (ascii_dec c c); [|contradiction]. now destruct t.
Qed.

End SearchFacts.

(* ===================================================================== *)
(** ** Recovering a mapping: [parse_json_response] *)
(* ===================================================================== *)

Section ParserFacts.

Variable json_loads : string -> option json.

Lemma seq_in (r1 r2 : regex) cap s c rest :
  In (c, rest) (matches (Seq r1 r2) cap s) ->
  exists c1 s1, In (c1, s1) (matches r1 cap s) /\ In (c, rest) (matches r2 c1 s1).
Proof.
  rewrite matches_seq. intros H.
  apply in_flat_map in H as ([c1 s1] & H1 & H2). eauto.
Qed.

(** Group 1 of the fence pattern takes part in every match. *)
Lemma fence_group_some cap s c rest :
  In (c, rest) (matches re_fence cap s) -> exists g, c = Some g.
Proof.
  unfold re_fence. intros H.
  apply seq_in in H as (c1 & s1 & _ & H).
  apply seq_in in H as (c2 & s2 & _ & H).
  apply seq_in in H as (c3 & s3 & _ & H).
  apply seq_in in H as (c4 & s4 & _ & H).
  apply seq_in in H as (c5 & s5 & H & H').
  apply matches_lit_in in H' as [-> _].
  cbn [matches] in H. apply in_map_iff in H as (x & H & _).
  injection H as <- _. eauto.
Qed.

(** Taking the candidate never raises. *)
Lemma candidate_returns (text : string) : exists t, candidate text = Returns t.
Proof.
  unfold candidate.
  destruct (search re_fence (Py.strip text)) as [m|] eqn:E; [|eauto].
  apply search_from_inv in E as (pre & tail & rest & t & _ & H & _).
  destruct (@fence_group_some None tail (group1 m) rest) as (g & ->).
  - rewrite H. now left.
  - eauto.
Qed.

(** [parse_json_response] returns a value on every text, as long as
    [json.loads] raises nothing but [JSONDecodeError]. *)
Lemma parse_json_response_total (text : string) :
  exists v, parse_json_response json_loads text = Returns v.
Proof.
  unfold parse_json_response.
  destruct (candidate_returns text) as (t & ->). cbn [bind].
  destruct (json_loads t); [eauto|].
  destruct (search re_object t) as [m|]; [|eauto].
  destruct (json_loads (group0 m)); eauto.
Qed.

(** No fence is found in a text without three backquotes in a row. *)
Lemma candidate_unfenced (text : string) :
  Py.contains fence (Py.strip text) = false ->
  candidate text = Returns (Py.strip text).
Proof.
  intros H. unfold candidate, search, re_fence.
  now rewrite (@search_lit_none _ _ _ _ H).
Qed.

Lemma rep_counts_greedy_cons (n : nat) :
  rep_counts true 0 n = n :: rev (seq 0 n).
Proof.
  unfold rep_counts. rewrite Nat.sub_0_r, seq_S, rev_app_distr. reflexivity.
Qed.

Lemma prefix_json_false (w s : string) :
  all_in space w = true -> prefix "json" (w ++ String "{" s) = false.
Proof.
  destruct w as [|c w]; intros H; simpl append; rewrite prefix_cons.
  - now destruct (ascii_dec "j" "{").
  - destruct (ascii_dec "j" c) as [<-|]; [discriminate|reflexivity].
Qed.

(** No fence starts inside an object text without one, nor in the white
    space after it. *)
Lemma no_fence_inside (body w t : string) (j : nat) :
  Py.contains fence (body ++ "}") = false ->
  all_in space w = true ->
  j < String.length ((body ++ "}") ++ w) ->
  prefix fence (Py.drop j (((body ++ "}") ++ w) ++ t)) = false.
Proof.
  intros Hc Hw Hj. rewrite !append_assoc.
  change ("}" ++ w ++ t) with (String "}" (w ++ t)).
  destruct (Nat.lt_ge_cases j (String.length body)) as [Hlt|Hge].
  - rewrite drop_app_le by lia.
    rewrite (@prefix_cut fence (Py.drop j body) "}" (w ++ t) "") by reflexivity.
    rewrite <- drop_app_le by lia. now apply contains_false_drop.
  - rewrite drop_app_ge by assumption.
    destruct (j - String.length body) as [|i] eqn:E; [reflexivity|].
    cbn [Py.drop]. rewrite !length_append in Hj. simpl in Hj.
    rewrite drop_app_le by lia.
    destruct (@drop_nonempty i w) as (c & s' & Hd); [lia|].
    pose proof (@all_in_drop _ i _ Hw) as Hs. rewrite Hd in *.
    simpl in Hs. apply andb_prop in Hs as [Hs _].
    simpl append. unfold fence. rewrite prefix_cons.
    destruct (ascii_dec "`" c) as [<-|]; [discriminate|reflexivity].
Qed.

(** The fence pattern, at the start of a fenced object text, captures the
    object and the white space after it. *)
Lemma fence_match (tag w3 inner w4 post : string) :
  tag = "" \/ tag = "json" ->
  all_in space w3 = true -> all_in space w4 = true ->
  Py.contains fence (String "{" (inner ++ "}")) = false ->
  exists t,
    matches re_fence None
      (fence ++ tag ++ w3 ++ (String "{" (inner ++ "}") ++ w4) ++ fence ++ post)
    = (Some (String "{" (inner ++ "}") ++ w4), post) :: t.
Proof.
  intros Htag H3 H4 Hc.
  set (obj := String "{" (inner ++ "}")) in *.
  set (S5 := (obj ++ w4) ++ fence ++ post).
  assert (exists t, matches (Seq (Grp (Rep false 0 any)) (Lit fence)) None S5
                    = (Some (obj ++ w4), post) :: t) as [t5 E5].
  { apply lazy_group_until. intros j Hj.
    apply (@no_fence_inside (String "{" inner) w4 (fence ++ post) j); assumption. }
  assert (matches (Opt (Lit (String "010" ""))) None S5 = [(None, S5)]) as E4
    by reflexivity.
  destruct (matches_seq_head _ _ _ _ E4 E5) as [t4 E45].
  assert (exists t, matches (Rep true 0 space) None (w3 ++ S5) = (None, S5) :: t)
    as [t3 E3].
  { assert (span space (w3 ++ S5) = String.length w3) as Hsp
      by (apply (@span_all space w3 (((inner ++ "}") ++ w4) ++ fence ++ post) "{");
          auto).
    cbn [matches]. rewrite Hsp, rep_counts_greedy_cons. cbn [map].
    rewrite drop_app_exact. eauto. }
  destruct (matches_seq_head _ _ _ _ E3 E45) as [t34 E345].
  assert (exists t, matches (Opt (Lit "json")) None (tag ++ w3 ++ S5)
                    = (None, w3 ++ S5) :: t) as [t2 E2].
  { destruct Htag as [->| ->].
    - assert (prefix "json" (w3 ++ S5) = false) as Hp
        by (apply (@prefix_json_false w3 (((inner ++ "}") ++ w4) ++ fence ++ post));
            assumption).
      cbn [matches append]. rewrite Hp. simpl. eauto.
    - cbn [matches]. rewrite (prefix_app "json" (w3 ++ S5)).
      rewrite (drop_app_exact "json" (w3 ++ S5)). simpl. eauto. }
  destruct (matches_seq_head _ _ _ _ E2 E345) as [t234 E2345].
  assert (matches (Lit fence) None (fence ++ tag ++ w3 ++ S5)
          = [(None, tag ++ w3 ++ S5)]) as E1.
  { cbn [matches]. rewrite (prefix_app fence (tag ++ w3 ++ S5)).
    now rewrite (drop_app_exact fence (tag ++ w3 ++ S5)). }
  exact (matches_seq_head _ _ _ _ E1 E2345).
Qed.

End ParserFacts.

Lemma matches_lit_char (c : ascii) (s : string) cap :
  matches (Lit (String c "")) cap (String c s) = [(cap, s)].
Proof.
  cbn [matches]. rewrite prefix_cons.
  destruct (ascii_dec c c); [|contradiction]. now destruct s.
Qed.

(** The greedy [{...}] region of a text runs from its first opening brace
    to its last closing brace. *)
Lemma search_object_region (a b c : string) :
  Py.contains "{" a = false -> Py.contains "}" c = false ->
  forall pos, exists m,
    search_from re_object pos (a ++ String "{" (b ++ String "}" c)) = Some m /\
    group0 m = String "{" (b ++ "}").
Proof.
  intros Ha Hc. induction a as [|x a IH]; intros pos.
  - destruct (@greedy_until_last "}" b c None Hc) as [t E].
    pose proof (matches_lit_char "{" (b ++ String "}" c) None) as E1.
    destruct (matches_seq_head _ _ _ _ E1 E) as [t' E'].
    simpl append. cbn [search_from]. unfold re_object. rewrite E'.
    eexists. split; [reflexivity|]. cbn [group0].
    change (String "{" (b ++ String "}" c)) with ("{" ++ b ++ "}" ++ c).
    rewrite <- (append_assoc b "}" c), <- (append_assoc "{" (b ++ "}") c).
    apply consumed_app.
  - rewrite contains_cons in Ha. apply orb_false_elim in Ha as [Hx Ha].
    rewrite prefix_cons in Hx.
    assert (prefix "{" (String x (a ++ String "{" (b ++ String "}" c))) = false) as Hx'.
    { rewrite prefix_cons. destruct (ascii_dec "{" x); [now destruct a|reflexivity]. }
    simpl append. unfold re_object. rewrite search_lit_skip by assumption.
    apply IH. assumption.
Qed.

(** C2: on the text [[1, 2]] the function returns the list that [json.loads]
    gives, which is not a mapping: a response that is valid JSON but not an
    object is returned as it is. *)
Theorem parse_json_response_returns_list :
  parse_json_response Json.loads "[1, 2]" = Returns (JArr [JNum "1"; JNum "2"]) /\
  is_dict (JArr [JNum "1"; JNum "2"]) = false.
Proof. split; reflexivity. Qed.

(** C3 (as stated) fails: the object [{"a": "```x```"}] is valid JSON, yet
    the fence pattern matches inside its string and the function returns
    the empty mapping instead of the parsed object. *)
Lemma parse_json_response_backquotes_in_object :
  Json.loads (quoted "{'a': '```x```'}") = Some (JObj [("a", JStr "```x```")]) /\
  parse_json_response Json.loads (quoted "{'a': '```x```'}") = Returns (JObj []).
Proof. split; reflexivity. Qed.

(** C3 (amended): for every text that [json.loads] accepts, that starts with
    an opening and ends with a closing brace and has no three backquotes in
    a row, the function returns its strict parse, whether the text is
    wrapped in white space only or also in a fenced block (with or without
    the [json] tag). *)
Theorem parse_json_response_object
    (json_loads : string -> option json) (inner w1 w2 w3 w4 tag : string) (v : json) :
  json_loads (String "{" (inner ++ "}")) = Some v ->
  Py.contains fence (String "{" (inner ++ "}")) = false ->
  all_in space w1 = true -> all_in space w2 = true ->
  all_in space w3 = true -> all_in space w4 = true ->
  tag = "" \/ tag = "json" ->
  parse_json_response json_loads (w1 ++ String "{" (inner ++ "}") ++ w2) = Returns v /\
  parse_json_response json_loads
    (w1 ++ (fence ++ tag ++ w3 ++ String "{" (inner ++ "}") ++ w4 ++ fence) ++ w2)
  = Returns v.
Proof.
  intros Hv Hc H1 H2 H3 H4 Htag.
  set (obj := String "{" (inner ++ "}")) in *.
  split; unfold parse_json_response.
  - assert (Py.strip (w1 ++ obj ++ w2) = obj) as Hs by now apply strip_wrapped.
    rewrite candidate_unfenced; rewrite Hs; [|assumption].
    cbn [bind]. now rewrite Hv.
  - set (F := fence ++ tag ++ w3 ++ obj ++ w4 ++ fence).
    assert (F = String "`" (("``" ++ tag ++ w3 ++ obj ++ w4 ++ "``") ++ "`")) as HF
      by (unfold F, fence; now rewrite !append_assoc).
    assert (Py.strip (w1 ++ F ++ w2) = F) as Hs
      by (rewrite HF; now apply strip_wrapped).
    assert (F = fence ++ tag ++ w3 ++ (obj ++ w4) ++ fence ++ "") as HF'
      by (unfold F; now rewrite append_assoc, append_empty_r).
    destruct (@fence_match tag w3 inner w4 "" Htag H3 H4 Hc) as [t E].
    fold obj in E. rewrite <- HF' in E.
    unfold candidate. rewrite Hs, (search_at_start _ _ E). cbn [group1].
    assert (Py.strip (obj ++ w4) = obj) as Hs'
      by (apply (@strip_wrapped "" w4 inner "{" "}"); auto).
    rewrite Hs'. cbn [bind]. now rewrite Hv.
Qed.

(** The theorem on a small object, bare and fenced. *)
Lemma parse_json_response_object_witness :
  parse_json_response Json.loads
    (" " ++ String "{" (quoted "'a': 1" ++ "}") ++ nl)
  = Returns (JObj [("a", JNum "1")]) /\
  parse_json_response Json.loads
    (" " ++ (fence ++ "json" ++ nl ++ String "{" (quoted "'a': 1" ++ "}") ++ nl ++ fence) ++ nl)
  = Returns (JObj [("a", JNum "1")]).
Proof.
  apply (@parse_json_response_object Json.loads (quoted "'a': 1") " " nl nl nl "json");
    (reflexivity || (right; reflexivity)).
Defined.

(** C4 (as stated) fails: the text has a parseable [{...}] region before a
    fenced block whose content is not JSON; the region of the original text
    parses, yet the function searches only the fenced content and returns
    the empty mapping. *)
Lemma parse_json_response_region_outside_fence :
  let text := quoted "{'a': 1}" ++ nl ++ fence ++ nl ++ "not json" ++ nl ++ fence in
  candidate text = Returns "not json" /\
  Json.loads "not json" = None /\
  option_map group0 (search re_object text) = Some (quoted "{'a': 1}") /\
  Json.loads (quoted "{'a': 1}") = Some (JObj [("a", JNum "1")]) /\
  parse_json_response Json.loads text = Returns (JObj []).
Proof. repeat split; reflexivity. Qed.

(** C4 (amended): when the strict parse of the candidate fails (the
    candidate is the content of the first fenced block if there is one, the
    stripped text otherwise), the function searches the candidate, not the
    original text: if the candidate has an opening brace and a closing
    brace after it, the region from its first opening brace to its last
    closing brace is parsed strictly, and the function returns that parse
    when it succeeds and the empty mapping when it fails. *)
Theorem parse_json_response_fallback
    (json_loads : string -> option json) (text a b c : string) :
  candidate text = Returns (a ++ String "{" (b ++ String "}" c)) ->
  Py.contains "{" a = false -> Py.contains "}" c = false ->
  json_loads (a ++ String "{" (b ++ String "}" c)) = None ->
  parse_json_response json_loads text
  = Returns match json_loads (String "{" (b ++ "}")) with
            | Some v => v
            | None => JObj []
            end.
Proof.
  intros Hcand Ha Hc Hfail. unfold parse_json_response.
  rewrite Hcand. cbn [bind]. rewrite Hfail. unfold search.
  destruct (search_object_region a b c Ha Hc 0) as (m & -> & ->).
  now destruct (json_loads (String "{" (b ++ "}"))).
Qed.

(** The theorem on a fenced block with words around an object. *)
Lemma parse_json_response_fallback_witness :
  parse_json_response Json.loads
    (fence ++ nl ++ "Sure: " ++ String "{" (quoted "'a': 1" ++ String "}" " done") ++ fence)
  = Returns (JObj [("a", JNum "1")]).
Proof.
  apply (@parse_json_response_fallback Json.loads
           (fence ++ nl ++ "Sure: " ++ String "{" (quoted "'a': 1" ++ String "}" " done") ++ fence)
           "Sure: " (quoted "'a': 1") " done");
    reflexivity.
Defined.

(* ===================================================================== *)
(** ** Facts about [replace] on a doubled character *)
(* ===================================================================== *)

Section ReplaceFacts.

Variable x : ascii.
Variable new : string.

Lemma prefix_empty (s : string) : prefix "" s = true.
Proof. now destruct s. Qed.

Lemma replace_hit (s : string) :
  Py.replace (twice x) new (String x (String x s)) = new ++ Py.replace (twice x) new s.
Proof.
  unfold Py.replace, twice. cbn [Py.replace_from].
  rewrite !prefix_cons. destruct (ascii_dec x x); [|contradiction].
  rewrite prefix_empty. reflexivity.
Qed.

Lemma replace_miss (old : string) (c : ascii) (s : string) :
  old <> "" -> prefix old (String c s) = false ->
  Py.replace old new (String c s) = String c (Py.replace old new s).
Proof.
  intros Hne H. unfold Py.replace. cbn [Py.replace_from].
  destruct old; [contradiction|]. now rewrite H.
Qed.

Lemma twice_not_empty : twice x <> "".
Proof. discriminate. Qed.

Lemma prefix_twice (c : ascii) (s : string) :
  prefix (twice x) (String c s) = Ascii.eqb c x && starts_with x s.
Proof.
  unfold twice. rewrite prefix_cons.
  destruct (ascii_dec x c) as [<-|Hne].
  - rewrite Ascii.eqb_refl. destruct s as [|c' s]; [reflexivity|].
    rewrite prefix_cons. simpl.
    destruct (ascii_dec x c') as [<-|Hne'].
    + now rewrite Ascii.eqb_refl, prefix_empty.
    + destruct (Ascii.eqb_spec c' x); [congruence|reflexivity].
  - destruct (Ascii.eqb_spec c x); [congruence|reflexivity].
Qed.

(** A text without the doubled character is left as it is. *)
Lemma replace_absent (s : string) :
  Py.contains (twice x) s = false -> Py.replace (twice x) new s = s.
Proof.
  induction s as [|c s IH]; intros H; [reflexivity|].
  rewrite contains_cons in H. apply orb_false_elim in H as [H1 H2].
  rewrite replace_miss by (auto using twice_not_empty). now rewrite IH.
Qed.

(** Isolated text passes unchanged, whatever follows it. *)
Lemma replace_isolated (s rest : string) :
  isolated x s = true ->
  Py.replace (twice x) new (s ++ rest) = s ++ Py.replace (twice x) new rest.
Proof.
  induction s as [|c s IH]; intros H; [reflexivity|].
  simpl append. cbn [isolated] in H.
  rewrite replace_miss; [| apply twice_not_empty |].
  - f_equal. apply IH.
    destruct (Ascii.eqb c x); [|assumption].
    destruct s; [discriminate|]. now apply andb_prop in H as [_ H].
  - rewrite prefix_twice. destruct (Ascii.eqb c x); [|reflexivity].
    destruct s as [|c' s]; [discriminate|].
    apply andb_prop in H as [H _]. simpl.
    now destruct (Ascii.eqb c' x).
Qed.

Lemma isolated_absent (s : string) :
  isolated x s = true -> Py.contains (twice x) s = false.
Proof.
  induction s as [|c s IH]; intros H; [reflexivity|].
  rewrite contains_cons, prefix_twice. cbn [isolated] in H.
  destruct (Ascii.eqb c x); simpl.
  - destruct s as [|c' s]; [discriminate|].
    apply andb_prop in H as [H1 H2]. simpl.
    destruct (Ascii.eqb c' x); [discriminate|]. now apply IH.
  - now apply IH.
Qed.

Lemma isolated_app (a b : string) :
  isolated x a = true -> isolated x b = true -> isolated x (a ++ b) = true.
Proof.
  intros Ha Hb. induction a as [|c a IH]; [assumption|].
  simpl append. cbn [isolated] in *.
  destruct (Ascii.eqb c x); [|auto].
  destruct a as [|c' a]; [discriminate|].
  apply andb_prop in Ha as [H1 H2]. simpl append in *.
  cbv beta iota. rewrite H1. simpl. auto.
Qed.

(** The replacement goes through a text cut into pieces that are either the
    doubled character or isolated text. *)
Lemma replace_pieces (A : Type) (f g : A -> string) (l : list A) :
  (forall t, In t l ->
     (f t = twice x /\ g t = new) \/ (isolated x (f t) = true /\ g t = f t)) ->
  Py.replace (twice x) new (cat_all (map f l)) = cat_all (map g l).
Proof.
  induction l as [|t l IH]; intros H; [reflexivity|].
  cbn [map cat_all fold_right]. fold (cat_all (map f l)) (cat_all (map g l)).
  destruct (H t (or_introl eq_refl)) as [[-> ->]|[Hi ->]].
  - unfold twice at 2. simpl append. rewrite replace_hit.
    f_equal. apply IH. intros; apply H; now right.
  - rewrite replace_isolated by assumption.
    f_equal. apply IH. intros; apply H; now right.
Qed.


End ReplaceFacts.

(* ===================================================================== *)
(** ** Rendering: [render_resume_html] *)
(* ===================================================================== *)

Section MarkerFacts.

Lemma change_markers_tokens (hl : bool) (ts : list token) :
  plain_tokens ts ->
  change_markers hl (cat_all (map token_source ts))
  = cat_all (map (if hl then token_highlight else token_clean) ts).
Proof.
  intros Hp. unfold change_markers.
  change "[[" with (twice "["). change "]]" with (twice "]").
  set (mid := fun new t => match t with
                           | Plain s => s
                           | MarkOpen => new
                           | MarkClose => twice "]"
                           end).
  assert (forall new, Py.replace (twice "[") new (cat_all (map token_source ts))
                      = cat_all (map (mid new) ts)) as H1.
  { intros new. apply replace_pieces. intros [s| |] Hin; simpl; auto.
    right. split; [|reflexivity].
    apply Hp in Hin. now apply andb_prop in Hin as [H _]. }
  destruct hl; rewrite H1; apply replace_pieces; intros [s| |] Hin; simpl; auto;
    right; (split; [|reflexivity]); apply Hp in Hin;
    now apply andb_prop in Hin as [_ H].
Qed.

Lemma clean_tokens_isolated (x : ascii) (ts : list token) :
  (forall s, In (Plain s) ts -> isolated x s = true) ->
  isolated x (cat_all (map token_clean ts)) = true.
Proof.
  induction ts as [|t ts IH]; intros H; [reflexivity|].
  cbn [map cat_all fold_right]. fold (cat_all (map token_clean ts)).
  apply isolated_app.
  - destruct t; simpl; auto. apply H. now left.
  - apply IH. intros s Hs. apply H. now right.
Qed.

End MarkerFacts.

(** C7 (as stated) fails: the content [[]][] has no delimiter pair; once the
    closing delimiter in its middle is removed, the two single brackets
    around it meet, and the clean output has a [[[]. *)
Lemma render_clean_keeps_marker :
  Py.contains "[[" (render_resume_html plain_template stray_doc false)
  = true.
Proof. reflexivity. Qed.

(** C7 (amended): for every Document whose composed body is plain text
    interleaved with the delimiters [[[] and []]], where no piece of plain
    text contains a delimiter or ends with a bracket, the clean output is
    the body with every delimiter removed and the text unchanged, so it has
    no [[[] and no []]], and the highlighted output is the body with every
    [[[] replaced by the opening span tag and every []]] by the closing
    tag. *)
Theorem render_change_markers
    (template : json -> json -> json -> string) (data : dict) (ts : list token) :
  template (get data "name" (JStr "")) (get data "contact_line" (JStr ""))
           (get data "sections" (JArr []))
  = cat_all (map token_source ts) ->
  plain_tokens ts ->
  render_resume_html template data false = cat_all (map token_clean ts) /\
  Py.contains "[[" (render_resume_html template data false) = false /\
  Py.contains "]]" (render_resume_html template data false) = false /\
  render_resume_html template data true = cat_all (map token_highlight ts).
Proof.
  intros Hbody Hp. unfold render_resume_html. rewrite Hbody.
  rewrite !change_markers_tokens by assumption. repeat split.
  - apply (@isolated_absent "["), clean_tokens_isolated.
    intros s Hs. apply Hp in Hs. now apply andb_prop in Hs as [H _].
  - apply (@isolated_absent "]"), clean_tokens_isolated.
    intros s Hs. apply Hp in Hs. now apply andb_prop in Hs as [_ H].
Qed.

(** The theorem on the example of the specification. *)
Lemma render_change_markers_witness :
  render_resume_html plain_template marked_doc false
  = cat_all (map token_clean marked_tokens) /\
  Py.contains "[[" (render_resume_html plain_template marked_doc false)
  = false /\
  Py.contains "]]" (render_resume_html plain_template marked_doc false)
  = false /\
  render_resume_html plain_template marked_doc true
  = cat_all (map token_highlight marked_tokens).
Proof.
  apply (@render_change_markers plain_template marked_doc marked_tokens).
  - reflexivity.
  - intros s [H|[H|[H|[H|[H|[]]]]]]; try discriminate H;
      injection H as <-; reflexivity.
Defined.

(** The example of the specification: the marked part stays, the delimiters
    go. *)
Example render_clean_example :
  Py.contains "<p>Drove end-to-end strategy for growth</p>"
    (render_resume_html plain_template marked_doc false) = true /\
  Py.contains (quoted "Drove <span class='changed'>end-to-end strategy</span> for growth")
    (render_resume_html plain_template marked_doc true) = true.
Proof. split; reflexivity. Qed.




Section ClosedFacts.

Variable x : ascii.

Lemma starts_with_app (a b : string) :
  a <> "" -> starts_with x (a ++ b) = starts_with x a.
Proof. destruct a; [contradiction|reflexivity]. Qed.

(** Joining two texts without [xx] makes no [xx] unless the first ends and
    the second starts with [x]. *)
Lemma absent_app (a b : string) :
  Py.contains (twice x) a = false -> Py.contains (twice x) b = false ->
  ends_with x a = false \/ starts_with x b = false ->
  Py.contains (twice x) (a ++ b) = false.
Proof.
  intros Ha Hb Hj. induction a as [|c a IH]; [assumption|].
  rewrite contains_cons, prefix_twice in Ha.
  apply orb_false_elim in Ha as [Hc Ha].
  simpl append. rewrite contains_cons, prefix_twice.
  destruct a as [|c' a].
  - simpl append. rewrite Hb, orb_false_r.
    destruct Hj as [Hj|Hj]; [|now rewrite Hj, andb_false_r].
    simpl in Hj. now rewrite Hj.
  - rewrite IH by auto. rewrite orb_false_r. exact Hc.
Qed.

Lemma good_nil : good x "".
Proof. split; reflexivity. Qed.

Lemma closed_nil : closed x "".
Proof. intros rest H. exact H. Qed.

Lemma closed_app (a b : string) : closed x a -> closed x b -> closed x (a ++ b).
Proof. intros Ha Hb rest H. rewrite append_assoc. auto. Qed.

(** Markup, then a field without [xx], then a closed piece. *)
Lemma closed_step (m f s : string) :
  safe_for x m = true -> Py.contains (twice x) f = false -> closed x s ->
  closed x (m ++ f ++ s).
Proof.
  unfold safe_for. intros Hm Hf Hs rest Hr.
  apply andb_prop in Hm as [Hm Hne]. apply andb_prop in Hm as [Hm He].
  apply andb_prop in Hm as [Hm Hst].
  apply negb_true_iff in Hm, Hst, He, Hne.
  apply Hs in Hr as [Hr1 Hr2]. rewrite !append_assoc. split.
  - apply absent_app; auto. apply absent_app; auto.
  - rewrite starts_with_app; [assumption|].
    intros ->. discriminate.
Qed.

Lemma closed_markup (m : string) : safe_for x m = true -> closed x m.
Proof.
  intros Hm. rewrite <- (append_empty_r m).
  change (m ++ "") with (m ++ "" ++ ""). apply closed_step; auto using closed_nil.
Qed.

Lemma closed_markup_then (m s : string) :
  safe_for x m = true -> closed x s -> closed x (m ++ s).
Proof. intros Hm Hs. apply (@closed_step m "" s); auto. Qed.

Lemma closed_cat_all (A : Type) (g : A -> string) (l : list A) :
  (forall e, In e l -> closed x (g e)) -> closed x (cat_all (map g l)).
Proof.
  induction l as [|e l IH]; intros H; [apply closed_nil|].
  cbn [map cat_all fold_right]. fold (cat_all (map g l)).
  apply closed_app; [apply H; now left|]. apply IH. intros; apply H; now right.
Qed.

Lemma closed_absent (s : string) : closed x s -> Py.contains (twice x) s = false.
Proof.
  intros H. destruct (H "" good_nil) as [H1 _]. now rewrite append_empty_r in H1.
Qed.

End ClosedFacts.

Section TemplateFacts.

Variable x : ascii.
Variable markup : slot -> string.
Hypothesis markup_safe : forall k, safe_for x (markup k) = true.

Lemma Forall_flat_map_in (A : Type) (P : string -> Prop) (f : A -> list string)
    (l : list A) (a : A) :
  Forall P (flat_map f l) -> In a l -> Forall P (f a).
Proof.
  rewrite !Forall_forall. intros H Hin s Hs. apply H, in_flat_map. eauto.
Qed.

Lemma closed_bullets (bs : list string) :
  Forall (fun s => Py.contains (twice x) s = false) bs ->
  closed x (render_bullets markup bs).
Proof.
  intros H. apply closed_cat_all. intros b Hb.
  rewrite Forall_forall in H.
  apply closed_step; auto using closed_markup.
Qed.

Lemma closed_subsection (sub : subsection) :
  Forall (fun s => Py.contains (twice x) s = false) (subsection_texts sub) ->
  closed x (render_subsection markup sub).
Proof.
  unfold subsection_texts. intros H. inversion H as [|t l Ht Hl]; subst.
  unfold render_subsection.
  apply closed_step; auto.
  apply closed_markup_then; auto.
  apply closed_app; auto using closed_bullets, closed_markup.
Qed.

Lemma closed_entry (e : entry) :
  Forall (fun s => Py.contains (twice x) s = false) (entry_texts e) ->
  closed x (render_entry markup e).
Proof.
  unfold entry_texts. intros H.
  inversion H as [|? ? H1 Ha]; subst. inversion Ha as [|? ? H2 Hb]; subst.
  inversion Hb as [|? ? H3 Hc]; subst. inversion Hc as [|? ? H4 Hrest]; subst.
  apply Forall_app in Hrest as [Hsubs Hbs].
  unfold render_entry.
  do 4 (apply closed_step; auto).
  apply closed_markup_then; auto.
  apply closed_app.
  - apply closed_cat_all. intros sub Hsub. apply closed_subsection.
    now apply Forall_flat_map_in with (l := subsections e).
  - apply closed_markup_then; auto.
    apply closed_app; auto using closed_bullets, closed_markup.
Qed.

Lemma closed_line (line : string) :
  Py.contains (twice x) line = false -> closed x (render_line markup line).
Proof.
  intros H. unfold render_line.
  apply closed_step; auto using closed_markup.
Qed.

Lemma closed_section (s : section) :
  Forall (fun t => Py.contains (twice x) t = false) (section_texts s) ->
  closed x (render_section markup s).
Proof.
  destruct s as [title content|title entries|title lines|];
    cbn [section_texts render_section]; intros H.
  - inversion H as [|? ? H1 Ha]; subst. inversion Ha as [|? ? H2 _]; subst.
    do 2 (apply closed_step; auto using closed_markup).
  - inversion H as [|? ? H1 Ha]; subst.
    apply closed_step; auto.
    apply closed_markup_then; auto.
    apply closed_app; auto using closed_markup.
    apply closed_cat_all. intros e He. apply closed_entry.
    now apply Forall_flat_map_in with (l := entries).
  - inversion H as [|? ? H1 Ha]; subst.
    apply closed_step; auto.
    apply closed_markup_then; auto.
    apply closed_app; auto using closed_markup.
    apply closed_cat_all. intros line Hline. apply closed_line.
    rewrite Forall_forall in Ha. auto.
  - apply closed_nil.
Qed.

(** The text of the layout has no [xx] when its markup is safe and no
    string of the Document has one. *)
Lemma template_absent (d : document) :
  Forall (fun t => Py.contains (twice x) t = false) (document_texts d) ->
  Py.contains (twice x) (resume_template markup d) = false.
Proof.
  unfold document_texts. intros H.
  inversion H as [|? ? Hn Ha]; subst. inversion Ha as [|? ? Hc Hs]; subst.
  apply closed_absent.
  unfold resume_template, render_header. rewrite !append_assoc.
  do 2 (apply closed_step; auto).
  apply closed_markup_then; auto.
  apply closed_app; auto using closed_markup.
  apply closed_cat_all. intros s Hin. apply closed_section.
  now apply Forall_flat_map_in with (l := doc_sections d).
Qed.

End TemplateFacts.

Section RoundTripFacts.

Lemma marker_free_absent (s : string) :
  marker_free s = true ->
  negb (Py.contains (twice "[") s) = true /\ negb (Py.contains (twice "]") s) = true.
Proof. unfold marker_free. intros H. now apply andb_prop in H. Qed.

(** Text without delimiters is left as it is in both views. *)
Lemma change_markers_absent (hl : bool) (html : string) :
  marker_free html = true -> change_markers hl html = html.
Proof.
  intros H. apply marker_free_absent in H as [H1 H2].
  apply negb_true_iff in H1, H2. unfold change_markers.
  change "[[" with (twice "["). change "]]" with (twice "]").
  destruct hl; rewrite (@replace_absent _ _ _ H1); apply (@replace_absent _ _ _ H2).
Qed.

(** The layout of a Document without delimiters, in markup that cannot take
    part in one, has no delimiter. *)
Lemma template_marker_free (markup : slot -> string) (d : document) :
  (forall k, safe_markup (markup k) = true) ->
  Forall (fun s => marker_free s = true) (document_texts d) ->
  marker_free (resume_template markup d) = true.
Proof.
  intros Hm Ht.
  assert (forall x, (x = "["%char \/ x = "]"%char) ->
            Py.contains (twice x) (resume_template markup d) = false) as Habs.
  { intros x Hx. apply template_absent.
    - intros k. specialize (Hm k). unfold safe_markup in Hm.
      apply andb_prop in Hm as [H1 H2]. now destruct Hx as [-> | ->].
    - eapply Forall_impl; [|exact Ht].
      intros s H. apply marker_free_absent in H as [H1 H2].
      apply negb_true_iff in H1, H2. now destruct Hx as [-> | ->]. }
  unfold marker_free. rewrite andb_true_iff, !negb_true_iff.
  split; [apply (Habs "["%char) | apply (Habs "]"%char)]; auto.
Qed.

End RoundTripFacts.

(** The template of the examples lays Documents out with the plain markup. *)
Lemma plain_template_lays_out : lays_out plain_markup plain_template.
Proof. intros n c s d H. unfold plain_template. now rewrite H. Qed.

(** C9 (as stated) fails: in this Document the name, the contact line, the
    content, the bullets and the lines have no delimiter, but the title of a
    section has, and the two views differ. *)
Lemma render_marked_title_differs :
  as_document marked_title_doc = Some marked_title_document /\
  Forall (fun s => marker_free s = true) (listed_texts marked_title_document) /\
  render_resume_html plain_template marked_title_doc true
  <> render_resume_html plain_template marked_title_doc false.
Proof.
  split; [reflexivity|]. split; [repeat constructor|].
  vm_compute. discriminate.
Qed.

(** C9 (amended): for every mapping that holds a Document in which no string
    (the name, the contact line, the titles of the sections and of the
    subsections, the four header fields of the entries, the contents, the
    bullets and the lines) contains a delimiter [[[] or []]], and for a
    template that lays Documents out as section 4.4 says with markup pieces
    that are each not empty, free of delimiters and without a bracket at
    their start and at their end, the highlighted and the clean view are the
    same text: the laid-out Document, unchanged. *)
Theorem render_round_trip (markup : slot -> string)
    (template : json -> json -> json -> string) (data : dict) (d : document) :
  lays_out markup template ->
  as_document data = Some d ->
  (forall k, safe_markup (markup k) = true) ->
  Forall (fun s => marker_free s = true) (document_texts d) ->
  render_resume_html template data true = render_resume_html template data false /\
  render_resume_html template data false = resume_template markup d.
Proof.
  intros Hlay Hdoc Hm Ht. unfold render_resume_html, get.
  rewrite (Hlay _ _ _ _ Hdoc).
  rewrite !change_markers_absent by now apply template_marker_free.
  split; reflexivity.
Qed.

(** The theorem on a Document with single brackets and no delimiter. *)
Lemma render_round_trip_witness :
  render_resume_html plain_template unmarked_doc true
  = render_resume_html plain_template unmarked_doc false /\
  render_resume_html plain_template unmarked_doc false
  = resume_template plain_markup unmarked_document.
Proof.
  apply (@render_round_trip plain_markup plain_template unmarked_doc unmarked_document).
  - apply plain_template_lays_out.
  - reflexivity.
  - intros []; reflexivity.
  - repeat constructor.
Defined.

(** Why the markup pieces must not be empty: with nothing between the name
    and the contact line, a bracket at the end of the one and a bracket at
    the start of the other make a delimiter that neither field holds. *)
Example render_joined_fields_differ :
  as_document joined_doc = Some (Document "a[" "[b" []) /\
  Forall (fun s => marker_free s = true) (document_texts (Document "a[" "[b" [])) /\
  render_resume_html joined_template joined_doc true
  <> render_resume_html joined_template joined_doc false.
Proof.
  split; [reflexivity|]. split; [repeat constructor|].
  vm_compute. discriminate.
Qed.

Section BlockFacts.




Lemma replace_keeps_start (x y : ascii) (new s : string) :
  starts_with x s = false -> starts_with y s = false ->
  starts_with y (Py.replace (twice x) new s) = false.
Proof.
  destruct s as [|c s]; [reflexivity|]. intros Hx Hy.
  rewrite replace_miss; [assumption | apply twice_not_empty |].
  rewrite prefix_twice. simpl in Hx. now rewrite Hx.
Qed.








End BlockFacts.



(** The blocks of [three_kinds_doc] in the highlighted view, in the order
    of its sections. *)
Example render_three_kinds :
  render_resume_html plain_template three_kinds_doc true
  = "<html><body><h1>Ann Lee</h1><p class='contact'>Pune</p>"
    ++ ("<section><h2>Skills</h2><p>Rocq | " ++ span_open ++ "Python" ++ span_close
        ++ "</p></section>")
    ++ ("<section><h2>Work</h2><div class='entry'><span>Acme</span><span>Pune</span>"
        ++ "<span></span><span></span><ul><li>Built " ++ span_open ++ "parsers"
        ++ span_close ++ "</li></ul></div></section>")
    ++ "<section><h2>Profile</h2><p>Engineer</p></section>"
    ++ "</body></html>".
Proof. vm_compute. reflexivity. Qed.

(* ===================================================================== *)
(** ** Scraping: [scrape_job_url] *)
(* ===================================================================== *)

Section ScraperFacts.

Variable W : World.

Lemma join_length_le (sep : string) (l : list string) :
  String.length (Py.join "" l) <= String.length (Py.join sep l).
Proof.
  unfold Py.join. induction l as [|a l IH]; [reflexivity|].
  destruct l as [|b l]; [reflexivity|].
  change (String.concat "" (a :: b :: l)) with (a ++ "" ++ String.concat "" (b :: l)).
  change (String.concat sep (a :: b :: l)) with (a ++ sep ++ String.concat sep (b :: l)).
  rewrite !length_append. simpl String.length at 2. lia.
Qed.

(** The guest API path gives only texts longer than 100 characters. *)
Lemma linkedin_api_threshold (job_id t : string) :
  _scrape_linkedin_guest_api W job_id = Some t -> 100 < String.length t.
Proof.
  unfold _scrape_linkedin_guest_api.
  destruct (requests_get W _) as [resp|]; cbn [bind]; [|discriminate].
  destruct (ok resp && _); [|discriminate].
  destruct (BeautifulSoup W _) as [page|]; cbn [bind]; [|discriminate].
  match goal with
  | |- context [100 <? ?n] => destruct (Nat.ltb_spec 100 n) as [Hlt|_]
  end; [|discriminate].
  intros E. now injection E as <-.
Qed.

(** The selector path gives only texts longer than 200 characters. *)
Lemma scan_selectors_threshold (page : soup) (sels : list string) (t : string) :
  scan_selectors page sels = Some t -> 200 < String.length t.
Proof.
  induction sels as [|sel sels IH]; cbn [scan_selectors]; [discriminate|].
  destruct (select_one page sel) as [el|]; [|assumption].
  destruct (Nat.ltb_spec 200 (String.length (get_text "" true el))) as [Hlt|_];
    [|assumption].
  intros E. injection E as <-.
  pose proof (join_length_le nl
    (filter (fun s => negb (s =? "")%string) (map Py.strip el))) as Hle.
  unfold get_text in *. lia.
Qed.

(** The body path gives only texts longer than 200 characters. *)
Lemma body_text_threshold (page : soup) (t : string) :
  body_text page = Some t -> 200 < String.length t.
Proof.
  unfold body_text. destruct (find_body page) as [body|]; [|discriminate].
  destruct (Nat.ltb_spec 200 (String.length (get_text nl true body)))
    as [Hlt|_]; [|discriminate].
  intros E. now injection E as <-.
Qed.

(** The JSON-LD path gives the strip of a text longer than 100 characters. *)
Lemma scan_ld_json_result (scripts : list (option string)) (t : string) :
  scan_ld_json W scripts = Returns (Some t) ->
  exists clean, 100 < String.length clean /\ t = Py.strip clean.
Proof.
  induction scripts as [|script rest IH]; cbn [scan_ld_json]; [discriminate|].
  destruct (json_loads W _) as [data|]; [|assumption].
  assert (forall d,
            (if equals_str (lookup "@type" d) "JobPosting"
             then
               match BeautifulSoup W
                       ("Job Title: " ++ py_str W (get d "title" (JStr "")) ++ nl
                        ++ "Company: "
                        ++ py_str W match get d "hiringOrganization" (JObj []) with
                                    | JObj o => get o "name" (JStr "")
                                    | _ => JStr ""
                                    end
                        ++ nl ++ nl ++ py_str W (get d "description" (JStr "")))
               with
               | Returns page =>
                   if 100 <? String.length (get_text nl false (root page))
                   then Returns (Some (Py.strip (get_text nl false (root page))))
                   else scan_ld_json W rest
               | Raises AttributeError => scan_ld_json W rest
               | Raises e => Raises e
               end
             else scan_ld_json W rest) = Returns (Some t) ->
            exists clean, 100 < String.length clean /\ t = Py.strip clean) as Hobj.
  { intros d. destruct (equals_str _ _); [|assumption].
    destruct (BeautifulSoup W _) as [page|[]]; try assumption; try discriminate.
    destruct (Nat.ltb_spec 100 (String.length (get_text nl false (root page))))
      as [Hlt|_]; [|assumption].
    intros E. injection E as <-. eauto. }
  destruct data as [| | | |[|first l]|d]; cbn [bind]; try assumption;
    try discriminate.
  - destruct first as [| | | | |d]; try assumption. apply Hobj.
  - apply Hobj.
Qed.

End ScraperFacts.

Section ChainFacts.

Variable W : World.

Lemma scrape_page_result (url t : string) :
  scrape_page W url = Returns (Some t) ->
  100 < String.length t \/
  exists clean, 100 < String.length clean /\ t = Py.strip clean.
Proof.
  unfold scrape_page.
  destruct (requests_get W url) as [resp|]; cbn [bind]; [|discriminate].
  destruct (ok resp); cbn [bind]; [|discriminate].
  destruct (BeautifulSoup W _) as [page|]; cbn [bind]; [|discriminate].
  destruct (scan_ld_json W _) as [[found|]|] eqn:E; cbn [bind]; [| |discriminate].
  - intros H. injection H as <-. right. now apply (scan_ld_json_result W _ E).
  - destruct (scan_selectors page selectors) as [found|] eqn:Es.
    + intros H. injection H as <-. left.
      apply scan_selectors_threshold in Es. lia.
    + intros H. injection H as H. apply body_text_threshold in H. left. lia.
Qed.

Lemma scrape_cache_result (url t : string) :
  scrape_cache W url = Returns (Some t) -> 100 < String.length t.
Proof.
  unfold scrape_cache.
  destruct (requests_get W _) as [resp|]; cbn [bind]; [|discriminate].
  destruct (ok resp); [|discriminate].
  destruct (BeautifulSoup W _) as [page|]; cbn [bind]; [|discriminate].
  intros H. injection H as H. apply body_text_threshold in H. lia.
Qed.

(** Every text the chain returns is longer than 100 characters, or is the
    strip of such a text, which the JSON-LD path returns. *)
Lemma scrape_job_url_result (url t : string) :
  scrape_job_url W url = Returns (Some t) ->
  100 < String.length t \/
  exists clean, 100 < String.length clean /\ t = Py.strip clean.
Proof.
  unfold scrape_job_url.
  destruct (_ || _); [discriminate|].
  destruct (urlparse_netloc W url) as [netloc|]; cbn [bind]; [|discriminate].
  match goal with
  | |- context [match ?l with Some _ => _ | None => _ end = _] =>
      destruct l as [result|] eqn:El
  end.
  - intros H. injection H as <-. left.
    destruct (Py.contains _ _); [|discriminate].
    destruct (_extract_linkedin_job_id url) as [job_id|]; [|discriminate].
    destruct (job_id =? "")%string; [discriminate|].
    destruct (_scrape_linkedin_guest_api W job_id) as [r|] eqn:Er; [|discriminate].
    destruct (r =? "")%string; [discriminate|].
    injection El as <-. now apply linkedin_api_threshold in Er.
  - unfold try_except_pass.
    destruct (scrape_page W url) as [[r|]|] eqn:Ep.
    + intros H. injection H as <-. now apply scrape_page_result in Ep.
    + destruct (scrape_cache W url) as [[r|]|] eqn:Ec; try discriminate.
      intros H. injection H as <-. left. now apply scrape_cache_result in Ec.
    + destruct (scrape_cache W url) as [[r|]|] eqn:Ec; try discriminate.
      intros H. injection H as <-. left. now apply scrape_cache_result in Ec.
Qed.

Lemma try_except_pass_returns (A : Type) (body rest : outcome (option A)) :
  (exists r, rest = Returns r) -> exists r, try_except_pass body rest = Returns r.
Proof. intros [r ->]. destruct body as [[v|]|]; simpl; eauto. Qed.

(** Once [urlparse] has returned, the chain returns: a failure of the network
    or of a parser moves on to the next strategy, and to [None] after the
    last one. *)
Lemma scrape_job_url_returns (url netloc : string) :
  urlparse_netloc W url = Returns netloc ->
  exists r, scrape_job_url W url = Returns r.
Proof.
  intros Hn. unfold scrape_job_url.
  destruct (_ || _); [eauto|]. rewrite Hn. cbn [bind].
  match goal with
  | |- context [match ?l with Some _ => _ | None => _ end] => destruct l
  end; [eauto|].
  apply try_except_pass_returns, try_except_pass_returns. eauto.
Qed.

(** An exception of [urlparse] leaves [scrape_job_url]. *)
Lemma scrape_job_url_propagates (url : string) (e : exn) :
  url <> "" -> Py.startswith "http" url = true ->
  urlparse_netloc W url = Raises e ->
  scrape_job_url W url = Raises e.
Proof.
  intros Hne Hs Hn. unfold scrape_job_url. rewrite Hs, Hn.
  destruct (String.eqb_spec url ""); [contradiction|reflexivity].
Qed.

End ChainFacts.

(** C5: the page at [padded_url] carries a JSON-LD posting with the title
    [QA] and a description of 100 spaces.  The composed text has 125
    characters and passes the test on its length; the function returns its
    strip, a text of 22 characters. *)
Theorem scrape_job_url_short_text :
  scrape_job_url padded_world padded_url
  = Returns (Some ("Job Title: QA" ++ nl ++ "Company:")) /\
  String.length ("Job Title: QA" ++ nl ++ "Company:") = 22.
Proof. split; reflexivity. Qed.

(** C6: on the text [http://[] the call of [urlparse], which stands outside
    every [try] block, raises [ValueError], and so does [scrape_job_url],
    whatever the network and the parsers do. *)
Theorem scrape_job_url_raises (W : World) :
  urlparse_netloc W "http://[" = Url.netloc "http://[" ->
  scrape_job_url W "http://[" = Raises ValueError.
Proof.
  intros H. apply scrape_job_url_propagates; [discriminate|reflexivity|].
  rewrite H. reflexivity.
Qed.

(** The theorem in a world without a network. *)
Lemma scrape_job_url_raises_witness :
  scrape_job_url offline_world "http://[" = Raises ValueError.
Proof. apply (@scrape_job_url_raises offline_world). reflexivity. Defined.

(* ===================================================================== *)
(** ** Further properties: what the marker passes never leave *)
(* ===================================================================== *)

Section RemovalFacts.

Variable x : ascii.
Variable new : string.

(** The replacement text has no [x]. *)
Hypothesis new_without_x : Py.contains (String x "") new = false.

Lemma no_char_no_twice (s : string) :
  Py.contains (String x "") s = false -> Py.contains (twice x) s = false.
Proof.
  induction s as [|c s IH]; intros H; [reflexivity|].
  rewrite contains_cons in *. apply orb_false_elim in H as [H1 H2].
  rewrite IH, orb_false_r by assumption.
  rewrite prefix_twice. rewrite prefix_cons in H1.
  destruct (Ascii.eqb_spec c x) as [->|]; [|reflexivity].
  destruct (ascii_dec x x); [|contradiction].
  rewrite prefix_empty in H1. discriminate.
Qed.

Lemma no_char_no_end (s : string) :
  Py.contains (String x "") s = false -> ends_with x s = false.
Proof.
  induction s as [|c s IH]; intros H; [reflexivity|].
  rewrite contains_cons in H. apply orb_false_elim in H as [H1 H2].
  rewrite prefix_cons in H1. destruct s as [|c' s].
  - simpl. destruct (Ascii.eqb_spec c x) as [->|]; [|reflexivity].
    destruct (ascii_dec x x); [discriminate|contradiction].
  - change (ends_with x (String c (String c' s))) with (ends_with x (String c' s)).
    auto.
Qed.

Lemma no_char_no_start (s : string) :
  Py.contains (String x "") s = false -> starts_with x s = false.
Proof.
  destruct s as [|c s]; [reflexivity|]. intros H.
  rewrite contains_cons in H. apply orb_false_elim in H as [H1 _].
  rewrite prefix_cons in H1. simpl.
  destruct (Ascii.eqb_spec c x) as [->|]; [|reflexivity].
  destruct (ascii_dec x x); [|contradiction].
  rewrite prefix_empty in H1. discriminate.
Qed.

(** After the replacement no [xx] is left. *)
Lemma replace_removes_all (s : string) :
  Py.contains (twice x) (Py.replace (twice x) new s) = false.
Proof.
  assert (forall n s, String.length s <= n ->
            Py.contains (twice x) (Py.replace (twice x) new s) = false) as Hn.
  { induction n as [|n IH]; intros [|c t] Hl; simpl in Hl; try lia;
      try reflexivity.
    destruct (prefix (twice x) (String c t)) eqn:E.
    - rewrite prefix_twice in E. apply andb_prop in E as [Ec Et].
      apply Ascii.eqb_eq in Ec as ->.
      destruct t as [|c' t]; [discriminate|]. simpl in Et.
      apply Ascii.eqb_eq in Et as ->. rewrite replace_hit.
      apply absent_app.
      + now apply no_char_no_twice.
      + apply IH. simpl in Hl. lia.
      + left. now apply no_char_no_end.
    - rewrite replace_miss by (auto using twice_not_empty).
      rewrite contains_cons, IH, orb_false_r by lia.
      rewrite prefix_twice in *.
      destruct (Ascii.eqb c x); [|reflexivity]. simpl in *.
      now apply replace_keeps_start. }
  apply (Hn (String.length s)). lia.
Qed.

(** The replacement of [xx] by a text that is not empty and has no [y]
    makes no [yy]. *)
Lemma replace_keeps_absent (y : ascii) (s : string) :
  new <> "" -> Py.contains (String y "") new = false ->
  Py.contains (twice y) s = false ->
  Py.contains (twice y) (Py.replace (twice x) new s) = false.
Proof.
  intros Hne Hy.
  assert (forall t, starts_with y t = false ->
            starts_with y (Py.replace (twice x) new t) = false) as Hstart.
  { intros [|c t] Hc; [reflexivity|].
    destruct (prefix (twice x) (String c t)) eqn:E.
    - rewrite prefix_twice in E. apply andb_prop in E as [Ec Et].
      apply Ascii.eqb_eq in Ec as ->.
      destruct t as [|c' t]; [discriminate|]. simpl in Et.
      apply Ascii.eqb_eq in Et as ->. rewrite replace_hit.
      destruct new as [|a rest]; [contradiction|].
      rewrite contains_cons in Hy. apply orb_false_elim in Hy as [Ha _].
      rewrite prefix_cons in Ha. simpl.
      destruct (Ascii.eqb_spec a y) as [->|]; [|reflexivity].
      destruct (ascii_dec y y); [|contradiction].
      rewrite prefix_empty in Ha. discriminate.
    - rewrite replace_miss by (auto using twice_not_empty). exact Hc. }
  assert (forall n s, String.length s <= n ->
            Py.contains (twice y) s = false ->
            Py.contains (twice y) (Py.replace (twice x) new s) = false) as Hn.
  { induction n as [|n IH]; intros [|c t] Hl Hs; simpl in Hl; try lia;
      try reflexivity.
    rewrite contains_cons, prefix_twice in Hs.
    apply orb_false_elim in Hs as [Hc Ht].
    destruct (prefix (twice x) (String c t)) eqn:E.
    - rewrite prefix_twice in E. apply andb_prop in E as [Ec Et].
      apply Ascii.eqb_eq in Ec as ->.
      destruct t as [|c' t]; [discriminate|]. simpl in Et.
      apply Ascii.eqb_eq in Et as ->. rewrite replace_hit.
      rewrite contains_cons in Ht. apply orb_false_elim in Ht as [_ Ht].
      apply absent_app.
      + clear - Hy. induction new as [|a rest IHr]; [reflexivity|].
        rewrite contains_cons in *. apply orb_false_elim in Hy as [H1 H2].
        rewrite IHr, orb_false_r by assumption.
        rewrite prefix_twice. rewrite prefix_cons in H1.
        destruct (Ascii.eqb_spec a y) as [->|]; [|reflexivity].
        destruct (ascii_dec y y); [|contradiction].
        rewrite prefix_empty in H1. discriminate.
      + apply IH; [simpl in Hl; lia|assumption].
      + left. clear - Hy. induction new as [|a rest IHr]; [reflexivity|].
        rewrite contains_cons in Hy. apply orb_false_elim in Hy as [H1 H2].
        rewrite prefix_cons in H1. destruct rest as [|a' rest].
        * simpl. destruct (Ascii.eqb_spec a y) as [->|]; [|reflexivity].
          destruct (ascii_dec y y); [discriminate|contradiction].
        * change (ends_with y (String a (String a' rest)))
            with (ends_with y (String a' rest)). auto.
    - rewrite replace_miss by (auto using twice_not_empty).
      rewrite contains_cons, IH, orb_false_r by (auto; lia).
      rewrite prefix_twice.
      destruct (Ascii.eqb c y); [|reflexivity]. simpl in *. auto. }
  intros Hs. apply (Hn (String.length s)); [lia|assumption].
Qed.

End RemovalFacts.

(** X1: in the highlighted view no delimiter is left, whatever the template
    gives and whatever the Document holds: the output has no [[[] and no
    []]]. *)
Theorem render_highlight_no_delimiter
    (template : json -> json -> json -> string) (data : dict) :
  Py.contains "[[" (render_resume_html template data true) = false /\
  Py.contains "]]" (render_resume_html template data true) = false.
Proof.
  unfold render_resume_html, change_markers.
  change "[[" with (twice "["). change "]]" with (twice "]"). split.
  - apply replace_keeps_absent; try reflexivity; try discriminate.
    now apply replace_removes_all.
  - now apply replace_removes_all.
Qed.

(** X2: in the clean view no closing delimiter []]] is left, whatever the
    template gives and whatever the Document holds. *)
Theorem render_clean_no_closing_delimiter
    (template : json -> json -> json -> string) (data : dict) :
  Py.contains "]]" (render_resume_html template data false) = false.
Proof.
  unfold render_resume_html, change_markers.
  change "]]" with (twice "]"). now apply replace_removes_all.
Qed.

(* ===================================================================== *)
(** ** Further properties of [parse_json_response] *)
(* ===================================================================== *)

Section CandidateFacts.

Lemma all_in_app (p : ascii -> bool) (a b : string) :
  all_in p (a ++ b) = all_in p a && all_in p b.
Proof. induction a as [|c a IH]; simpl; [reflexivity|]. now rewrite IH, andb_assoc. Qed.

Lemma all_in_take (p : ascii -> bool) (n : nat) (s : string) :
  all_in p s = true -> all_in p (Py.take n s) = true.
Proof.
  revert s; induction n as [|n IH]; intros [|c s] H; simpl in *; auto.
  apply andb_prop in H as [Hc Hs]. rewrite Hc. simpl. auto.
Qed.

Lemma all_in_lstrip (p : ascii -> bool) (s : string) :
  all_in p s = true -> all_in p (Py.lstrip s) = true.
Proof.
  induction s as [|c s IH]; intros H; [reflexivity|].
  cbn [Py.lstrip]. destruct (Py.isspace c); [|assumption].
  simpl in H. apply andb_prop in H as [_ H]. auto.
Qed.

Lemma all_in_rstrip (p : ascii -> bool) (s : string) :
  all_in p s = true -> all_in p (Py.rstrip s) = true.
Proof.
  induction s as [|c s IH]; intros H; [reflexivity|].
  simpl in H. apply andb_prop in H as [Hc Hs]. specialize (IH Hs).
  cbn [Py.rstrip]. destruct (Py.rstrip s) as [|c' r].
  - destruct (Py.isspace c); simpl; [reflexivity|now rewrite Hc].
  - cbn [all_in]. now rewrite Hc.
Qed.

Lemma all_in_strip (p : ascii -> bool) (s : string) :
  all_in p s = true -> all_in p (Py.strip s) = true.
Proof. intros H. now apply all_in_rstrip, all_in_lstrip. Qed.

(** A text made of characters other than [c] holds no text that starts
    with [c]. *)
Lemma other_than_absent (c : ascii) (l s : string) :
  all_in (other_than c) s = true -> Py.contains (String c l) s = false.
Proof.
  induction s as [|a s IH]; intros H; [reflexivity|].
  simpl in H. apply andb_prop in H as [Ha Hs].
  rewrite contains_cons, IH, orb_false_r by assumption.
  rewrite prefix_cons. destruct (ascii_dec c a) as [->|]; [|reflexivity].
  unfold other_than in Ha. now rewrite Ascii.eqb_refl in Ha.
Qed.

(** Group 1 of a match is made of characters of the text. *)
Lemma matches_group_all_in (p : ascii -> bool) (r : regex) :
  forall cap s c rest,
    In (c, rest) (matches r cap s) ->
    all_in p s = true ->
    (forall g, cap = Some g -> all_in p g = true) ->
    all_in p rest = true /\ (forall g, c = Some g -> all_in p g = true).
Proof.
  induction r as [|l|q|gr lo q|r1 IH1 r2 IH2|r1 IH1 r2 IH2|r1 IH1|r1 IH1|];
    intros cap s c rest H Hs Hcap.
  - destruct H as [H|[]]. injection H as <- <-. auto.
  - apply matches_lit_in in H as [-> ->].
    rewrite all_in_app in Hs. apply andb_prop in Hs as [_ Hs]. auto.
  - simpl in H. destruct s as [|a s]; [contradiction|].
    destruct (q a); [|contradiction]. destruct H as [H|[]].
    injection H as <- <-. simpl in Hs. apply andb_prop in Hs as [_ Hs]. auto.
  - simpl in H. apply in_map_iff in H as (k & H & _). injection H as <- <-.
    split; [now apply all_in_drop|assumption].
  - apply seq_in in H as (c1 & s1 & H1 & H2).
    destruct (IH1 _ _ _ _ H1 Hs Hcap) as [Hs1 Hc1]. eauto.
  - simpl in H. apply in_app_or in H as [H|H]; eauto.
  - simpl in H. apply in_app_or in H as [H|[H|[]]]; eauto.
    injection H as <- <-. auto.
  - simpl in H. apply in_map_iff in H as ([c1 s1] & H & H1). simpl in H.
    injection H as <- <-.
    destruct (IH1 _ _ _ _ H1 Hs Hcap) as [Hs1 _]. split; [assumption|].
    intros g Hg. injection Hg as <-.
    destruct (@matches_suffix _ _ _ _ _ H1) as (u & ->).
    rewrite consumed_app. rewrite all_in_app in Hs.
    now apply andb_prop in Hs as [Hu _].
  - simpl in H. destruct (_ || _); [|contradiction].
    destruct H as [H|[]]. injection H as <- <-. auto.
Qed.

(** The candidate is made of characters of the text. *)
Lemma candidate_all_in (p : ascii -> bool) (text c : string) :
  all_in p text = true -> candidate text = Returns c -> all_in p c = true.
Proof.
  intros Hp. unfold candidate.
  pose proof (@all_in_strip p text Hp) as Hs.
  destruct (search re_fence (Py.strip text)) as [m|] eqn:E.
  - apply search_from_inv in E as (pre & tail & rest & t & Ht & H & _).
    rewrite Ht, all_in_app in Hs. apply andb_prop in Hs as [_ Htail].
    destruct (group1 m) as [g|] eqn:Eg; [|discriminate].
    intros Hc. injection Hc as <-. apply all_in_strip.
    assert (In (Some g, rest) (matches re_fence None tail)) as Hin
      by (rewrite H; now left).
    destruct (@matches_group_all_in p _ _ _ _ _ Hin Htail) as [_ Hg];
      [discriminate|]. now apply Hg.
  - intros Hc. now injection Hc as <-.
Qed.

End CandidateFacts.

(** X3: [parse_json_response] returns on every text, and what it returns is
    the empty mapping, or the value [json.loads] gives for the candidate, or
    the value it gives for the brace region of the candidate: it never
    raises [AttributeError] on the match of the fence pattern and never
    returns a value of its own making. *)
Theorem parse_json_response_value (json_loads : string -> option json) (text : string) :
  exists c v,
    candidate text = Returns c /\
    parse_json_response json_loads text = Returns v /\
    (v = JObj [] \/ json_loads c = Some v \/
     exists m, search re_object c = Some m /\ json_loads (group0 m) = Some v).
Proof.
  unfold parse_json_response.
  destruct (candidate_returns text) as (c & ->). cbn [bind]. exists c.
  destruct (json_loads c) as [v|] eqn:Ec; [eauto 6|].
  destruct (search re_object c) as [m|] eqn:Em; [|eauto 6].
  destruct (json_loads (group0 m)) as [v|] eqn:Eg; eauto 8.
Qed.

(** X4: on a text without an opening brace the search of a brace region
    cannot succeed: the result is the strict parse of the candidate when
    [json.loads] accepts it, and the empty mapping otherwise. *)
Theorem parse_json_response_no_brace (json_loads : string -> option json) (text : string) :
  all_in (other_than "{") text = true ->
  exists c,
    candidate text = Returns c /\
    parse_json_response json_loads text
    = Returns match json_loads c with
              | Some v => v
              | None => JObj []
              end.
Proof.
  intros Hp. destruct (candidate_returns text) as (c & Hc). exists c.
  split; [assumption|]. unfold parse_json_response. rewrite Hc. cbn [bind].
  destruct (json_loads c); [reflexivity|].
  pose proof (@candidate_all_in _ _ _ Hp Hc) as Hb.
  unfold search, re_object.
  now rewrite (@search_lit_none "{" "" _ c (@other_than_absent "{" "" c Hb) 0).
Qed.

(** The theorem on a reply without JSON. *)
Lemma parse_json_response_no_brace_witness :
  exists c,
    candidate "Sorry, I cannot help with that." = Returns c /\
    parse_json_response Json.loads "Sorry, I cannot help with that."
    = Returns match Json.loads c with
              | Some v => v
              | None => JObj []
              end.
Proof.
  apply (@parse_json_response_no_brace Json.loads "Sorry, I cannot help with that.").
  reflexivity.
Defined.

Section CommentaryFacts.

Lemma lstrip_app_nonspace (a b : string) (c : ascii) :
  space c = false -> Py.lstrip (a ++ String c b) = Py.lstrip a ++ String c b.
Proof.
  unfold space. intros Hc. induction a as [|x a IH]; simpl.
  - now rewrite Hc.
  - destruct (Py.isspace x); [assumption|reflexivity].
Qed.

Lemma rstrip_cons_nonspace (b : string) (c : ascii) :
  space c = false -> Py.rstrip (String c b) = String c (Py.rstrip b).
Proof.
  unfold space. intros Hc. cbn [Py.rstrip].
  destruct (Py.rstrip b); [now rewrite Hc|reflexivity].
Qed.

Lemma rstrip_app_nonspace (a b : string) (c : ascii) :
  space c = false -> Py.rstrip (a ++ String c b) = a ++ String c (Py.rstrip b).
Proof.
  intros Hc. induction a as [|x a IH]; simpl append.
  - now apply rstrip_cons_nonspace.
  - cbn [Py.rstrip]. rewrite IH. now destruct a.
Qed.

(** A search passes over a stretch of text that lacks the first character
    of the pattern's first literal. *)
Lemma search_skip_prefix (c : ascii) (l : string) (r : regex) (pre s : string) :
  all_in (other_than c) pre = true ->
  forall pos,
    search_from (Seq (Lit (String c l)) r) pos (pre ++ s)
    = search_from (Seq (Lit (String c l)) r) (pos + String.length pre) s.
Proof.
  induction pre as [|a pre IH]; intros H pos.
  - simpl. now rewrite Nat.add_0_r.
  - simpl in H. apply andb_prop in H as [Ha Hp].
    simpl append. rewrite search_lit_skip.
    + rewrite IH by assumption. simpl. f_equal. lia.
    + rewrite prefix_cons. destruct (ascii_dec c a) as [->|]; [|reflexivity].
      unfold other_than in Ha. now rewrite Ascii.eqb_refl in Ha.
Qed.

Lemma search_from_head (r : regex) (s : string) (pos : nat) cap rest t :
  matches r None s = (cap, rest) :: t ->
  search_from r pos s = Some (MatchObj pos (consumed s rest) cap).
Proof. intros H. destruct s; simpl; now rewrite H. Qed.

End CommentaryFacts.

(** X5: words around the fenced block do not matter.  For every text that
    [json.loads] accepts, that starts with an opening and ends with a
    closing brace and has no three backquotes in a row, put in a fenced
    block (with or without the [json] tag) after any text without a
    backquote and before any text at all, the function returns its strict
    parse. *)
Theorem parse_json_response_commentary
    (json_loads : string -> option json) (pre post inner w3 w4 tag : string) (v : json) :
  json_loads (String "{" (inner ++ "}")) = Some v ->
  Py.contains fence (String "{" (inner ++ "}")) = false ->
  all_in (other_than "`") pre = true ->
  all_in space w3 = true -> all_in space w4 = true ->
  tag = "" \/ tag = "json" ->
  parse_json_response json_loads
    (pre ++ fence ++ tag ++ w3 ++ String "{" (inner ++ "}") ++ w4 ++ fence ++ post)
  = Returns v.
Proof.
  intros Hv Hc Hpre H3 H4 Htag.
  set (obj := String "{" (inner ++ "}")) in *.
  set (F := fun p => fence ++ tag ++ w3 ++ (obj ++ w4) ++ fence ++ p).
  assert (Py.strip (pre ++ fence ++ tag ++ w3 ++ obj ++ w4 ++ fence ++ post)
          = Py.lstrip pre ++ F (Py.rstrip post)) as Hs.
  { unfold Py.strip.
    change (fence ++ tag ++ w3 ++ obj ++ w4 ++ fence ++ post)
      with (String "`" ("``" ++ tag ++ w3 ++ obj ++ w4 ++ fence ++ post)).
    rewrite lstrip_app_nonspace by reflexivity.
    change (String "`" ("``" ++ tag ++ w3 ++ obj ++ w4 ++ fence ++ post))
      with (fence ++ tag ++ w3 ++ obj ++ w4 ++ "``" ++ String "`" post).
    rewrite <- !append_assoc.
    rewrite rstrip_app_nonspace by reflexivity.
    unfold F. rewrite !append_assoc. reflexivity. }
  destruct (@fence_match tag w3 inner w4 (Py.rstrip post) Htag H3 H4 Hc) as [t E].
  fold obj in E. fold (F (Py.rstrip post)) in E.
  unfold parse_json_response, candidate. rewrite Hs.
  unfold search, re_fence, fence at 1.
  rewrite search_skip_prefix by now apply all_in_lstrip.
  fold fence. fold re_fence.
  rewrite (search_from_head _ _ _ E). cbn [group1].
  assert (Py.strip (obj ++ w4) = obj) as Hs'
    by (apply (@strip_wrapped "" w4 inner "{" "}"); auto).
  rewrite Hs'. cbn [bind]. now rewrite Hv.
Qed.

(** The theorem on a reply with words before and after the block. *)
Lemma parse_json_response_commentary_witness :
  parse_json_response Json.loads
    ("Here is the JSON:" ++ nl ++ fence ++ "json" ++ nl
     ++ String "{" (quoted "'role': 'QA'" ++ "}") ++ nl ++ fence
     ++ nl ++ "Let me know if `more` is needed.")
  = Returns (JObj [("role", JStr "QA")]).
Proof.
  apply (@parse_json_response_commentary Json.loads ("Here is the JSON:" ++ nl)
           (nl ++ "Let me know if `more` is needed.") (quoted "'role': 'QA'")
           nl nl "json");
    (reflexivity || (right; reflexivity)).
Defined.

(* ===================================================================== *)
(** ** Further properties of [_extract_linkedin_job_id] *)
(* ===================================================================== *)

(** X6: a URL without a digit has no job identifier. *)
Theorem extract_id_needs_digit (url : string) :
  all_in (fun c => negb (digit c)) url = true ->
  _extract_linkedin_job_id url = None.
Proof.
  intros Hno.
  assert (forall k m id, search (pattern_regex k) url = Some m ->
            group1 m = Some id -> False) as Habs.
  { intros k m id Hs Hg.
    destruct (@digit_run_of_search k url m id Hs Hg)
      as (Hlen & pre & c & post & -> & _ & Hd & _).
    assert (1 <= String.length id) as Hl by (destruct k; simpl in Hlen; lia).
    destruct id as [|d id]; [simpl in Hl; lia|].
    change (String c (String d id) ++ post) with (String c (String d (id ++ post))) in Hno.
    rewrite all_in_app in Hno. apply andb_prop in Hno as [_ Hno].
    simpl in Hno, Hd. apply andb_prop in Hd as [Hd _].
    rewrite Hd in Hno. simpl in Hno. now rewrite andb_false_r in Hno. }
  unfold _extract_linkedin_job_id.
  destruct (search re_path url) as [m|] eqn:E1.
  { destruct (group1 m) as [id|] eqn:Eg; [|reflexivity].
    destruct (Habs PathSegment m id E1 Eg). }
  destruct (search re_query url) as [m|] eqn:E2.
  { destruct (group1 m) as [id|] eqn:Eg; [|reflexivity].
    destruct (Habs QueryParam m id E2 Eg). }
  destruct (search re_trailing url) as [m|] eqn:E3; [|reflexivity].
  destruct (group1 m) as [id|] eqn:Eg; [|reflexivity].
  destruct (Habs TrailingSegment m id E3 Eg).
Qed.

(** The theorem on a company page. *)
Lemma extract_id_needs_digit_witness :
  _extract_linkedin_job_id "https://www.linkedin.com/company/acme/jobs/" = None.
Proof.
  apply (@extract_id_needs_digit "https://www.linkedin.com/company/acme/jobs/").
  reflexivity.
Defined.

(* ===================================================================== *)
(** ** Further properties of the scraping chain *)
(* ===================================================================== *)

(** An identifier is never the empty text. *)
Lemma extract_id_not_empty (url id : string) :
  _extract_linkedin_job_id url = Some id -> id <> "".
Proof.
  assert (forall k m, search (pattern_regex k) url = Some m ->
            group1 m = Some id -> id <> "") as Hk.
  { intros k m Hs Hg.
    destruct (@digit_run_of_search k url m id Hs Hg) as (Hlen & _).
    intros ->. destruct k; simpl in Hlen; lia. }
  unfold _extract_linkedin_job_id.
  destruct (search re_path url) as [m|] eqn:E1; [exact (Hk PathSegment m E1)|].
  destruct (search re_query url) as [m|] eqn:E2; [exact (Hk QueryParam m E2)|].
  destruct (search re_trailing url) as [m|] eqn:E3;
    [exact (Hk TrailingSegment m E3)|discriminate].
Qed.

Section LdJsonFacts.

Variable W : World.

(** A text of the JSON-LD path is the strip of the text of a block that the
    parser made of a labelled text, and that text is longer than 100
    characters. *)
Lemma scan_ld_json_source (scripts : list (option string)) (t : string) :
  scan_ld_json W scripts = Returns (Some t) ->
  exists labelled block,
    prefix "Job Title: " labelled = true /\
    BeautifulSoup W labelled = Returns block /\
    100 < String.length (get_text nl false (root block)) /\
    t = Py.strip (get_text nl false (root block)).
Proof.
  induction scripts as [|script rest IH]; cbn [scan_ld_json]; [discriminate|].
  destruct (json_loads W _) as [data|]; [|assumption].
  assert (forall d,
            (if equals_str (lookup "@type" d) "JobPosting"
             then
               match BeautifulSoup W
                       ("Job Title: " ++ py_str W (get d "title" (JStr "")) ++ nl
                        ++ "Company: "
                        ++ py_str W match get d "hiringOrganization" (JObj []) with
                                    | JObj o => get o "name" (JStr "")
                                    | _ => JStr ""
                                    end
                        ++ nl ++ nl ++ py_str W (get d "description" (JStr "")))
               with
               | Returns page =>
                   if 100 <? String.length (get_text nl false (root page))
                   then Returns (Some (Py.strip (get_text nl false (root page))))
                   else scan_ld_json W rest
               | Raises AttributeError => scan_ld_json W rest
               | Raises e => Raises e
               end
             else scan_ld_json W rest) = Returns (Some t) ->
            exists labelled block,
              prefix "Job Title: " labelled = true /\
              BeautifulSoup W labelled = Returns block /\
              100 < String.length (get_text nl false (root block)) /\
              t = Py.strip (get_text nl false (root block))) as Hobj.
  { intros d. destruct (equals_str _ _); [|assumption].
    destruct (BeautifulSoup W _) as [page|[]] eqn:Eb; try assumption;
      try discriminate.
    destruct (Nat.ltb_spec 100 (String.length (get_text nl false (root page))))
      as [Hlt|_]; [|assumption].
    intros E. injection E as <-.
    eexists _, page. split; [|split; [exact Eb|split; [exact Hlt|reflexivity]]].
    apply prefix_app. }
  destruct data as [| | | |[|first l]|d]; cbn [bind]; try assumption;
    try discriminate.
  - destruct first as [| | | | |d]; try assumption. apply Hobj.
  - apply Hobj.
Qed.

End LdJsonFacts.

(** X7: every text [scrape_job_url] returns is longer than 100 characters,
    with one exception, the JSON-LD path: there the page of the URL was
    fetched and parsed, the scan of its JSON-LD blocks gave the text, and
    the text is the strip of the text of a block parsed from a labelled text
    ([Job Title: ...]); it is that text before the strip which is longer
    than 100 characters. *)
Theorem scrape_job_url_text_length (W : World) (url t : string) :
  scrape_job_url W url = Returns (Some t) ->
  100 < String.length t \/
  exists resp page labelled block,
    requests_get W url = Returns resp /\ ok resp = true /\
    BeautifulSoup W (text resp) = Returns page /\
    scan_ld_json W (ld_json_scripts page) = Returns (Some t) /\
    prefix "Job Title: " labelled = true /\
    BeautifulSoup W labelled = Returns block /\
    100 < String.length (get_text nl false (root block)) /\
    t = Py.strip (get_text nl false (root block)).
Proof.
  unfold scrape_job_url.
  destruct (_ || _); [discriminate|].
  destruct (urlparse_netloc W url) as [netloc|]; cbn [bind]; [|discriminate].
  match goal with
  | |- context [match ?l with Some _ => _ | None => _ end = _] =>
      destruct l as [result|] eqn:El
  end.
  - intros H. injection H as <-. left.
    destruct (Py.contains _ _); [|discriminate].
    destruct (_extract_linkedin_job_id url) as [job_id|]; [|discriminate].
    destruct (job_id =? "")%string; [discriminate|].
    destruct (_scrape_linkedin_guest_api W job_id) as [r|] eqn:Er; [|discriminate].
    destruct (r =? "")%string; [discriminate|].
    injection El as <-. now apply linkedin_api_threshold in Er.
  - assert (forall r, scrape_cache W url = Returns (Some r) ->
                      100 < String.length r) as Hcache
      by (intros r; apply scrape_cache_result).
    unfold try_except_pass.
    destruct (scrape_page W url) as [[r|]|] eqn:Ep.
    + intros H. injection H as <-. revert Ep. unfold scrape_page.
      destruct (requests_get W url) as [resp|]; cbn [bind]; [|discriminate].
      destruct (ok resp) eqn:Eok; cbn [bind]; [|discriminate].
      destruct (BeautifulSoup W (text resp)) as [page|] eqn:Eb; cbn [bind];
        [|discriminate].
      destruct (scan_ld_json W _) as [[found|]|] eqn:E; cbn [bind];
        [| |discriminate].
      * intros H. injection H as <-. right.
        destruct (scan_ld_json_source W _ E) as (labelled & block & H1 & H2 & H3 & H4).
        exists resp, page, labelled, block. auto 10.
      * destruct (scan_selectors page selectors) as [found|] eqn:Es.
        -- intros H. injection H as <-. left.
           apply scan_selectors_threshold in Es. lia.
        -- intros H. injection H as H. apply body_text_threshold in H. left. lia.
    + destruct (scrape_cache W url) as [[r|]|] eqn:Ec; try discriminate.
      intros H. injection H as <-. left. now apply Hcache.
    + destruct (scrape_cache W url) as [[r|]|] eqn:Ec; try discriminate.
      intros H. injection H as <-. left. now apply Hcache.
Qed.

(** The theorem on the page with the padded posting. *)
Lemma scrape_job_url_text_length_witness :
  100 < String.length ("Job Title: QA" ++ nl ++ "Company:") \/
  exists resp page labelled block,
    requests_get padded_world padded_url = Returns resp /\ ok resp = true /\
    BeautifulSoup padded_world (text resp) = Returns page /\
    scan_ld_json padded_world (ld_json_scripts page)
    = Returns (Some ("Job Title: QA" ++ nl ++ "Company:")) /\
    prefix "Job Title: " labelled = true /\
    BeautifulSoup padded_world labelled = Returns block /\
    100 < String.length (get_text nl false (root block)) /\
    "Job Title: QA" ++ nl ++ "Company:" = Py.strip (get_text nl false (root block)).
Proof.
  apply (@scrape_job_url_text_length padded_world padded_url). reflexivity.
Defined.

(** X8: failures of the network, of the HTML parser and of the JSON decoder
    never leave [scrape_job_url]: the call returns, unless [urlparse] raises,
    and then it raises what [urlparse] raised. *)
Theorem scrape_job_url_contains_failures (W : World) (url : string) :
  (exists r, scrape_job_url W url = Returns r) \/
  (exists e, urlparse_netloc W url = Raises e /\ scrape_job_url W url = Raises e).
Proof.
  destruct (urlparse_netloc W url) as [netloc|e] eqn:En.
  - left. now apply (@scrape_job_url_returns W url netloc).
  - unfold scrape_job_url. rewrite En.
    destruct (_ || _); [left; eauto|right; eauto].
Qed.

(** X9: on a LinkedIn URL with a job identifier, a text of the guest API is
    the result, whatever the page itself and its cached copy hold: the
    identifier and the text are never empty, so the two tests on them
    pass. *)
Theorem scrape_job_url_prefers_guest_api (W : World) (url netloc job_id t : string) :
  Py.startswith "http" url = true ->
  urlparse_netloc W url = Returns netloc ->
  Py.contains "linkedin.com" netloc = true ->
  _extract_linkedin_job_id url = Some job_id ->
  _scrape_linkedin_guest_api W job_id = Some t ->
  scrape_job_url W url = Returns (Some t).
Proof.
  intros Hs Hn Hl Hid Ht. unfold scrape_job_url.
  assert (url <> "") as Hne by (intros ->; discriminate).
  destruct (String.eqb_spec url ""); [contradiction|].
  rewrite Hs, Hn. cbn [bind negb orb]. rewrite Hl, Hid, Ht.
  pose proof (extract_id_not_empty _ Hid) as Hj.
  destruct (String.eqb_spec job_id ""); [contradiction|].
  pose proof (linkedin_api_threshold _ _ Ht) as Hlen.
  destruct (String.eqb_spec t "") as [->|]; [simpl in Hlen; lia|reflexivity].
Qed.

(** The theorem on the posting that only the guest API serves. *)
Lemma scrape_job_url_prefers_guest_api_witness :
  scrape_job_url posting_world posting_url
  = Returns (Some ("Job Title: Senior Engineer" ++ nl ++ "Company: Acme" ++ nl ++ nl
                   ++ "We are looking for a senior engineer to lead the platform team."
                   ++ nl ++ "You will design services, review code and mentor engineers.")).
Proof.
  apply (@scrape_job_url_prefers_guest_api posting_world posting_url
           "www.linkedin.com" "12345678"); reflexivity.
Defined.

(** X10: [_scrape_linkedin_guest_api] gives a text only when the response is
    ok and longer than 200 characters, and the text it gives is longer than
    100 characters. *)
Theorem guest_api_thresholds (W : World) (job_id t : string) :
  _scrape_linkedin_guest_api W job_id = Some t ->
  exists resp,
    requests_get W ("https://www.linkedin.com/jobs-guest/jobs/api/jobPosting/" ++ job_id)
    = Returns resp /\
    ok resp = true /\ 200 < String.length (text resp) /\ 100 < String.length t.
Proof.
  intros H. pose proof (linkedin_api_threshold _ _ H) as Hlen.
  unfold _scrape_linkedin_guest_api in H.
  destruct (requests_get W _) as [resp|]; cbn [bind] in H; [|discriminate].
  exists resp. destruct (ok resp); [|discriminate].
  destruct (Nat.ltb_spec 200 (String.length (text resp))) as [Hlt|_];
    [|discriminate].
  auto.
Qed.

(** The theorem on the posting of the guest API. *)
Lemma guest_api_thresholds_witness :
  exists resp,
    requests_get posting_world
      ("https://www.linkedin.com/jobs-guest/jobs/api/jobPosting/" ++ "12345678")
    = Returns resp /\
    ok resp = true /\ 200 < String.length (text resp) /\
    100 < String.length
            ("Job Title: Senior Engineer" ++ nl ++ "Company: Acme" ++ nl ++ nl
             ++ "We are looking for a senior engineer to lead the platform team."
             ++ nl ++ "You will design services, review code and mentor engineers.").
Proof.
  apply (@guest_api_thresholds posting_world "12345678"). reflexivity.
Defined.

(* ===================================================================== *)
(** ** Text of a PDF *)
(* ===================================================================== *)

Lemma concat_nonempty (sep : string) (parts : list string) :
  Forall (fun t => t <> "") parts -> Py.join sep parts = "" -> parts = [].
Proof.
  unfold Py.join. intros Hall Hj. destruct Hall as [|a l Ha Hl]; [reflexivity|].
  exfalso. destruct a as [|c a]; [now apply Ha|].
  destruct l; simpl in Hj; discriminate Hj.
Qed.

Lemma page_texts_inv (pages : list (outcome (option string))) :
  forall parts,
    page_texts pages = Returns parts ->
    Forall (fun t => t <> "") parts /\ (parts = [] <-> Forall blank_page pages).
Proof.
  induction pages as [|page rest IH]; intros parts H; simpl in H.
  - inversion H; subst. repeat split; auto.
  - destruct page as [page_text|e]; simpl in H; [|discriminate H].
    destruct (page_texts rest) as [text_parts|e]; simpl in H; [|discriminate H].
    destruct (IH text_parts eq_refl) as [Hne Hiff].
    inversion H; subst; clear H.
    destruct page_text as [t|].
    + destruct (String.eqb_spec t "") as [->|Ht].
      * split; [exact Hne|]. split.
        -- intros Hnil. constructor; [now right|now apply Hiff].
        -- intros Hall. inversion Hall; subst. now apply Hiff.
      * split; [now constructor|]. split; [discriminate|].
        intros Hall. inversion Hall as [|? ? [Hb|Hb] ?]; subst.
        -- discriminate Hb.
        -- inversion Hb. congruence.
    + split; [exact Hne|]. split.
      * intros Hnil. constructor; [now left|now apply Hiff].
      * intros Hall. inversion Hall; subst. now apply Hiff.
Qed.

(** X11: when the extraction of a PDF returns, the text is empty exactly when
    the document opened and none of its pages has text (each gave [None] or
    the empty string), the case in which the application warns that it could
    not extract text. *)
Theorem extract_text_from_pdf_empty
    (pdf_open : string -> outcome (list (outcome (option string))))
    (file_bytes t : string) :
  extract_text_from_pdf pdf_open file_bytes = Returns t ->
  (t = "" <->
   exists pages, pdf_open file_bytes = Returns pages /\ Forall blank_page pages).
Proof.
  unfold extract_text_from_pdf. intros H.
  destruct (pdf_open file_bytes) as [pages|e]; simpl in H; [|discriminate H].
  destruct (page_texts pages) as [parts|e] eqn:Hp; simpl in H; [|discriminate H].
  destruct (page_texts_inv pages Hp) as [Hne Hiff].
  inversion H; subst; clear H. split.
  - intros Hj. exists pages. split; [reflexivity|].
    apply Hiff. now apply concat_nonempty with (sep := nl ++ nl).
  - intros [pages' [Heq Hall]]. inversion Heq; subst.
    apply Hiff in Hall. now subst.
Qed.

Lemma extract_text_from_pdf_empty_witness :
  "" = "" <->
  exists pages,
    Returns [Returns None; Returns (Some "")] = Returns pages /\
    Forall blank_page pages.
Proof.
  exact (@extract_text_from_pdf_empty
           (fun _ => Returns [Returns None; Returns (Some "")]) "%PDF" ""
           eq_refl).
Defined.

(* ===================================================================== *)
(** ** Providers and clients *)
(* ===================================================================== *)

Lemma endswith_refl (s : string) : endswith s s = true.
Proof. destruct s; cbn [endswith]; rewrite String.eqb_refl; reflexivity. Qed.

Lemma endswith_app (suffix a : string) : endswith suffix (a ++ suffix) = true.
Proof.
  induction a as [|c a IH]; [apply endswith_refl|].
  cbn [append endswith]. rewrite IH. apply orb_true_r.
Qed.

Lemma truthy_some (a : option string) :
  truthy a = true -> exists k, a = Some k /\ k <> "".
Proof.
  destruct a as [k|]; simpl; [|discriminate].
  destruct (String.eqb_spec k ""); [discriminate|]. eauto.
Qed.

(** X12: with the proxy provider, every client that is built gets a base URL
    that ends with [/v1], whatever the configured URL is; the provider type
    is [openai]. *)
Theorem get_ai_client_proxy_base_url (env : environ) (ty : string) (c : client) :
  _get_provider env = "proxy" ->
  get_ai_client env = Continues (ty, c) ->
  ty = "openai" /\
  exists k b, c = OpenAI k (Some b) /\ endswith "/v1" b = true.
Proof.
  unfold get_ai_client. intros -> H. cbn [String.eqb Ascii.eqb Bool.eqb] in H.
  change (("proxy" =? "proxy")%string) with true in H. cbv iota in H.
  destruct (py_or _ (env "ANTHROPIC_BASE_URL")) as [b|]; [|discriminate H].
  destruct (String.eqb b ""); [discriminate H|].
  destruct (endswith "/v1" b) eqn:E; inversion H; subst; split; auto.
  - eauto.
  - eexists _, _. split; [reflexivity|]. apply endswith_app.
Qed.

Lemma get_ai_client_proxy_base_url_witness :
  "openai" = "openai" /\
  exists k b,
    OpenAI (Some "sk-test") (Some "https://llm.example.com/v1") = OpenAI k (Some b) /\
    endswith "/v1" b = true.
Proof.
  exact (@get_ai_client_proxy_base_url proxy_env _ _ eq_refl eq_refl).
Defined.

(** X13: with every provider but the proxy, a client is built only with an
    API key that is present and not empty; otherwise the script stops. *)
Theorem get_ai_client_key_present (env : environ) (ty : string) (c : client) :
  _get_provider env <> "proxy" ->
  get_ai_client env = Continues (ty, c) ->
  exists k, client_key c = Some k /\ k <> "".
Proof.
  unfold get_ai_client. intros Hp H.
  destruct (String.eqb_spec (_get_provider env) "proxy") as [E|_]; [contradiction|].
  destruct (String.eqb (_get_provider env) "anthropic").
  - destruct (py_or _ _) as [k|]; [|discriminate H].
    destruct (String.eqb_spec k ""); [discriminate H|].
    inversion H; subst. simpl. eauto.
  - destruct (String.eqb (_get_provider env) "google").
    + destruct (truthy (env "GOOGLE_API_KEY")) eqn:T; [|discriminate H].
      inversion H; subst. simpl. now apply truthy_some.
    + destruct (truthy (env "OPENAI_API_KEY")) eqn:T; [|discriminate H].
      inversion H; subst. simpl. now apply truthy_some.
Qed.

Lemma get_ai_client_key_present_witness :
  exists k,
    client_key
      (OpenAI (Some "g-test")
              (Some "https://generativelanguage.googleapis.com/v1beta/openai/"))
    = Some k /\ k <> "".
Proof.
  refine (@get_ai_client_key_present google_env _ _ _ eq_refl).
  discriminate.
Defined.

(** X14: the provider type that comes with a client always names the kind of
    the client: [anthropic] with an Anthropic client, and only for the
    provider [anthropic]; [openai] with an OpenAI client for every other
    provider. So the dispatch of [_chat] on the type calls the interface the
    client has. *)
Theorem get_ai_client_type_matches (env : environ) (ty : string) (c : client) :
  get_ai_client env = Continues (ty, c) ->
  (_get_provider env = "anthropic" /\ ty = "anthropic" /\ exists k, c = Anthropic k)
  \/
  (_get_provider env <> "anthropic" /\ ty = "openai" /\ exists k b, c = OpenAI k b).
Proof.
  unfold get_ai_client. intros H.
  destruct (String.eqb_spec (_get_provider env) "proxy") as [E|_].
  - right. rewrite E. split; [discriminate|].
    destruct (py_or _ (env "ANTHROPIC_BASE_URL")) as [b|]; [|discriminate H].
    destruct (String.eqb b ""); [discriminate H|].
    inversion H; subst. eauto.
  - destruct (String.eqb_spec (_get_provider env) "anthropic") as [E|N].
    + left. split; [exact E|].
      destruct (py_or _ _) as [k|]; [|discriminate H].
      destruct (String.eqb k ""); [discriminate H|].
      inversion H; subst. eauto.
    + right. split; [exact N|].
      destruct (String.eqb (_get_provider env) "google").
      * destruct (truthy _); [|discriminate H]. inversion H; subst. eauto.
      * destruct (truthy (env "OPENAI_API_KEY")); [|discriminate H].
        inversion H; subst. eauto.
Qed.

Lemma get_ai_client_type_matches_witness :
  (_get_provider azure_env = "anthropic" /\ "openai" = "anthropic" /\
   exists k, OpenAI (Some "sk-test") None = Anthropic k)
  \/
  (_get_provider azure_env <> "anthropic" /\ "openai" = "openai" /\
   exists k b, OpenAI (Some "sk-test") None = OpenAI k b).
Proof.
  exact (@get_ai_client_type_matches azure_env _ _ eq_refl).
Defined.

(** X15: for a provider name that is none of the four configured ones, the
    model list and default the applications offer are those of Anthropic,
    while the client that is built is an OpenAI client with the key of
    [OPENAI_API_KEY]: the offered Claude models are sent to the OpenAI
    interface. *)
Theorem unknown_provider_config_and_client (env : environ) :
  _get_provider env <> "anthropic" ->
  _get_provider env <> "openai" ->
  _get_provider env <> "google" ->
  _get_provider env <> "proxy" ->
  pconfig (_get_provider env) = pconfig "anthropic" /\
  forall ty c,
    get_ai_client env = Continues (ty, c) ->
    ty = "openai" /\ exists b, c = OpenAI (env "OPENAI_API_KEY") b.
Proof.
  intros Ha Ho Hg Hp. split.
  - unfold pconfig, PROVIDER_CONFIG. cbn [config_lookup].
    destruct (String.eqb_spec (_get_provider env) "anthropic"); [contradiction|].
    destruct (String.eqb_spec (_get_provider env) "openai"); [contradiction|].
    destruct (String.eqb_spec (_get_provider env) "google"); [contradiction|].
    destruct (String.eqb_spec (_get_provider env) "proxy"); [contradiction|].
    reflexivity.
  - intros ty c. unfold get_ai_client.
    destruct (String.eqb_spec (_get_provider env) "proxy"); [contradiction|].
    destruct (String.eqb_spec (_get_provider env) "anthropic"); [contradiction|].
    destruct (String.eqb_spec (_get_provider env) "google"); [contradiction|].
    destruct (truthy (env "OPENAI_API_KEY")); [|discriminate].
    intros H. inversion H; subst. eauto.
Qed.

Lemma unknown_provider_config_and_client_witness :
  pconfig (_get_provider azure_env) = pconfig "anthropic" /\
  forall ty c,
    get_ai_client azure_env = Continues (ty, c) ->
    ty = "openai" /\ exists b, c = OpenAI (azure_env "OPENAI_API_KEY") b.
Proof.
  apply unknown_provider_config_and_client; discriminate.
Defined.

(* ===================================================================== *)
(** ** Web search *)
(* ===================================================================== *)

(** [s] starts with an opening bracket. *)
Lemma format_result_bracket (r : search_result) :
  starts_with "[" (format_result r) = true.
Proof. reflexivity. Qed.

Lemma search_queries_bracket (session : Type)
    (ddgs_text : session -> string -> nat -> session * outcome (list search_result))
    (n : nat) (queries : list string) :
  forall ddgs,
    Forall (fun t => starts_with "[" t = true) (search_queries ddgs_text ddgs queries n).
Proof.
  induction queries as [|q rest IH]; intros ddgs; cbn [search_queries]; [constructor|].
  destruct (ddgs_text ddgs q n) as [ddgs' [results|e]].
  - apply Forall_app. split; [|apply IH].
    apply Forall_forall. intros t Ht. apply in_map_iff in Ht as [r [<- _]].
    apply format_result_bracket.
  - apply IH.
Qed.

Lemma join_starts_with (sep : string) (c : ascii) (a : string) (l : list string) :
  starts_with c a = true -> starts_with c (Py.join sep (a :: l)) = true.
Proof.
  unfold Py.join. destruct a as [|x a]; [discriminate|]. intros H.
  destruct l; exact H.
Qed.

Section SearchFacts.

Variable session : Type.
Variable ddgs_text : session -> string -> nat -> session * outcome (list search_result).
Variable n : nat.

(** The loop collects the results of the answers, in order, each in its
    printed form. *)
Lemma search_queries_answers (queries : list string) :
  forall ddgs,
    search_queries ddgs_text ddgs queries n
    = map format_result (flat_map results_of (answers ddgs_text ddgs queries n)).
Proof.
  induction queries as [|q rest IH]; intros ddgs; [reflexivity|].
  cbn [search_queries answers].
  destruct (ddgs_text ddgs q n) as [ddgs' [results|e]];
    cbn [flat_map results_of]; rewrite ?map_app, IH; reflexivity.
Qed.

End SearchFacts.

Lemma no_results_found (l : list (outcome (list search_result))) :
  flat_map results_of l = [] <-> Forall no_result l.
Proof.
  induction l as [|a l IH]; [split; [constructor|reflexivity]|].
  cbn [flat_map]. split.
  - intros H. apply app_eq_nil in H as [Ha Hl]. constructor; [|now apply IH].
    destruct a as [[|r rs]|e]; [now right|discriminate Ha|left; eauto].
  - intros H. inversion H as [|? ? Ha Hl]; subst.
    rewrite (proj2 IH Hl), app_nil_r.
    destruct Ha as [[e ->]| ->]; reflexivity.
Qed.

(** X16: the text of a web search is never empty.  It is the notice
    [No web results found.] exactly when the session cannot be opened or
    every query raised or came back empty; otherwise it is the results of
    the queries, in the order of the queries and of their answers, each as
    its title in brackets, its link in parentheses, a line feed and its
    body, joined by the separator line.  So a query that raises is skipped
    and the results of the other queries are all there. *)
Theorem web_search_results (session : Type) (DDGS : outcome session)
    (ddgs_text : session -> string -> nat -> session * outcome (list search_result))
    (queries : list string) (n : nat) :
  _web_search DDGS ddgs_text queries n <> "" /\
  (_web_search DDGS ddgs_text queries n = "No web results found." <->
   forall ddgs, DDGS = Returns ddgs ->
                Forall no_result (answers ddgs_text ddgs queries n)) /\
  (forall ddgs, DDGS = Returns ddgs ->
     ~ Forall no_result (answers ddgs_text ddgs queries n) ->
     _web_search DDGS ddgs_text queries n
     = Py.join (nl ++ nl ++ "---" ++ nl ++ nl)
         (map format_result
              (flat_map results_of (answers ddgs_text ddgs queries n)))).
Proof.
  unfold _web_search. destruct DDGS as [ddgs|e].
  - rewrite search_queries_answers.
    destruct (flat_map results_of (answers ddgs_text ddgs queries n))
      as [|r l] eqn:E; cbn [map].
    + split; [discriminate|]. split.
      * split; [|reflexivity]. intros _ d Hd. injection Hd as <-.
        now apply no_results_found.
      * intros d Hd Hnot. injection Hd as <-. exfalso.
        now apply Hnot, no_results_found.
    + pose proof (@join_starts_with (nl ++ nl ++ "---" ++ nl ++ nl) "["
                    (format_result r) (map format_result l)
                    (format_result_bracket r)) as Hj.
      split; [intros Hnil; rewrite Hnil in Hj; discriminate Hj|]. split.
      * split.
        -- intros Hp. rewrite Hp in Hj. discriminate Hj.
        -- intros Hall. specialize (Hall ddgs eq_refl).
           apply no_results_found in Hall. congruence.
      * intros d Hd _. injection Hd as <-. now rewrite E.
  - split; [discriminate|]. split.
    + split; [|reflexivity]. intros _ d Hd. discriminate Hd.
    + intros d Hd. discriminate Hd.
Qed.

(* ===================================================================== *)
(** ** The PDF of a resume *)
(* ===================================================================== *)

Section ChromeFacts.

Variable isfile : string -> bool.
Variable which : string -> option string.

Lemma first_file_some (l : list string) (p : string) :
  first_file isfile l = Some p -> In p l /\ isfile p = true.
Proof.
  induction l as [|c l IH]; simpl; [discriminate|].
  destruct (isfile c) eqn:E.
  - intros H. inversion H; subst. auto.
  - intros H. destruct (IH H). auto.
Qed.

Lemma first_file_none (l : list string) :
  first_file isfile l = None -> forall c, In c l -> isfile c = false.
Proof.
  induction l as [|x l IH]; simpl; [contradiction|].
  destruct (isfile x) eqn:E; [discriminate|].
  intros H c [<-|Hc]; auto.
Qed.

Lemma first_on_path_some (l : list string) (p : string) :
  first_on_path which l = Some p ->
  p <> "" /\ exists name, In name l /\ which name = Some p.
Proof.
  induction l as [|x l IH]; simpl; [discriminate|].
  destruct (truthy (which x)) eqn:E.
  - intros H. apply truthy_some in E as [k [Hk Hne]].
    rewrite Hk in H. inversion H; subst. eauto.
  - intros H. destruct (IH H) as [Hne [name [Hin Hw]]]. eauto.
Qed.

End ChromeFacts.

(** X17: the binary [_find_chrome] gives is never the empty string, and it is
    either one of the six fixed paths, which is then a file, or, only when
    none of the six is a file, what [shutil.which] gave for one of the four
    names: the fixed paths come before the search path. *)
Theorem find_chrome_result (isfile : string -> bool) (which : string -> option string)
    (p : string) :
  _find_chrome isfile which = Some p ->
  p <> "" /\
  ((In p chrome_candidates /\ isfile p = true) \/
   ((forall c, In c chrome_candidates -> isfile c = false) /\
    exists name, In name chrome_names /\ which name = Some p)).
Proof.
  unfold _find_chrome. destruct (first_file isfile chrome_candidates) as [q|] eqn:E.
  - intros H. inversion H; subst. apply first_file_some in E as [Hin Hf].
    split; [|now left].
    unfold chrome_candidates in Hin. simpl in Hin.
    intuition (subst; discriminate).
  - intros H. apply first_on_path_some in H as [Hne Hn].
    split; [exact Hne|]. right. split; [|exact Hn].
    now apply first_file_none.
Qed.

Lemma find_chrome_result_witness :
  "/opt/bin/chromium" <> "" /\
  ((In "/opt/bin/chromium" chrome_candidates /\
    chromium_isfile "/opt/bin/chromium" = true) \/
   ((forall c, In c chrome_candidates -> chromium_isfile c = false) /\
    exists name, In name chrome_names /\ chromium_which name = Some "/opt/bin/chromium")).
Proof.
  exact (@find_chrome_result chromium_isfile chromium_which _ eq_refl).
Defined.

(** X18: the bytes [generate_pdf] returns are empty unless Chrome was found,
    the temporary HTML file was made and written with the clean rendering of
    the Document, the run of Chrome on it ended without an exception, and it
    left at the PDF path a file that is not empty; the bytes are then the
    content of that file, and no warning is shown. *)
Theorem generate_pdf_bytes
    (template : json -> json -> json -> string)
    (isfile : string -> bool) (which : string -> option string)
    (NamedTemporaryFile : files -> option string)
    (f_write : string -> string -> files -> option files)
    (subprocess_run : list string -> files -> files * completion)
    (os_unlink : string -> files -> option files)
    (resume_data : dict) (fs fs' : files) (pdf : string) (warnings : list string) :
  generate_pdf template isfile which NamedTemporaryFile f_write subprocess_run
               os_unlink resume_data fs
  = Some (pdf, fs', warnings) ->
  pdf <> "" ->
  warnings = [] /\
  exists chrome html_path fs1 fs2,
    _find_chrome isfile which = Some chrome /\
    NamedTemporaryFile fs = Some html_path /\
    f_write html_path (render_resume_html template resume_data false) fs = Some fs1 /\
    subprocess_run
      [chrome; "--headless"; "--disable-gpu"; "--no-sandbox";
       "--print-to-pdf=" ++ Py.replace ".html" ".pdf" html_path;
       "--no-pdf-header-footer"; html_path]
      fs1
    = (fs2, Completed) /\
    fs2 (Py.replace ".html" ".pdf" html_path) = Some pdf.
Proof.
  unfold generate_pdf. intros H Hne.
  destruct (_find_chrome isfile which) as [chrome|] eqn:Hc; cbn [truthy] in H.
  2:{ inversion H; subst. now contradiction Hne. }
  destruct (negb (String.eqb chrome "")).
  2:{ inversion H; subst. now contradiction Hne. }
  destruct (NamedTemporaryFile fs) as [html_path|] eqn:Ht; [|discriminate H].
  destruct (f_write html_path _ fs) as [fs1|] eqn:Hw; [|discriminate H].
  destruct (subprocess_run _ _) as [fs2 done] eqn:Hr.
  destruct done as [|e].
  - destruct (fs2 (Py.replace ".html" ".pdf" html_path)) as [content|] eqn:Hf.
    + destruct (0 <? String.length content); inversion H; subst.
      * split; [reflexivity|]. exists chrome, html_path, fs1, fs2. auto 10.
      * now contradiction Hne.
    + inversion H; subst. now contradiction Hne.
  - inversion H; subst. now contradiction Hne.
Qed.

Lemma generate_pdf_bytes_witness :
  [] = @nil string /\
  exists chrome html_path fs1 fs2,
    _find_chrome chromium_isfile chromium_which = Some chrome /\
    tmp_file no_files = Some html_path /\
    disk_write html_path (render_resume_html (fun _ _ _ => page_shell) mixed_doc false)
               no_files = Some fs1 /\
    chromium_run
      [chrome; "--headless"; "--disable-gpu"; "--no-sandbox";
       "--print-to-pdf=" ++ Py.replace ".html" ".pdf" html_path;
       "--no-pdf-header-footer"; html_path]
      fs1
    = (fs2, Completed) /\
    fs2 (Py.replace ".html" ".pdf" html_path) = Some "%PDF-1.4".
Proof.
  refine (@generate_pdf_bytes (fun _ _ _ => page_shell) chromium_isfile chromium_which
            tmp_file disk_write chromium_run disk_unlink mixed_doc no_files
            _ "%PDF-1.4" [] eq_refl _).
  discriminate.
Defined.

(* ===================================================================== *)
(** ** The name of the download *)
(* ===================================================================== *)

Lemma replace_char_cons (c a : ascii) (new s : string) :
  Py.replace (String c "") new (String a s)
  = if Ascii.eqb a c then new ++ Py.replace (String c "") new s
    else String a (Py.replace (String c "") new s).
Proof.
  unfold Py.replace. cbn [Py.replace_from]. rewrite prefix_cons.
  destruct (ascii_dec c a) as [->|N].
  - rewrite Ascii.eqb_refl, prefix_empty. reflexivity.
  - destruct (Ascii.eqb_spec a c); [congruence|reflexivity].
Qed.

Lemma replace_char_all_in (c : ascii) (new s : string) :
  all_in (other_than c) new = true ->
  all_in (other_than c) (Py.replace (String c "") new s) = true.
Proof.
  intros Hn. induction s as [|a s IH]; [reflexivity|].
  rewrite replace_char_cons. destruct (Ascii.eqb a c) eqn:E.
  - now rewrite all_in_app, Hn, IH.
  - cbn [all_in]. unfold other_than at 1. now rewrite E, IH.
Qed.

(** X19: the file name offered for the download never holds a space,
    whatever company and role the analysis gave. *)
Theorem download_filename_no_space (jd_a : dict) (filename : string) :
  download_filename jd_a = Returns filename ->
  all_in (other_than " ") filename = true.
Proof.
  unfold download_filename, value_replace. intros H.
  destruct (get jd_a "company" (JStr "company")) as [| | |c| |]; try discriminate H.
  destruct (get jd_a "role" (JStr "role")) as [| | |r| |]; try discriminate H.
  cbn [bind] in H. injection H as <-.
  cbn [all_in]. rewrite all_in_app. cbn [all_in].
  rewrite all_in_app, !replace_char_all_in by reflexivity. reflexivity.
Qed.

Lemma download_filename_no_space_witness :
  all_in (other_than " ") "Resume_Acme_Corp_Staff_Engineer.pdf" = true.
Proof.
  exact (@download_filename_no_space
           [("company", JStr "Acme Corp"); ("role", JStr "Staff Engineer")] _ eq_refl).
Defined.

(** X20: when the analysis holds under [company] or [role] a value that is
    not a string, a [null] for one, the file name cannot be built:
    [AttributeError] is raised. *)
Theorem download_filename_needs_strings (jd_a : dict) (k : string) (v : json) :
  k = "company" \/ k = "role" ->
  lookup k jd_a = Some v ->
  (forall s, v <> JStr s) ->
  download_filename jd_a = Raises AttributeError.
Proof.
  intros Hk Hl Hv. unfold download_filename, value_replace, get.
  destruct Hk as [-> | ->]; rewrite Hl.
  - destruct v; try reflexivity. now contradiction (Hv s).
  - destruct (match lookup "company" jd_a with Some v0 => v0 | None => JStr "company" end);
      try reflexivity.
    cbn [bind]. destruct v; try reflexivity. now contradiction (Hv s0).
Qed.

Lemma download_filename_needs_strings_witness :
  download_filename [("company", JNull); ("role", JStr "QA")] = Raises AttributeError.
Proof.
  refine (@download_filename_needs_strings
            [("company", JNull); ("role", JStr "QA")] "company" JNull
            (or_introl eq_refl) eq_refl _).
  discriminate.
Defined.

(* ===================================================================== *)
(** ** Markdown fences around the generated page *)
(* ===================================================================== *)

Lemma split_on_cons (sep : ascii) (s : string) :
  exists h t, split_on sep s = h :: t.
Proof.
  destruct s as [|c s]; simpl; [eauto|].
  destruct (Ascii.eqb c sep); [eauto|].
  destruct (split_on sep s); eauto.
Qed.

Lemma split_on_app (sep : ascii) (a b : string) :
  split_on sep (a ++ String sep b) = (split_on sep a ++ split_on sep b)%list.
Proof.
  induction a as [|x a IH]; cbn [append split_on].
  - now rewrite Ascii.eqb_refl.
  - destruct (Ascii.eqb x sep); rewrite IH; [reflexivity|].
    destruct (split_on_cons sep a) as [h [t ->]]. reflexivity.
Qed.

Lemma split_on_none (sep : ascii) (s : string) :
  all_in (other_than sep) s = true -> split_on sep s = [s].
Proof.
  induction s as [|c s IH]; [reflexivity|]. cbn [all_in split_on].
  unfold other_than at 1. intros H. apply andb_prop in H as [Hc Hs].
  destruct (Ascii.eqb c sep); [discriminate Hc|]. now rewrite IH.
Qed.

Lemma join_split_on (sep : ascii) (s : string) :
  Py.join (String sep "") (split_on sep s) = s.
Proof.
  unfold Py.join. induction s as [|c s IH]; [reflexivity|]. cbn [split_on].
  destruct (Ascii.eqb_spec c sep) as [->|N].
  - destruct (split_on_cons sep s) as [h [t E]]. rewrite E in *.
    change (String.concat (String sep "") ("" :: h :: t))
      with ("" ++ String sep "" ++ String.concat (String sep "") (h :: t)).
    now rewrite IH.
  - destruct (split_on_cons sep s) as [h [t E]]. rewrite E in *.
    rewrite <- IH. now destruct t.
Qed.

(** X21: an answer that wraps the page in a fenced block, with any tag on
    the opening fence line and white space around the block, is cleaned to
    exactly the page between the two fence lines, whatever the page
    holds. *)
Theorem clean_markdown_fences_round_trip (w1 tag body w2 : string) :
  all_in space w1 = true ->
  all_in space w2 = true ->
  all_in (other_than "010") tag = true ->
  clean_markdown_fences (w1 ++ (fence ++ tag ++ nl ++ body ++ nl ++ fence) ++ w2) = body.
Proof.
  intros H1 H2 Ht. unfold clean_markdown_fences.
  assert (fence ++ tag ++ nl ++ body ++ nl ++ fence
          = String "`" (("``" ++ tag ++ nl ++ body ++ nl ++ "``") ++ String "`" "")) as E.
  { unfold fence. cbn [append]. do 3 f_equal.
    rewrite !append_assoc. reflexivity. }
  rewrite E, strip_wrapped by (assumption || reflexivity). rewrite <- E. clear E.
  unfold Py.startswith.
  assert (prefix fence (fence ++ tag ++ nl ++ body ++ nl ++ fence) = true) as ->
    by apply prefix_app.
  assert (split_on "010" (fence ++ tag ++ nl ++ body ++ nl ++ fence)
          = (fence ++ tag) :: (split_on "010" body ++ [fence])%list) as ->.
  { rewrite <- append_assoc. unfold nl. cbn [append].
    rewrite split_on_app, split_on_app.
    rewrite split_on_none by (rewrite all_in_app; now rewrite Ht).
    reflexivity. }
  unfold last_line.
  change ((fence ++ tag) :: (split_on "010" body ++ [fence])%list)
    with (((fence ++ tag)%string :: split_on "010" body) ++ [fence])%list at 1.
  rewrite last_last. cbn [tl].
  change (Py.strip fence =? fence)%string with true. cbv iota.
  rewrite removelast_last. apply join_split_on.
Qed.

Lemma clean_markdown_fences_round_trip_witness :
  clean_markdown_fences
    ((nl ++ " ") ++ (fence ++ "html" ++ nl ++ ("<h1>Hi</h1>" ++ nl ++ "<p>" ++ fence ++ "</p>")
                     ++ nl ++ fence) ++ nl)
  = "<h1>Hi</h1>" ++ nl ++ "<p>" ++ fence ++ "</p>".
Proof.
  apply clean_markdown_fences_round_trip; reflexivity.
Defined.

(** X22: an answer cut off before the closing fence line loses only its
    opening fence line: when the last line of the page is not a fence, the
    cleaning gives the page after the opening line, to its last character
    that is not white space. *)
Theorem clean_markdown_fences_unclosed (w1 tag m w2 : string) (b : ascii) :
  all_in space w1 = true ->
  all_in space w2 = true ->
  all_in (other_than "010") tag = true ->
  space b = false ->
  Py.strip (last_line (split_on "010" (m ++ String b ""))) <> fence ->
  clean_markdown_fences (w1 ++ (fence ++ tag ++ nl ++ m ++ String b "") ++ w2)
  = m ++ String b "".
Proof.
  intros H1 H2 Ht Hb Hlast. unfold clean_markdown_fences.
  assert (fence ++ tag ++ nl ++ m ++ String b ""
          = String "`" (("``" ++ tag ++ nl ++ m) ++ String b "")) as E.
  { unfold fence. cbn [append]. do 3 f_equal.
    rewrite !append_assoc. reflexivity. }
  rewrite E, strip_wrapped by (assumption || reflexivity). rewrite <- E. clear E.
  unfold Py.startswith.
  assert (prefix fence (fence ++ tag ++ nl ++ m ++ String b "") = true) as ->
    by apply prefix_app.
  assert (split_on "010" (fence ++ tag ++ nl ++ m ++ String b "")
          = (fence ++ tag) :: split_on "010" (m ++ String b "")) as ->.
  { rewrite <- append_assoc. unfold nl. cbn [append].
    rewrite split_on_app.
    rewrite split_on_none by (rewrite all_in_app; now rewrite Ht).
    reflexivity. }
  unfold last_line in *.
  destruct (split_on_cons "010" (m ++ String b "")) as [h [t Es]].
  rewrite Es in *. cbn [tl].
  change (last ((fence ++ tag) :: h :: t) "") with (last (h :: t) "").
  destruct (String.eqb_spec (Py.strip (last (h :: t) "")) fence) as [Ef|_];
    [contradiction|].
  rewrite <- Es. apply join_split_on.
Qed.

Lemma clean_markdown_fences_unclosed_witness :
  clean_markdown_fences
    ("" ++ (fence ++ "html" ++ nl ++ ("<h1>Hi</h1>" ++ nl ++ "<p") ++ String ">" "") ++ nl)
  = ("<h1>Hi</h1>" ++ nl ++ "<p") ++ String ">" "".
Proof.
  apply clean_markdown_fences_unclosed; try reflexivity. discriminate.
Defined.

(* ===================================================================== *)
(** ** The name of the generated page *)
(* ===================================================================== *)

Lemma replace_char_keeps (p : ascii -> bool) (d : ascii) (new s : string) :
  all_in p new = true -> all_in p s = true ->
  all_in p (Py.replace (String d "") new s) = true.
Proof.
  intros Hn. induction s as [|a s IH]; [reflexivity|].
  cbn [all_in]. intros H. apply andb_prop in H as [Ha Hs].
  rewrite replace_char_cons. destruct (Ascii.eqb a d).
  - now rewrite all_in_app, Hn, IH.
  - cbn [all_in]. now rewrite Ha, IH.
Qed.

Lemma lower_char_not_capital (c : ascii) : capital (lower_char c) = false.
Proof. destruct c as [[] [] [] [] [] [] [] []]; reflexivity. Qed.

Lemma lower_not_capital (s : string) :
  all_in (fun c => negb (capital c)) (lower s) = true.
Proof.
  induction s as [|c s IH]; [reflexivity|].
  cbn [lower all_in]. now rewrite lower_char_not_capital, IH.
Qed.

(** X23: the file name offered for the generated page holds no space and no
    capital letter of ASCII, whatever the product name is. *)
Theorem landing_page_filename_plain (name : string) :
  all_in (other_than " ") (landing_page_filename name) = true /\
  all_in (fun c => negb (capital c)) (landing_page_filename name) = true.
Proof.
  unfold landing_page_filename. rewrite !all_in_app. split.
  - now rewrite replace_char_all_in.
  - rewrite replace_char_keeps; [reflexivity|reflexivity|apply lower_not_capital].
Qed.

(* ===================================================================== *)
(** ** The keyword tags of a result *)
(* ===================================================================== *)

Lemma count_char_app (c : ascii) (a b : string) :
  count_char c (a ++ b) = count_char c a + count_char c b.
Proof. induction a as [|x a IH]; simpl; [reflexivity|]. rewrite IH. lia. Qed.

Lemma all_in_count (c : ascii) (s : string) :
  all_in (other_than c) s = true -> count_char c s = 0.
Proof.
  induction s as [|a s IH]; [reflexivity|]. cbn [all_in count_char].
  unfold other_than at 1. intros H. apply andb_prop in H as [Ha Hs].
  destruct (Ascii.eqb a c); [discriminate Ha|]. now rewrite IH.
Qed.

Lemma html_escape_no_angle (s : string) :
  all_in (other_than "<") (html_escape s) = true /\
  all_in (other_than ">") (html_escape s) = true.
Proof.
  unfold html_escape. split.
  - do 3 (apply replace_char_keeps; [reflexivity|]).
    now apply replace_char_all_in.
  - do 2 (apply replace_char_keeps; [reflexivity|]).
    now apply replace_char_all_in.
Qed.

Lemma keyword_tag_count (W : World) (kind : string) (kw : json) (c : ascii) :
  c = "<"%char \/ c = ">"%char ->
  count_char c kind = 0 ->
  count_char c (keyword_tag W kind kw) = 2.
Proof.
  intros Hc Hk. unfold keyword_tag.
  destruct (html_escape_no_angle (py_str W kw)) as [Hl Hg].
  rewrite !count_char_app, Hk.
  destruct Hc as [-> | ->].
  - now rewrite (all_in_count _ _ Hl).
  - now rewrite (all_in_count _ _ Hg).
Qed.

Lemma tags_count (W : World) (kind : string) (c : ascii) (l : list json) :
  c = "<"%char \/ c = ">"%char ->
  count_char c kind = 0 ->
  count_char c (Py.join "" (map (keyword_tag W kind) l)) = 2 * List.length l.
Proof.
  intros Hc Hk. unfold Py.join. induction l as [|x l IH]; [reflexivity|].
  cbn [map List.length].
  destruct l as [|y l].
  - cbn [map String.concat]. rewrite keyword_tag_count by assumption. reflexivity.
  - change (String.concat "" (keyword_tag W kind x :: map (keyword_tag W kind) (y :: l)))
      with (keyword_tag W kind x ++ "" ++
            String.concat "" (map (keyword_tag W kind) (y :: l))).
    rewrite !count_char_app, IH, keyword_tag_count by assumption.
    cbn [count_char List.length]. lia.
Qed.

(** X24: the markup of the keyword bar, which is shown as HTML, holds two
    opening and two closing angle brackets per keyword, those of the span
    tags the program writes: no keyword brings a tag of its own, whatever
    text it holds. *)
Theorem keyword_bar_tags (W : World) (number_truth : string -> bool)
    (match_notes : dict) (kw_html : string) :
  keyword_bar W number_truth match_notes = Some (Some kw_html) ->
  exists used missing,
    iterate (get match_notes "keywords_used" (JArr [])) = Some used /\
    iterate (get match_notes "keywords_missing" (JArr [])) = Some missing /\
    count_char "<" kw_html = 2 * (List.length used + List.length missing) /\
    count_char ">" kw_html = 2 * (List.length used + List.length missing).
Proof.
  unfold keyword_bar. intros H.
  destruct (truth _ _ || truth _ _); [|discriminate H].
  destruct (iterate (get match_notes "keywords_used" (JArr []))) as [used|];
    [|discriminate H].
  destruct (iterate (get match_notes "keywords_missing" (JArr []))) as [missing|];
    [|discriminate H].
  injection H as <-. exists used, missing. repeat split.
  - rewrite count_char_app, !tags_count by (auto; reflexivity). lia.
  - rewrite count_char_app, !tags_count by (auto; reflexivity). lia.
Qed.

Lemma keyword_bar_tags_witness :
  exists used missing,
    iterate (get markup_notes "keywords_used" (JArr [])) = Some used /\
    iterate (get markup_notes "keywords_missing" (JArr [])) = Some missing /\
    count_char "<"
      (Py.join "" (map (keyword_tag posting_world "keyword-hit")
                       [JStr "<b>SQL</b>"; JStr "R&D"])
       ++ Py.join "" (map (keyword_tag posting_world "keyword-miss")
                          [JStr "<script>alert('x')</script>"]))
    = 2 * (List.length used + List.length missing) /\
    count_char ">"
      (Py.join "" (map (keyword_tag posting_world "keyword-hit")
                       [JStr "<b>SQL</b>"; JStr "R&D"])
       ++ Py.join "" (map (keyword_tag posting_world "keyword-miss")
                          [JStr "<script>alert('x')</script>"]))
    = 2 * (List.length used + List.length missing).
Proof.
  exact (@keyword_bar_tags posting_world (fun _ => true) markup_notes _ eq_refl).
Defined.

(* ===================================================================== *)
(** ** The text of a company website *)
(* ===================================================================== *)

Lemma take_prefix (n : nat) (s : string) : prefix (Py.take n s) s = true.
Proof.
  revert s. induction n as [|n IH]; intros [|c s]; try reflexivity.
  cbn [Py.take]. rewrite prefix_cons.
  destruct (ascii_dec c c); [apply IH|contradiction].
Qed.

Lemma take_length_min (n : nat) (s : string) :
  String.length (Py.take n s) = Nat.min n (String.length s).
Proof.
  revert s. induction n as [|n IH]; intros [|c s]; try reflexivity.
  cbn [Py.take String.length]. now rewrite IH.
Qed.

(** X25: [_scrape_website] requests the URL itself when it starts with
    [http], and the URL with [https://] in front otherwise.  When the
    request, the status test and the parser succeed, the result is the
    start of the page's text (the text nodes outside scripts, styles,
    navigation, footers and noscript, stripped and joined by line feeds):
    all of it when it has at most 6000 characters, its first 6000
    characters otherwise.  When one of the three fails, the result is the
    notice [Could not scrape website: ] followed by the text of the
    exception of the step that failed. *)
Theorem scrape_website_result (W : World) (decomposed : soup -> list string -> element)
    (exception_text : exn -> string) (url : string) :
  let target := if Py.startswith "http" url then url else "https://" ++ url in
  let result := _scrape_website W decomposed exception_text url in
  (exists resp page,
     requests_get W target = Returns resp /\ ok resp = true /\
     BeautifulSoup W (text resp) = Returns page /\
     prefix result
       (get_text nl true
          (decomposed page ["script"; "style"; "nav"; "footer"; "noscript"])) = true /\
     String.length result
     = Nat.min 6000
         (String.length
            (get_text nl true
               (decomposed page ["script"; "style"; "nav"; "footer"; "noscript"]))))
  \/
  (exists e,
     result = "Could not scrape website: " ++ exception_text e /\
     (requests_get W target = Raises e \/
      exists resp,
        requests_get W target = Returns resp /\
        ((ok resp = false /\ e = HTTPError) \/
         (ok resp = true /\ BeautifulSoup W (text resp) = Raises e)))).
Proof.
  cbv zeta. unfold _scrape_website.
  destruct (requests_get W _) as [resp|e] eqn:Er; cbn [bind];
    [|right; exists e; auto].
  destruct (ok resp) eqn:Eok; cbn [bind];
    [|right; exists HTTPError; split; [reflexivity|]; right; exists resp; auto].
  destruct (BeautifulSoup W (text resp)) as [page|e] eqn:Eb; cbn [bind].
  - left. exists resp, page. repeat split; auto.
    + apply take_prefix.
    + apply take_length_min.
  - right. exists e. split; [reflexivity|]. right. exists resp. auto.
Qed.
